(** * Helios testnet onboarding: session store and wallet controller

    A shallow embedding of [store/onboardingStore.ts] (the zustand store with
    its [initialize] reconciliation routine) and of the disconnect and
    invite-registration logic of [components/ConnectWallet.tsx], together
    with the properties the specification states about them.

    Conventions of the embedding.
    - JavaScript strings are [string]s of code units below 256.
    - The store is a record; zustand's [set(partial)] is a [Patch] merged
      into it. Every [set], every [localStorage] access and every call that
      leaves the page (API gateway, wallet signature) is appended to a trace,
      so that "never sets", "never clears" and "issues no call" are
      statements about the trace and not only about the final state.
    - [async] functions are run to completion in program order: the flow is
      single threaded and every [await] of the modelled functions is followed
      by its continuation before anything else is looked at here.
    - An exception is an [Outcome]: [Returned v] or [Threw e].
    - The remote API, the wallet provider and the runtime's [atob] and
      [JSON.parse] are not code of this repository: they are the fields of
      an [Env] record, over which the theorems quantify.
    - A React component is its [useState] cells; a handler or an effect is a
      function of the render that created it, and a commit runs the effects
      whose dependencies changed.
    - [console.log] and [console.error] write nothing the program reads back
      and are left out. *)

From Stdlib Require Import ZArith Ascii.
From stdpp Require Import base option list gmap strings.

Open Scope Z_scope.

(** ** JavaScript values the code looks at *)

Module JS.

(** [if (s)] on a string or [null]: the empty string is falsy. *)
Definition truthy (s : string) : bool :=
  match s with
  | EmptyString => false
  | String _ _ => true
  end.

Definition truthy_opt (o : option string) : bool :=
  match o with
  | Some s => truthy s
  | None => false
  end.

(** [hay.includes(needle)] *)
Fixpoint includes (needle hay : string) : bool :=
  String.prefix needle hay
  || match hay with
     | EmptyString => false
     | String _ rest => includes needle rest
     end.

(** [s.split(sep)] for a separator of one code unit. *)
Fixpoint split (sep : ascii) (s : string) : list string :=
  match s with
  | EmptyString => [EmptyString]
  | String c rest =>
      if Ascii.eqb c sep then EmptyString :: split sep rest
      else match split sep rest with
           | seg :: segs => String c seg :: segs
           | [] => [String c EmptyString]
           end
  end.

(** White space and line terminators among the code units below 256:
    TAB, LF, VT, FF, CR, SPACE and NBSP. *)
Definition is_space (c : ascii) : bool :=
  let n := N_of_ascii c in
  ((9 <=? n) && (n <=? 13) || (n =? 32) || (n =? 160))%N.

Fixpoint trimStart (s : string) : string :=
  match s with
  | EmptyString => EmptyString
  | String c rest => if is_space c then trimStart rest else s
  end.

Fixpoint trimEnd (s : string) : string :=
  match s with
  | EmptyString => EmptyString
  | String c rest =>
      match trimEnd rest with
      | EmptyString => if is_space c then EmptyString else String c EmptyString
      | kept => String c kept
      end
  end.

(** [s.trim()] *)
Definition trim (s : string) : string := trimEnd (trimStart s).

(** The value of [obj[key]] for an object literal whose own properties are
    numbers: an own property, a member inherited from [Object.prototype],
    or [undefined]. *)
Inductive PropValue :=
| POwn (n : Z)
| PInherited (name : string)
| PUndefined.

(** The property names every object literal inherits from
    [Object.prototype] (ECMAScript, with its Annex B accessors). *)
Definition objectPrototypeKeys : list string :=
  [ "constructor"; "hasOwnProperty"; "isPrototypeOf";
    "propertyIsEnumerable"; "toLocaleString"; "toString"; "valueOf";
    "__proto__"; "__defineGetter__"; "__defineSetter__";
    "__lookupGetter__"; "__lookupSetter__" ].

Definition getProp (obj : gmap string Z) (key : string) : PropValue :=
  match obj !! key with
  | Some n => POwn n
  | None =>
      if bool_decide (key ∈ objectPrototypeKeys) then PInherited key
      else PUndefined
  end.

(** What the store's [step] can hold at run time. The declared type is
    [number]; the arithmetic of [initialize] can also leave [NaN] there, or
    the string that [+] builds when its left operand is an inherited
    member ([Concat1 k] is the text of [Object.prototype[k]] followed by
    the digit 1; the text itself is the engine's). Numbers are the
    integers the program writes. *)
Inductive Value :=
| Num (n : Z)
| NaN
| Concat1 (key : string).

(** [v + 1] *)
Definition plus1 (v : PropValue) : Value :=
  match v with
  | POwn n => Num (n + 1)
  | PInherited k => Concat1 k
  | PUndefined => NaN
  end.

(** Thrown values, with the fields the handlers read:
    [e.message], [e.code], [e.response?.status],
    [e.response?.data?.requiresBotVerification], [e.requiresInviteCode]. *)
Record ResponseData := { data_requiresBotVerification : bool }.

Record Response := {
  status : option Z;
  data : option ResponseData
}.

Record Error := {
  message : option string;
  code : option Z;
  response : option Response;
  requiresInviteCode : bool
}.

(** [new Error(msg)] *)
Definition newError (msg : string) : Error :=
  {| message := Some msg; code := None; response := None;
     requiresInviteCode := false |}.

(** [e.message?.includes(needle)] as a condition *)
Definition messageIncludes (needle : string) (e : Error) : bool :=
  match message e with
  | Some m => includes needle m
  | None => false
  end.

(** [e.response?.status === n] *)
Definition statusIs (n : Z) (e : Error) : bool :=
  match response e with
  | Some r => match status r with
              | Some s => Z.eqb s n
              | None => false
              end
  | None => false
  end.

(** [e.response?.data?.requiresBotVerification] as a condition *)
Definition payloadRequiresBotVerification (e : Error) : bool :=
  match response e with
  | Some r => match data r with
              | Some d => data_requiresBotVerification d
              | None => false
              end
  | None => false
  end.

End JS.

(** ** Exceptions and state: the effect monad *)

(** How a JavaScript function body ends. *)
Inductive Outcome (A : Type) :=
| Returned (a : A)
| Threw (e : JS.Error).
Arguments Returned {A} a.
Arguments Threw {A} e.

(** A computation over a mutable state [S] that returns or throws. *)
Definition M (S A : Type) : Type := S → Outcome A * S.

#[global] Instance M_ret {S} : MRet (M S) := λ A a s, (Returned a, s).

#[global] Instance M_bind {S} : MBind (M S) := λ A B k m s,
  match m s with
  | (Returned a, s') => k a s'
  | (Threw e, s') => (Threw e, s')
  end.

Definition throw {S A} (e : JS.Error) : M S A := λ s, (Threw e, s).

(** [try { body } catch (e) { handler e }] *)
Definition tryCatch {S A} (body : M S A) (handler : JS.Error → M S A) : M S A :=
  λ s, match body s with
       | (Returned a, s') => (Returned a, s')
       | (Threw e, s') => handler e s'
       end.

(** [try { body } finally { cleanup }], for a [cleanup] that does not itself
    leave by [return] (none in this program does). *)
Definition tryFinally {S A} (body : M S A) (cleanup : M S unit) : M S A :=
  λ s, match body s with
       | (r, s') => match cleanup s' with
                    | (Returned _, s'') => (r, s'')
                    | (Threw e, s'') => (Threw e, s'')
                    end
       end.

Definition gets {S A} (f : S → A) : M S A := λ s, (Returned (f s), s).
Definition modify {S} (f : S → S) : M S unit := λ s, (Returned (), f s).

(** An awaited promise: a resolved value or a rejection. *)
Definition settle {S A} (r : JS.Error + A) : M S A :=
  match r with
  | inl e => throw e
  | inr a => mret a
  end.

(** ** The session store *)

(** Modelled from the spec: the [User] and [OnboardingProgress] interfaces are
    declared in [services/api], which is not part of the sources. A user is
    its wallet address (an absent address is the empty string, which the code
    treats alike) and its optional referral code; a progress record is its
    [completedSteps], [None] when the field is not an array. *)
Record User := {
  wallet : string;
  referralCode : option string
}.

Record OnboardingProgress := {
  completedSteps : option (list string)
}.

(** The state fields of [OnboardingState]. *)
Record OnboardingState := {
  step : JS.Value;
  xp : Z;
  user : option User;
  isUserLoading : bool;
  onboardingProgress : option OnboardingProgress;
  requiresBotVerification : bool
}.

(** The argument of zustand's [set]: the fields to overwrite. *)
Record Patch := {
  p_step : option JS.Value;
  p_xp : option Z;
  p_user : option (option User);
  p_isUserLoading : option bool;
  p_onboardingProgress : option (option OnboardingProgress);
  p_requiresBotVerification : option bool
}.

Definition merge (s : OnboardingState) (p : Patch) : OnboardingState :=
  {| step := default (step s) (p_step p);
     xp := default (xp s) (p_xp p);
     user := default (user s) (p_user p);
     isUserLoading := default (isUserLoading s) (p_isUserLoading p);
     onboardingProgress := default (onboardingProgress s) (p_onboardingProgress p);
     requiresBotVerification :=
       default (requiresBotVerification s) (p_requiresBotVerification p) |}.

Definition patchStep (v : JS.Value) : Patch :=
  {| p_step := Some v; p_xp := None; p_user := None; p_isUserLoading := None;
     p_onboardingProgress := None; p_requiresBotVerification := None |}.

Definition patchUser (u : option User) : Patch :=
  {| p_step := None; p_xp := None; p_user := Some u; p_isUserLoading := None;
     p_onboardingProgress := None; p_requiresBotVerification := None |}.

Definition patchIsUserLoading (b : bool) : Patch :=
  {| p_step := None; p_xp := None; p_user := None; p_isUserLoading := Some b;
     p_onboardingProgress := None; p_requiresBotVerification := None |}.

Definition patchOnboardingProgress (p : option OnboardingProgress) : Patch :=
  {| p_step := None; p_xp := None; p_user := None; p_isUserLoading := None;
     p_onboardingProgress := Some p; p_requiresBotVerification := None |}.

Definition patchRequiresBotVerification (b : bool) : Patch :=
  {| p_step := None; p_xp := None; p_user := None; p_isUserLoading := None;
     p_onboardingProgress := None; p_requiresBotVerification := Some b |}.

(** What the program does that can be observed from outside its functions. *)
Inductive Event :=
| StorageGet (key : string)
| StorageRemove (key : string)
| StoreSet (p : Patch)
| ApiGetUserProfile (wallet : string)
| ApiGetOnboardingProgress
| ApiConfirmAccount (wallet signature inviteCode captchaToken : string)
| WalletSign (message : string).

(** The page's mutable world: the zustand store, [localStorage], and the
    events so far (oldest first). *)
Record World := {
  store : OnboardingState;
  localStorage : gmap string string;
  trace : list Event
}.

(** The collaborators outside the repository. Their answers are fixed
    functions of their arguments, and answering touches neither the store
    nor the storage. *)
Record Env := {
  (** [typeof window !== "undefined"] *)
  hasWindow : bool;
  (** [JSON.parse(atob(segment)).wallet], where [segment] is [undefined] when
      the token has no second segment: a thrown error, or the [wallet] field
      ([None] when absent). *)
  decodeWallet : option string → JS.Error + option string;
  getUserProfile : string → JS.Error + User;
  getOnboardingProgress : JS.Error + OnboardingProgress;
  (** whether [new ethers.BrowserProvider(window.ethereum).getSigner()]
      yields a signer *)
  signerAvailable : bool;
  (** the promise of [signer.signMessage(message)] *)
  signerSignMessage : string → JS.Error + string;
  (** [api.confirmAccount(wallet, signature, code, captcha)], resolved to the
      response's [user] field *)
  confirmAccount : string → string → string → string → JS.Error + option User
}.

Definition emit (ev : Event) : M World unit :=
  modify (λ w, {| store := store w; localStorage := localStorage w;
                  trace := trace w ++ [ev] |}).

(** [localStorage.getItem(key)] *)
Definition getItem (key : string) : M World (option string) :=
  emit (StorageGet key);;
  gets (λ w, localStorage w !! key).

(** [localStorage.removeItem(key)] *)
Definition removeItem (key : string) : M World unit :=
  emit (StorageRemove key);;
  modify (λ w, {| store := store w; localStorage := delete key (localStorage w);
                  trace := trace w |}).

(** zustand's [set(partial)] *)
Definition set (p : Patch) : M World unit :=
  emit (StoreSet p);;
  modify (λ w, {| store := merge (store w) p; localStorage := localStorage w;
                  trace := trace w |}).

(** zustand's [get()] *)
Definition get : M World OnboardingState := gets store.

Module Store.
Import JS.

(** The store as [create] builds it. *)
Definition initialState : OnboardingState :=
  {| step := Num 0; xp := 0; user := None; isUserLoading := true;
     onboardingProgress := None; requiresBotVerification := false |}.

Definition setStep (v : Value) : M World unit := set (patchStep v).
Definition setUser (u : option User) : M World unit := set (patchUser u).
Definition setOnboardingProgress (p : OnboardingProgress) : M World unit :=
  set (patchOnboardingProgress (Some p)).
Definition setRequiresBotVerification (b : bool) : M World unit :=
  set (patchRequiresBotVerification b).

Definition apiGetUserProfile (env : Env) (w : string) : M World User :=
  emit (ApiGetUserProfile w);; settle (getUserProfile env w).

Definition apiGetOnboardingProgress (env : Env) : M World OnboardingProgress :=
  emit ApiGetOnboardingProgress;; settle (getOnboardingProgress env).

(** [fetchUser]: nothing without a wallet; a failed request is logged and
    the user kept; [isUserLoading] is cleared in the [finally]. *)
Definition fetchUser (env : Env) : M World unit :=
  s ← get;
  match user s with
  | Some u =>
      if truthy (wallet u) then
        set (patchIsUserLoading true);;
        tryFinally
          (tryCatch
             (updatedUser ← apiGetUserProfile env (wallet u);
              set (patchUser (Some updatedUser)))
             (λ _, mret ()))
          (set (patchIsUserLoading false))
      else mret ()
  | None => mret ()
  end.

(** [addXP]: zustand's [set] with an updater function. *)
Definition addXP (amount : Z) : M World unit :=
  s ← get;
  set {| p_step := None; p_xp := Some (xp s + amount); p_user := None;
         p_isUserLoading := None; p_onboardingProgress := None;
         p_requiresBotVerification := None |}.

(** [resetStore] leaves [localStorage] alone. *)
Definition resetStore : M World unit :=
  set {| p_step := Some (Num 0); p_xp := Some 0; p_user := Some None;
         p_isUserLoading := Some false; p_onboardingProgress := Some None;
         p_requiresBotVerification := Some false |}.

(** [logout] keeps [xp] and [isUserLoading]. *)
Definition logout : M World unit :=
  removeItem "jwt_token";;
  set {| p_step := Some (Num 0); p_xp := None; p_user := Some None;
         p_isUserLoading := None; p_onboardingProgress := Some None;
         p_requiresBotVerification := Some false |}.

(** [fetchOnboardingProgress]: a failure is logged and absorbed. *)
Definition fetchOnboardingProgress (env : Env) : M World unit :=
  tryCatch
    (progress ← apiGetOnboardingProgress env;
     set (patchOnboardingProgress (Some progress)))
    (λ _, mret ()).

(** The object literal [stepMapping] of [initialize]. *)
Definition stepMapping : gmap string Z :=
  {[ "add_helios_network" := 3;
     "claim_from_faucet" := 4;
     "mint_early_bird_nft" := 5 ]}.

(** [arr[arr.length - 1]] used as a property key: [undefined] becomes the
    key ["undefined"]. *)
Definition lastKey (arr : list string) : string :=
  default "undefined" (last arr).

(** The condition both [catch] blocks of [initialize] test first. *)
Definition notConfirmed (e : Error) : bool :=
  messageIncludes "not confirmed" e || statusIs 403 e || requiresInviteCode e.

(** [confirmationError], with its flag set. *)
Definition confirmationError : Error :=
  {| message := Some "Account not confirmed. Please provide a valid invite code.";
     code := None; response := None; requiresInviteCode := true |}.

(** [token.split('.')[1]], [None] for [undefined]. *)
Definition payloadSegment (token : string) : option string :=
  split "."%char token !! 1%nat.

(** The inner [try] block, for a truthy [token]. *)
Definition initializeAttempt (env : Env) (token : string) : M World unit :=
  decoded ← settle (decodeWallet env (payloadSegment token));
  match decoded with
  | Some addr =>
      if truthy addr then
        set (patchUser (Some {| wallet := addr; referralCode := None |}));;
        fetchUser env
      else mret ()
  | None => mret ()
  end;;
  progress ← apiGetOnboardingProgress env;
  set (patchOnboardingProgress (Some progress));;
  match completedSteps progress with
  | Some steps =>
      if (3 <=? length steps)%nat then set (patchStep (Num 7))
      else if (0 <? length steps)%nat then
        let lastCompletedStep := lastKey steps in
        let nextStep := plus1 (getProp stepMapping lastCompletedStep) in
        set (patchStep nextStep)
      else set (patchStep (Num 2))
  | None =>
      throw (newError
        "Invalid onboarding progress data: completedSteps is not an array.")
  end.

(** [catch (progressError)]. Its [return] ends [initialize]: nothing
    follows the inner [try] inside the outer one, so returning from the
    handler is the same. *)
Definition onProgressError (progressError : Error) : M World unit :=
  if notConfirmed progressError then
    removeItem "jwt_token";;
    set (patchStep (Num 0));;
    throw confirmationError
  else if payloadRequiresBotVerification progressError then
    set (patchRequiresBotVerification true)
  else
    removeItem "jwt_token";;
    set (patchStep (Num 0));;
    throw progressError.

(** The outer [catch (error)]. *)
Definition onInitializeError (error : Error) : M World unit :=
  set (patchIsUserLoading false);;
  if notConfirmed error then
    removeItem "jwt_token";;
    set (patchStep (Num 0));;
    throw confirmationError
  else if payloadRequiresBotVerification error then
    set (patchRequiresBotVerification true)
  else
    set (patchStep (Num 0)).

(** [initialize]. Its optional argument is not read. *)
Definition initialize (env : Env) : M World unit :=
  if negb (hasWindow env) then mret ()
  else
    token ← getItem "jwt_token";
    match token with
    | Some (String _ _ as token) =>
        tryCatch
          (set (patchIsUserLoading true);;
           tryCatch (initializeAttempt env token) onProgressError)
          onInitializeError
    | _ => set (patchStep (Num 0))
    end.

End Store.

(** ** The wallet authentication controller ([ConnectWallet]) *)

Module ConnectWallet.
Import JS Store.

(** The component's [useState] cells. *)
Record Component := {
  isLoading : bool;
  error : option string;
  needsInviteCode : bool;
  showDiscordLink : bool;
  inviteCode : string;
  inviteError : option string;
  hcaptchaToken : option string;
  pendingSignature : option string;
  pendingWallet : option string;
  previousConnectionState : option bool;
  wasEverConnected : bool
}.

#[global] Instance Component_eq_dec : EqDecision Component.
Proof. solve_decision. Defined.

(** Their initial values. *)
Definition initialComponent : Component :=
  {| isLoading := false; error := None; needsInviteCode := false;
     showDiscordLink := false; inviteCode := ""; inviteError := None;
     hcaptchaToken := None; pendingSignature := None; pendingWallet := None;
     previousConnectionState := None; wasEverConnected := false |}.

(** What one render reads from wagmi's [useAccount] and from the entry
    URL's query string. *)
Record Hooks := {
  address : option string;
  isConnected : bool;
  requireInvite : option string;
  discordLinked : option string;
  referralCodeFromUrl : option string
}.

#[global] Instance Hooks_eq_dec : EqDecision Hooks.
Proof. solve_decision. Defined.

(** A handler or effect closes over the values of the render that created
    it (a [Hooks] and a [Component] snapshot); its [setState] calls go to
    the component's next state, [comp]. *)
Record Page := {
  comp : Component;
  world : World
}.

Definition liftWorld {A} (m : M World A) : M Page A :=
  λ p, match m (world p) with
       | (r, w') => (r, {| comp := comp p; world := w' |})
       end.

Definition setComp (f : Component → Component) : M Page unit :=
  modify (λ p, {| comp := f (comp p); world := world p |}).

Definition withIsLoading (v : bool) (c : Component)
    : Component :=
  {| isLoading := v; error := error c; needsInviteCode := needsInviteCode c;
     showDiscordLink := showDiscordLink c; inviteCode := inviteCode c;
     inviteError := inviteError c; hcaptchaToken := hcaptchaToken c;
     pendingSignature := pendingSignature c; pendingWallet := pendingWallet c;
     previousConnectionState := previousConnectionState c;
     wasEverConnected := wasEverConnected c |}.

Definition setIsLoading (v : bool) : M Page unit :=
  setComp (withIsLoading v).

Definition withError (v : option string) (c : Component)
    : Component :=
  {| isLoading := isLoading c; error := v; needsInviteCode := needsInviteCode c;
     showDiscordLink := showDiscordLink c; inviteCode := inviteCode c;
     inviteError := inviteError c; hcaptchaToken := hcaptchaToken c;
     pendingSignature := pendingSignature c; pendingWallet := pendingWallet c;
     previousConnectionState := previousConnectionState c;
     wasEverConnected := wasEverConnected c |}.

Definition setError (v : option string) : M Page unit :=
  setComp (withError v).

Definition withNeedsInviteCode (v : bool) (c : Component)
    : Component :=
  {| isLoading := isLoading c; error := error c; needsInviteCode := v;
     showDiscordLink := showDiscordLink c; inviteCode := inviteCode c;
     inviteError := inviteError c; hcaptchaToken := hcaptchaToken c;
     pendingSignature := pendingSignature c; pendingWallet := pendingWallet c;
     previousConnectionState := previousConnectionState c;
     wasEverConnected := wasEverConnected c |}.

Definition setNeedsInviteCode (v : bool) : M Page unit :=
  setComp (withNeedsInviteCode v).

Definition withInviteCode (v : string) (c : Component)
    : Component :=
  {| isLoading := isLoading c; error := error c;
     needsInviteCode := needsInviteCode c;
     showDiscordLink := showDiscordLink c; inviteCode := v;
     inviteError := inviteError c; hcaptchaToken := hcaptchaToken c;
     pendingSignature := pendingSignature c; pendingWallet := pendingWallet c;
     previousConnectionState := previousConnectionState c;
     wasEverConnected := wasEverConnected c |}.

Definition setInviteCode (v : string) : M Page unit :=
  setComp (withInviteCode v).

Definition withInviteError (v : option string) (c : Component)
    : Component :=
  {| isLoading := isLoading c; error := error c;
     needsInviteCode := needsInviteCode c;
     showDiscordLink := showDiscordLink c; inviteCode := inviteCode c;
     inviteError := v; hcaptchaToken := hcaptchaToken c;
     pendingSignature := pendingSignature c; pendingWallet := pendingWallet c;
     previousConnectionState := previousConnectionState c;
     wasEverConnected := wasEverConnected c |}.

Definition setInviteError (v : option string) : M Page unit :=
  setComp (withInviteError v).

Definition withPendingSignature (v : option string) (c : Component)
    : Component :=
  {| isLoading := isLoading c; error := error c;
     needsInviteCode := needsInviteCode c;
     showDiscordLink := showDiscordLink c; inviteCode := inviteCode c;
     inviteError := inviteError c; hcaptchaToken := hcaptchaToken c;
     pendingSignature := v; pendingWallet := pendingWallet c;
     previousConnectionState := previousConnectionState c;
     wasEverConnected := wasEverConnected c |}.

Definition setPendingSignature (v : option string) : M Page unit :=
  setComp (withPendingSignature v).

Definition withPendingWallet (v : option string) (c : Component)
    : Component :=
  {| isLoading := isLoading c; error := error c;
     needsInviteCode := needsInviteCode c;
     showDiscordLink := showDiscordLink c; inviteCode := inviteCode c;
     inviteError := inviteError c; hcaptchaToken := hcaptchaToken c;
     pendingSignature := pendingSignature c; pendingWallet := v;
     previousConnectionState := previousConnectionState c;
     wasEverConnected := wasEverConnected c |}.

Definition setPendingWallet (v : option string) : M Page unit :=
  setComp (withPendingWallet v).

Definition withPreviousConnectionState (v : option bool) (c : Component)
    : Component :=
  {| isLoading := isLoading c; error := error c;
     needsInviteCode := needsInviteCode c;
     showDiscordLink := showDiscordLink c; inviteCode := inviteCode c;
     inviteError := inviteError c; hcaptchaToken := hcaptchaToken c;
     pendingSignature := pendingSignature c; pendingWallet := pendingWallet c;
     previousConnectionState := v;
     wasEverConnected := wasEverConnected c |}.

Definition setPreviousConnectionState (v : option bool) : M Page unit :=
  setComp (withPreviousConnectionState v).

Definition withWasEverConnected (v : bool) (c : Component)
    : Component :=
  {| isLoading := isLoading c; error := error c;
     needsInviteCode := needsInviteCode c;
     showDiscordLink := showDiscordLink c; inviteCode := inviteCode c;
     inviteError := inviteError c; hcaptchaToken := hcaptchaToken c;
     pendingSignature := pendingSignature c; pendingWallet := pendingWallet c;
     previousConnectionState := previousConnectionState c;
     wasEverConnected := v |}.

Definition setWasEverConnected (v : bool) : M Page unit :=
  setComp (withWasEverConnected v).

(** [isConnected || wasEverConnected] *)
Definition isReallyConnected (h : Hooks) (c : Component) : bool :=
  isConnected h || wasEverConnected c.

(** [a || b] on strings, [b] possibly [null] *)
Definition orElse (a : string) (b : option string) : option string :=
  if truthy a then Some a else b.

(** [handleDisconnect], as created by a render with hooks [h]. *)
Definition handleDisconnect (h : Hooks) : M Page unit :=
  liftWorld (removeItem "jwt_token");;
  liftWorld resetStore;;
  liftWorld (setUser None);;
  liftWorld (setStep (Num 0));;
  setError None;;
  setNeedsInviteCode false;;
  setPendingSignature None;;
  setPendingWallet None;;
  setInviteCode (if truthy_opt (referralCodeFromUrl h)
                 then default "" (referralCodeFromUrl h) else "");;
  setInviteError None.

Definition newline : string := String "010"%char "".

(** The challenge text of [signMessage]. *)
Definition loginChallenge (address : string) : string :=
  "Welcome to Helios! Please sign this message to verify your wallet ownership."
  +:+ newline +:+ newline +:+ "Wallet: " +:+ address.

(** [signMessage]. Its [try] covers building the provider and awaiting the
    signer; the promise of [signer.signMessage] is returned without being
    awaited, so its rejection reaches the caller as it is. *)
Definition signMessage (env : Env) (address : string) : M World string :=
  if signerAvailable env then
    let message := loginChallenge address in
    emit (WalletSign message);;
    settle (signerSignMessage env message)
  else throw (newError "Failed to sign message").

Definition apiConfirmAccount (env : Env)
    (wallet signature inviteCode captchaToken : string) : M World (option User) :=
  emit (ApiConfirmAccount wallet signature inviteCode captchaToken);;
  settle (confirmAccount env wallet signature inviteCode captchaToken).

(** [e.code === n] *)
Definition codeIs (n : Z) (e : Error) : bool :=
  match code e with
  | Some c => Z.eqb c n
  | None => false
  end.

(** The test of [catch (signError)] in [handleRegisterWithInvite]. *)
Definition signatureDeclined (e : Error) : bool :=
  codeIs 4001 e || messageIncludes "rejected" e || messageIncludes "denied" e.

(** [error.message || fallback] *)
Definition messageOr (e : Error) (fallback : string) : string :=
  match message e with
  | Some m => if truthy m then m else fallback
  | None => fallback
  end.

(** A call that is not awaited: it runs, and a rejection goes nowhere. *)
Definition detached {A} (m : M Page A) : M Page unit :=
  λ p, (Returned (), (m p).2).

(** [handleRegisterWithInvite], as created by the render with hooks [h] and
    state [c]. *)
Definition handleRegisterWithInvite (env : Env) (h : Hooks) (c : Component)
    : M Page unit :=
  let codeToUse := orElse (trim (inviteCode c)) (referralCodeFromUrl h) in
  match codeToUse with
  | Some (String _ _ as codeToUse) =>
      match pendingWallet c with
      | Some (String _ _ as pendingWallet) =>
          setIsLoading true;;
          setInviteError None;;
          tryFinally
            (tryCatch
               (user ←
                  (if negb (truthy_opt (pendingSignature c)) then
                     tryCatch
                       (setPendingSignature (Some "pending");;
                        signature ← liftWorld (signMessage env pendingWallet);
                        setPendingSignature (Some signature);;
                        match hcaptchaToken c with
                        | Some (String _ _ as hcaptchaToken) =>
                            liftWorld (apiConfirmAccount env pendingWallet
                                         signature codeToUse hcaptchaToken)
                        | _ =>
                            throw (newError
                              "Please complete the captcha verification to proceed.")
                        end)
                       (λ signError,
                          if signatureDeclined signError then
                            throw (newError
                              "You declined the signature request. Please try again.")
                          else throw signError)
                   else
                     tryCatch
                       (match hcaptchaToken c with
                        | Some (String _ _ as hcaptchaToken) =>
                            liftWorld (apiConfirmAccount env pendingWallet
                                         (default "" (pendingSignature c))
                                         codeToUse hcaptchaToken)
                        | _ =>
                            throw (newError
                              "Please complete the captcha verification.")
                        end)
                       (λ confirmError, throw confirmError));
                match user with
                | Some u =>
                    liftWorld (setUser (Some u));;
                    setNeedsInviteCode false;;
                    detached (liftWorld (initialize env))
                | None => throw (newError "No user data received from server")
                end)
               (λ error,
                  setInviteError
                    (Some (messageOr error
                             "Failed to register or confirm account."))))
            (setIsLoading false)
      | _ =>
          setInviteError
            (Some "Authentication error. Please connect your wallet first.")
      end
  | _ => setInviteError (Some "Invite code is required")
  end.

(** *** The effects and the render cycle

    React runs the effects of a commit in source order, each one only when
    one of its dependencies differs from the previous commit (all of them
    after the first render). An effect reads the state of its render; the
    state it sets is seen by the next render, which React schedules when a
    state cell has changed. *)

(** [useEffect(..., [referralCodeFromUrl])] *)
Definition referralEffect (h : Hooks) : M Page unit :=
  match referralCodeFromUrl h with
  | Some (String _ _ as code) => setInviteCode code
  | _ => mret ()
  end.

(** [s === "true"] *)
Definition isTrue (s : option string) : bool := bool_decide (s = Some "true").

Definition discordNotice : string :=
  "Your Discord account has been linked, but you need to enter an invite code"
  +:+ " to activate your account.".

(** [useEffect(..., [requireInvite, discordLinked, isConnected, address])] *)
Definition discordEffect (h : Hooks) : M Page unit :=
  if isTrue (requireInvite h) || isTrue (discordLinked h) then
    if isConnected h && truthy_opt (address h) then
      setNeedsInviteCode true;;
      setPendingWallet (address h);;
      setError (Some discordNotice)
    else mret ()
  else mret ().

(** [useEffect(..., [isConnected])] *)
Definition everConnectedEffect (h : Hooks) : M Page unit :=
  if isConnected h then setWasEverConnected true else mret ().

(** The condition under which the connection effect calls
    [handleDisconnect]. *)
Definition disconnectDetected (h : Hooks) (c : Component) : bool :=
  bool_decide (previousConnectionState c = Some true)
  && negb (isReallyConnected h c).

(** [useEffect(..., [isReallyConnected])] *)
Definition connectionEffect (h : Hooks) (c : Component) : M Page unit :=
  (if disconnectDetected h c then handleDisconnect h else mret ());;
  setPreviousConnectionState (Some (isReallyConnected h c)).

(** [useEffect(..., [])] *)
Definition mountEffect (h : Hooks) (c : Component) : M Page unit :=
  if isReallyConnected h c
     && negb (bool_decide (pendingSignature c = Some "pending")) then
    token ← liftWorld (getItem "jwt_token");
    if truthy_opt token then mret () else handleDisconnect h
  else mret ().

(** The dependency values of a commit. *)
Record Deps := {
  dep_hooks : Hooks;
  dep_isReallyConnected : bool
}.

Definition changed {A} `{EqDecision A} (prev : option Deps) (f : Deps → A)
    (now : A) : bool :=
  match prev with
  | Some d => negb (bool_decide (f d = now))
  | None => true
  end.

Definition when (b : bool) (m : M Page unit) : M Page unit :=
  if b then m else mret ().

(** The effects of the commit of a render with hooks [h] and state [c]. *)
Definition commitEffects (prev : option Deps) (h : Hooks) (c : Component)
    : M Page unit :=
  when (changed prev (λ d, referralCodeFromUrl (dep_hooks d))
          (referralCodeFromUrl h))
       (referralEffect h);;
  when (changed prev
          (λ d, (requireInvite (dep_hooks d), discordLinked (dep_hooks d),
                 isConnected (dep_hooks d), address (dep_hooks d)))
          (requireInvite h, discordLinked h, isConnected h, address h))
       (discordEffect h);;
  when (changed prev (λ d, isConnected (dep_hooks d)) (isConnected h))
       (everConnectedEffect h);;
  when (changed prev dep_isReallyConnected (isReallyConnected h c))
       (connectionEffect h c);;
  when (bool_decide (prev = None)) (mountEffect h c).

(** A mounted component: its state and the world, and the dependencies of
    its last commit. *)
Record Mounted := {
  page : Page;
  deps : option Deps
}.

(** Render, commit, and render again while the effects changed the state;
    [fuel] bounds the number of renders. *)
Fixpoint renderLoop (fuel : nat) (h : Hooks) (m : Mounted) : Mounted :=
  match fuel with
  | O => m
  | S fuel' =>
      let c := comp (page m) in
      let p' := (commitEffects (deps m) h c (page m)).2 in
      let m' := {| page := p';
                   deps := Some {| dep_hooks := h;
                                   dep_isReallyConnected := isReallyConnected h c |} |} in
      if bool_decide (comp p' = c) then m' else renderLoop fuel' h m'
  end.

(** The first render of a fresh component instance. *)
Definition mount (fuel : nat) (h : Hooks) (w : World) : Mounted :=
  renderLoop fuel h
    {| page := {| comp := initialComponent; world := w |}; deps := None |}.

(** The renders caused by later values of the hooks. *)
Definition rerenders (fuel : nat) (hs : list Hooks) (m : Mounted) : Mounted :=
  foldl (λ m h, renderLoop fuel h m) m hs.

End ConnectWallet.

(** ** Vocabulary of the properties *)

Section Vocabulary.
Import JS Store.

(** Events by what they touch. *)
Definition removesToken (ev : Event) : bool :=
  match ev with
  | StorageRemove _ => true
  | _ => false
  end.

Definition setsStep (ev : Event) : bool :=
  match ev with
  | StoreSet p => bool_decide (is_Some (p_step p))
  | _ => false
  end.

Definition setsBotFlag (ev : Event) : bool :=
  match ev with
  | StoreSet p => bool_decide (is_Some (p_requiresBotVerification p))
  | _ => false
  end.

Definition callsApi (ev : Event) : bool :=
  match ev with
  | ApiGetUserProfile _ | ApiGetOnboardingProgress | ApiConfirmAccount _ _ _ _ => true
  | _ => false
  end.

(** Neither the token, nor [step], nor the verification flag is written. *)
Definition quiet (ev : Event) : bool :=
  negb (removesToken ev) && negb (setsStep ev) && negb (setsBotFlag ev).

(** From [w] to [w'] the trace grew by events that all satisfy [ok]. *)
Definition Since (ok : Event → bool) (w w' : World) : Prop :=
  ∃ evs, trace w' = trace w ++ evs ∧ forallb ok evs = true.

(** The step that the routing block of [initialize] sets for an array
    [completedSteps]. *)
Definition stepFor (steps : list string) : Value :=
  if (3 <=? length steps)%nat then Num 7
  else if (0 <? length steps)%nat then plus1 (getProp stepMapping (lastKey steps))
  else Num 2.

(** What the inner [try] block of [initialize] comes to for a token: the
    error it raises, or the step it routes to. *)
Definition attempt (env : Env) (token : string) : Error + Value :=
  match decodeWallet env (payloadSegment token) with
  | inl e => inl e
  | inr _ =>
      match getOnboardingProgress env with
      | inl e => inl e
      | inr progress =>
          match completedSteps progress with
          | Some steps => inr (stepFor steps)
          | None =>
              inl (newError
                "Invalid onboarding progress data: completedSteps is not an array.")
          end
      end
  end.

(** The same for the errors, as the three places of the block that raise:
    decoding the token, fetching the progress, checking its shape. *)
Inductive Raises (env : Env) (token : string) : Error → Prop :=
| raises_decode e :
    decodeWallet env (payloadSegment token) = inl e →
    Raises env token e
| raises_fetch d e :
    decodeWallet env (payloadSegment token) = inr d →
    getOnboardingProgress env = inl e →
    Raises env token e
| raises_shape d progress :
    decodeWallet env (payloadSegment token) = inr d →
    getOnboardingProgress env = inr progress →
    completedSteps progress = None →
    Raises env token
      (newError "Invalid onboarding progress data: completedSteps is not an array.").

(** The three outcomes of the test chain shared by both [catch] blocks of
    [initialize], in the order the code tests them. *)
Inductive Classification :=
| NotConfirmed
| RequiresBotVerification
| Other.

Definition classify (e : Error) : Classification :=
  if notConfirmed e then NotConfirmed
  else if payloadRequiresBotVerification e then RequiresBotVerification
  else Other.

(** The persisted bearer token. *)
Definition token (w : World) : option string := localStorage w !! "jwt_token".

(** [initialize] finds a token it accepts. *)
Definition HasToken (w : World) (t : string) : Prop :=
  token w = Some t ∧ truthy t = true.

(** The messages with which [handleRegisterWithInvite] rejects its own
    inputs: no invite code, no pending wallet, no CAPTCHA token (one text
    per branch). *)
Definition validationMessages : list string :=
  [ "Invite code is required";
    "Authentication error. Please connect your wallet first.";
    "Please complete the captcha verification to proceed.";
    "Please complete the captcha verification." ].

Definition isValidationMessage (m : string) : bool :=
  bool_decide (m ∈ validationMessages).

(** What [handleRegisterWithInvite] reports when the signature it asks
    for is not obtained. *)
Definition signFailureMessage (e : Error) : string :=
  if ConnectWallet.signatureDeclined e
  then "You declined the signature request. Please try again."
  else ConnectWallet.messageOr e "Failed to register or confirm account.".

(** The part of a page that the session consists of, and the two cells of
    the component that decide whether a disconnection is detected. *)
Record SameSession (p p' : ConnectWallet.Page) : Prop := {
  same_store :
    store (ConnectWallet.world p') = store (ConnectWallet.world p);
  same_storage :
    localStorage (ConnectWallet.world p') = localStorage (ConnectWallet.world p)
}.

Record SameMemory (p p' : ConnectWallet.Page) : Prop := {
  same_ever :
    ConnectWallet.wasEverConnected (ConnectWallet.comp p')
    = ConnectWallet.wasEverConnected (ConnectWallet.comp p);
  same_previous :
    ConnectWallet.previousConnectionState (ConnectWallet.comp p')
    = ConnectWallet.previousConnectionState (ConnectWallet.comp p)
}.

(** What holds of a mounted component after every commit: once the effects
    have recorded a connection, or the last commit saw the provider
    connected, the connection memory is set. *)
Record Latched (m : ConnectWallet.Mounted) : Prop := {
  latched_previous :
    ConnectWallet.previousConnectionState
      (ConnectWallet.comp (ConnectWallet.page m)) = Some true →
    ConnectWallet.wasEverConnected
      (ConnectWallet.comp (ConnectWallet.page m)) = true;
  latched_deps : ∀ d,
    ConnectWallet.deps m = Some d →
    ConnectWallet.isConnected (ConnectWallet.dep_hooks d) = true →
    ConnectWallet.wasEverConnected
      (ConnectWallet.comp (ConnectWallet.page m)) = true
}.

End Vocabulary.

(** ** Sample inputs *)

Module Examples.
Import JS Store ConnectWallet.

Definition profileOf (w : string) : User :=
  {| wallet := w; referralCode := Some "HELIOS1" |}.

(** A gateway that answers the progress request with [progress], decodes
    the payload segment ["p"] to the wallet ["0xA"], and whose signer
    answers [signed]. *)
Definition gateway (progress : Error + OnboardingProgress)
    (signed : Error + string) : Env :=
  {| hasWindow := true;
     decodeWallet := λ seg,
       if bool_decide (seg = Some "p") then inr (Some "0xA")
       else inl (newError "The string to be decoded is not correctly encoded.");
     getUserProfile := λ w, inr (profileOf w);
     getOnboardingProgress := progress;
     signerAvailable := true;
     signerSignMessage := λ _, signed;
     confirmAccount := λ w _ _ _, inr (Some (profileOf w)) |}.

Definition completed (steps : list string) : Error + OnboardingProgress :=
  inr {| completedSteps := Some steps |}.

Definition networkError : Error := newError "Network Error".

Definition forbidden (botFlag : bool) : Error :=
  {| message := Some "Request failed with status code 403";
     code := None;
     response := Some {| status := Some 403;
                         data := Some {| data_requiresBotVerification := botFlag |} |};
     requiresInviteCode := false |}.

Definition botGate : Error :=
  {| message := Some "Bot verification required";
     code := None;
     response := Some {| status := Some 401;
                         data := Some {| data_requiresBotVerification := true |} |};
     requiresInviteCode := false |}.

Definition userRejected : Error :=
  {| message := Some "user rejected action"; code := Some 4001;
     response := None; requiresInviteCode := false |}.

(** A freshly loaded page holding the token ["h.p.s"]. *)
Definition loaded : World :=
  {| store := initialState;
     localStorage := {[ "jwt_token" := "h.p.s" ]};
     trace := [] |}.

(** A session in the middle of onboarding. *)
Definition midway : World :=
  {| store := {| step := Num 5; xp := 40;
                 user := Some (profileOf "0xA");
                 isUserLoading := false;
                 onboardingProgress :=
                   Some {| completedSteps :=
                             Some ["add_helios_network"; "claim_from_faucet"] |};
                 requiresBotVerification := false |};
     localStorage := {[ "jwt_token" := "h.p.s" ]};
     trace := [] |}.

Definition hooks (connected : bool) (urlCode : option string) : Hooks :=
  {| address := if connected then Some "0xA" else None;
     isConnected := connected;
     requireInvite := None; discordLinked := None;
     referralCodeFromUrl := urlCode |}.

(** The invite form as the Discord flow leaves it: a pending wallet, no
    signature yet, and the fields given. *)
Definition inviteForm (entered : string) (captcha signature : option string)
    : Component :=
  {| isLoading := false; error := None; needsInviteCode := true;
     showDiscordLink := false; inviteCode := entered; inviteError := None;
     hcaptchaToken := captcha; pendingSignature := signature;
     pendingWallet := Some "0xA";
     previousConnectionState := Some true; wasEverConnected := true |}.

End Examples.

(** ** Further vocabulary *)

Section MoreVocabulary.
Import JS Store.

(** The API calls among some events, in the order they were issued. *)
Definition apiCalls (evs : list Event) : list Event := List.filter callsApi evs.

(** [c] occurs in [s]. *)
Fixpoint occurs (c : ascii) (s : string) : bool :=
  match s with
  | EmptyString => false
  | String c' rest => Ascii.eqb c' c || occurs c rest
  end.

(** The last code unit of a string. *)
Fixpoint lastChar (s : string) : option ascii :=
  match s with
  | EmptyString => None
  | String c EmptyString => Some c
  | String _ rest => lastChar rest
  end.

(** The first code unit of a string. *)
Definition firstChar (s : string) : option ascii :=
  match s with
  | EmptyString => None
  | String c _ => Some c
  end.

(** What [initialize] leaves of a world outside the fields it reconciles:
    the experience points, and every storage key but the token's, which is
    kept or removed. *)
Record Spared (w w' : World) : Prop := {
  spared_xp : xp (store w') = xp (store w);
  spared_keys : ∀ k, k ≠ "jwt_token" → localStorage w' !! k = localStorage w !! k;
  spared_token : token w' = token w ∨ token w' = None
}.

(** The steps at which a successful [initialize] can leave the store. *)
Inductive Routed : Value → Prop :=
| routed_start : Routed (Num 2)
| routed_task n : n ∈ [4; 5; 6] → Routed (Num n)
| routed_dashboard : Routed (Num 7)
| routed_nan : Routed NaN
| routed_text k : k ∈ objectPrototypeKeys → Routed (Concat1 k).

(** The wallet address that the token's payload carries, if it is one the
    code accepts. *)
Definition carriedWallet (env : Env) (tok : string) : option string :=
  match decodeWallet env (payloadSegment tok) with
  | inr (Some (String _ _ as addr)) => Some addr
  | _ => None
  end.

(** The API requests that the inner [try] block of [initialize] issues for
    a token, in order. *)
Definition requests (env : Env) (tok : string) : list Event :=
  match decodeWallet env (payloadSegment tok) with
  | inl _ => []
  | inr _ =>
      match carriedWallet env tok with
      | Some addr => [ApiGetUserProfile addr]
      | None => []
      end ++ [ApiGetOnboardingProgress]
  end.

(** Whether the outer [catch] of [initialize] runs for a token: the inner
    block raised an error and its handler threw (every classification but
    bot verification). *)
Definition reachesOuterCatch (env : Env) (tok : string) : bool :=
  match attempt env tok with
  | inl e =>
      match classify e with
      | RequiresBotVerification => false
      | _ => true
      end
  | inr _ => false
  end.

(** The events that belong to the store's own work: everything but a
    signature request to the wallet and an account confirmation. *)
Definition byStore (ev : Event) : bool :=
  match ev with
  | WalletSign _ | ApiConfirmAccount _ _ _ _ => false
  | _ => true
  end.

End MoreVocabulary.

(** ** The rest of the controller: signing in, bot verification, the button

    These handlers tell a [NetworkError] from other errors and read a
    string-valued [code], so what they throw and catch is a [Thrown]: the
    error with its class and its code name. The [login] and [verifyBot]
    operations of the API service may write to the page (the service keeps
    the token and updates the store), so they are functions of the world. *)

Module Controller.
Import JS Store ConnectWallet.

Definition withShowDiscordLink (v : bool) (c : Component)
    : Component :=
  {| isLoading := isLoading c; error := error c;
     needsInviteCode := needsInviteCode c;
     showDiscordLink := v; inviteCode := inviteCode c;
     inviteError := inviteError c; hcaptchaToken := hcaptchaToken c;
     pendingSignature := pendingSignature c; pendingWallet := pendingWallet c;
     previousConnectionState := previousConnectionState c;
     wasEverConnected := wasEverConnected c |}.

Definition setShowDiscordLink (v : bool) : M Page unit :=
  setComp (withShowDiscordLink v).

(** A thrown value: the error, whether it is an instance of the API
    service's [NetworkError], and its [code] when that is a string. *)
Record Thrown := {
  thrown : Error;
  isNetworkError : bool;
  codeName : option string
}.

(** An error made by [new Error(...)], or thrown by code that knows
    neither [NetworkError] nor string codes. *)
Definition plain (e : Error) : Thrown :=
  {| thrown := e; isNetworkError := false; codeName := None |}.

Inductive Result (A : Type) :=
| Done (a : A)
| Raised (t : Thrown).
Arguments Done {A} a.
Arguments Raised {A} t.

Definition T (S A : Type) : Type := S → Result A * S.

#[global] Instance T_ret {S} : MRet (T S) := λ A a s, (Done a, s).

#[global] Instance T_bind {S} : MBind (T S) := λ A B k m s,
  match m s with
  | (Done a, s') => k a s'
  | (Raised t, s') => (Raised t, s')
  end.

Definition raise {S A} (t : Thrown) : T S A := λ s, (Raised t, s).

(** [try { body } catch (e) { handler e }] *)
Definition catching {S A} (body : T S A) (handler : Thrown → T S A) : T S A :=
  λ s, match body s with
       | (Done a, s') => (Done a, s')
       | (Raised t, s') => handler t s'
       end.

(** [try { body } finally { cleanup }] *)
Definition finally {S A} (body : T S A) (cleanup : T S unit) : T S A :=
  λ s, match body s with
       | (r, s') => match cleanup s' with
                    | (Done _, s'') => (r, s'')
                    | (Raised t, s'') => (Raised t, s'')
                    end
       end.

(** The answers of [api.login] and [api.verifyBot]. *)
Record LoginResponse := {
  login_requiresBotVerification : bool;
  login_user : option User
}.

Record VerifyResult := {
  verify_success : bool;
  verify_message : option string
}.

(** The collaborators of the controller: those of the store, and
    - [api.login(address, signature, inviteCode?)] and
      [api.verifyBot(address, signature, captcha)], which may change the
      world;
    - the whole of
      [(await new ethers.BrowserProvider(window.ethereum).getSigner()).signMessage(message)];
    - AppKit's [open()], which resolves ([None]) or rejects. *)
Record Gateway := {
  base : Env;
  login : string → string → option string → World → (Thrown + LoginResponse) * World;
  verifyBot : string → string → string → World → (Thrown + VerifyResult) * World;
  signVerification : string → Thrown + string;
  openLoginModal : option Thrown
}.

(** What the controller asks of its collaborators and shows as toasts. *)
Inductive Call :=
| CallLogin (address signature : string) (inviteCode : option string)
| CallVerifyBot (address signature captchaToken : string)
| CallSignVerification (message : string)
| CallOpenLoginModal
| ToastSuccess (text : string)
| ToastError (text : string).

(** The page together with the calls so far (oldest first). *)
Record Ui := {
  ui_page : Page;
  ui_calls : list Call
}.

Definition onPage {A} (m : M Page A) : T Ui A :=
  λ u, match m (ui_page u) with
       | (Returned a, p) => (Done a, {| ui_page := p; ui_calls := ui_calls u |})
       | (Threw e, p) => (Raised (plain e), {| ui_page := p; ui_calls := ui_calls u |})
       end.

Definition onWorld {A} (m : M World A) : T Ui A := onPage (liftWorld m).

Definition record (c : Call) : T Ui unit :=
  λ u, (Done (), {| ui_page := ui_page u; ui_calls := ui_calls u ++ [c] |}).

(** A call to an operation that works on the world. *)
Definition external {A} (f : World → (Thrown + A) * World) : T Ui A :=
  λ u, match f (world (ui_page u)) with
       | (r, w') =>
           (match r with
            | inl t => Raised t
            | inr a => Done a
            end,
            {| ui_page := {| comp := comp (ui_page u); world := w' |};
               ui_calls := ui_calls u |})
       end.

Definition apiLogin (gw : Gateway) (address signature : string)
    (inviteCode : option string) : T Ui LoginResponse :=
  record (CallLogin address signature inviteCode);;
  external (login gw address signature inviteCode).

Definition apiVerifyBot (gw : Gateway) (address signature captchaToken : string)
    : T Ui VerifyResult :=
  record (CallVerifyBot address signature captchaToken);;
  external (verifyBot gw address signature captchaToken).

(** [e.message?.includes(needle)] on a thrown value *)
Definition says (needle : string) (t : Thrown) : bool :=
  messageIncludes needle (thrown t).

(** The test of [catch (signError)] in [handleSignAndAuthenticate]. *)
Definition declined (t : Thrown) : bool := signatureDeclined (thrown t).

(** The test of [catch (signError)] in [handleBotVerification], which also
    knows the code name of ethers. *)
Definition cancelled (t : Thrown) : bool :=
  codeIs 4001 (thrown t)
  || bool_decide (codeName t = Some "ACTION_REJECTED")
  || says "rejected" t || says "denied" t.

(** The four ways in which the [catch (loginError)] of
    [handleSignAndAuthenticate] reads a rejected login, in the order the
    code tests them. *)
Inductive LoginFailure :=
| ServersUnreachable
| NotRegistered
| AccountNotConfirmed
| OtherLoginFailure.

Definition classifyLogin (t : Thrown) : LoginFailure :=
  if isNetworkError t then ServersUnreachable
  else if says "not registered" t || says "User not found" t then NotRegistered
  else if says "not confirmed" t then AccountNotConfirmed
  else OtherLoginFailure.

(** The invite form as [handleSignAndAuthenticate] opens it. *)
Record InviteOpened (address signature : string) (c : Component) : Prop := {
  opened_form : needsInviteCode c = true;
  opened_wallet : pendingWallet c = Some address;
  opened_signature : pendingSignature c = Some signature
}.

(** The invite form left as it was. *)
Record InviteUntouched (c c' : Component) : Prop := {
  untouched_form : needsInviteCode c' = needsInviteCode c;
  untouched_wallet : pendingWallet c' = pendingWallet c;
  untouched_signature : pendingSignature c' = pendingSignature c;
  untouched_code : inviteCode c' = inviteCode c
}.

(** [handleSignAndAuthenticate], as created by a render with hooks [h]. Each
    [return] of its inner blocks is in tail position, so the [finally]
    follows it directly. *)
Definition handleSignAndAuthenticate (gw : Gateway) (h : Hooks) : T Ui unit :=
  match address h with
  | Some (String _ _ as address) =>
      finally
        (catching
           (onPage (setError None);;
            onPage (setIsLoading true);;
            signature ←
              catching (onWorld (signMessage (base gw) address))
                (λ signError,
                   if declined signError then
                     raise (plain (newError "You declined the signature request."))
                   else raise signError);
            catching
              (loginResponse ← apiLogin gw address signature None;
               if login_requiresBotVerification loginResponse then
                 onPage (setError (Some "Please verify you are not a bot to continue."))
               else
                 onWorld (setUser (login_user loginResponse));;
                 onWorld (initialize (base gw)))
              (λ loginError,
                 if isNetworkError loginError then raise loginError
                 else if says "not registered" loginError
                         || says "User not found" loginError then
                   onPage (setNeedsInviteCode true);;
                   onPage (setPendingWallet (Some address));;
                   onPage (setPendingSignature (Some signature));;
                   onPage (setError
                     (Some "Please enter an invite code to register your account."))
                 else if says "not confirmed" loginError then
                   onPage (setNeedsInviteCode true);;
                   onPage (setPendingWallet (Some address));;
                   onPage (setPendingSignature (Some signature));;
                   onPage (setError
                     (Some "Your account is not confirmed. Please enter a valid invite code to proceed."))
                 else raise loginError))
           (λ error,
              if isNetworkError error then
                onPage (setError
                  (Some "Failed to connect to Helios servers. Please try again later."))
              else
                onPage (setError
                  (Some (messageOr (thrown error)
                           "An unknown error occurred during authentication.")))))
        (onPage (setIsLoading false))
  | _ => onPage (setError (Some "Wallet not connected"))
  end.

(** The challenge text of [handleBotVerification]. *)
Definition verificationChallenge (address : string) : string :=
  "I am verifying my account for Helios Testnet: " +:+ address.

Definition botVerificationFallback : string :=
  "Bot verification failed. Please try again or contact support.".

(** [text || fallback] *)
Definition textOr (text : option string) (fallback : string) : string :=
  match text with
  | Some (String _ _ as m) => m
  | _ => fallback
  end.

(** [handleBotVerification], as created by a render with hooks [h] and
    state [c]. The [initialize] it starts on success is not awaited. *)
Definition handleBotVerification (gw : Gateway) (h : Hooks) (c : Component)
    : T Ui unit :=
  match address h with
  | Some (String _ _ as address) =>
      finally
        (catching
           (onPage (setIsLoading true);;
            onPage (setError None);;
            let message := verificationChallenge address in
            signature ←
              catching
                (record (CallSignVerification message);;
                 external (λ w, (signVerification gw message, w)))
                (λ signError,
                   if cancelled signError then
                     raise (plain (newError "You cancelled the signature request."))
                   else raise signError);
            match hcaptchaToken c with
            | Some (String _ _ as hcaptchaToken) =>
                result ← apiVerifyBot gw address signature hcaptchaToken;
                if verify_success result then
                  record (ToastSuccess "Verification successful! You can now proceed.");;
                  onWorld (setRequiresBotVerification false);;
                  onPage (detached (liftWorld (initialize (base gw))))
                else
                  record (ToastError
                            (textOr (verify_message result) botVerificationFallback))
            | _ =>
                raise (plain (newError "Please complete the captcha to continue."))
            end)
           (λ err,
              onPage (setError
                (Some (messageOr (thrown err)
                         "An unexpected error occurred during verification.")))))
        (onPage (setIsLoading false))
  | _ => onPage (setError (Some "Wallet not connected"))
  end.

(** What [handleBotVerification] reports when the wallet gives no
    signature. *)
Definition verificationSignFailure (t : Thrown) : string :=
  if cancelled t then "You cancelled the signature request."
  else messageOr (thrown t) "An unexpected error occurred during verification.".

(** [handleConnect], as created by a render with hooks [h], state [c] and
    the store's [requiresBotVerification] read as [gate]. *)
Definition handleConnect (gw : Gateway) (h : Hooks) (c : Component) (gate : bool)
    : T Ui unit :=
  finally
    (catching
       (onPage (setError None);;
        onPage (setIsLoading true);;
        if negb (isReallyConnected h c) then
          record CallOpenLoginModal;;
          match openLoginModal gw with
          | Some t => raise t
          | None => onPage (setIsLoading false)
          end
        else if needsInviteCode c then
          onPage (handleRegisterWithInvite (base gw) h c)
        else if gate && truthy_opt (address h) then
          handleBotVerification gw h c
        else if isTrue (requireInvite h) && truthy_opt (address h) then
          onPage (setPendingWallet (address h));;
          onPage (setNeedsInviteCode true);;
          onPage (setIsLoading false)
        else if truthy_opt (address h) then
          handleSignAndAuthenticate gw h
        else raise (plain (newError "No wallet address found")))
       (λ error,
          onPage (setError
            (Some (messageOr (thrown error) "Failed to connect wallet")))))
    (onPage (setIsLoading false)).

Definition withHcaptchaToken (v : option string) (c : Component)
    : Component :=
  {| isLoading := isLoading c; error := error c;
     needsInviteCode := needsInviteCode c;
     showDiscordLink := showDiscordLink c; inviteCode := inviteCode c;
     inviteError := inviteError c; hcaptchaToken := v;
     pendingSignature := pendingSignature c; pendingWallet := pendingWallet c;
     previousConnectionState := previousConnectionState c;
     wasEverConnected := wasEverConnected c |}.

Definition setHcaptchaToken (v : option string) : M Page unit :=
  setComp (withHcaptchaToken v).

(** The callbacks of the CAPTCHA widget: [onVerify], [onExpire] and
    [onError] of the invite form. *)
Definition captchaVerified (token : string) : M Page unit :=
  setHcaptchaToken (Some token).

Definition captchaExpired : M Page unit := setHcaptchaToken None.

Definition captchaFailed : M Page unit :=
  setInviteError (Some "Captcha failed. Please try again.");;
  setHcaptchaToken None.

(** The [onChange] of the invite code field. *)
Definition inviteCodeChanged (text : string) : M Page unit := setInviteCode text.

(** [clearInviteState], the "Back" link. *)
Definition clearInviteState : M Page unit :=
  setNeedsInviteCode false;;
  liftWorld (setRequiresBotVerification false);;
  setShowDiscordLink false;;
  setPendingSignature None;;
  setPendingWallet None;;
  setInviteCode "";;
  setInviteError None;;
  setError None.

(** [renderButtonText], for a render with hooks [h], state [c] and the
    store's [requiresBotVerification] read as [gate]. *)
Definition renderButtonText (h : Hooks) (c : Component) (gate : bool) : string :=
  if isLoading c then
    if needsInviteCode c then "Verifying code..."
    else if gate then "Verifying..."
    else "Processing..."
  else if negb (isReallyConnected h c) then "Connect Wallet"
  else if gate then "Verify Account"
  else if needsInviteCode c then
    if truthy_opt (pendingWallet c) && negb (truthy_opt (pendingSignature c))
    then "Sign & Submit Invite"
    else "Submit Invite"
  else "Continue".

(** The text inside the main button: none while loading (a spinner is
    shown), otherwise chosen by the JSX's own conditions. *)
Definition mainButtonText (h : Hooks) (c : Component) (gate : bool)
    : option string :=
  if isLoading c then None
  else if isReallyConnected h c then
    if gate then Some (renderButtonText h c gate)
    else if needsInviteCode c then Some (renderButtonText h c gate)
    else Some "Continue"
  else Some "Connect Wallet".

(** The main button's [onClick]. *)
Definition mainButtonOnClick (gw : Gateway) (h : Hooks) (c : Component)
    (gate : bool) : T Ui unit :=
  if gate then handleBotVerification gw h c else handleConnect gw h c gate.

(** Whether the "Back" link is rendered. *)
Definition backLinkShown (h : Hooks) (c : Component) (gate : bool) : bool :=
  isReallyConnected h c && (needsInviteCode c || gate).

End Controller.

(** ** Sample gateways *)

Module Samples.
Import JS Store ConnectWallet Controller.

(** A rejection by the API with the given message. *)
Definition rejection (msg : string) : Thrown := plain (newError msg).

(** The API service's [NetworkError]. *)
Definition unreachable (msg : string) : Thrown :=
  {| thrown := newError msg; isNetworkError := true; codeName := None |}.

(** A service whose login answers [loginAnswer] and keeps the token
    ["h.p.s"] when it accepts, and whose bot verification answers
    [verifyAnswer]. *)
Definition service (env : Env) (loginAnswer : Thrown + LoginResponse)
    (verifyAnswer : Thrown + VerifyResult) (signed : Thrown + string) : Gateway :=
  {| base := env;
     login := λ _ _ _ w,
       (loginAnswer,
        match loginAnswer with
        | inr _ => {| store := store w;
                      localStorage := <[ "jwt_token" := "h.p.s" ]> (localStorage w);
                      trace := trace w |}
        | inl _ => w
        end);
     verifyBot := λ _ _ _ w, (verifyAnswer, w);
     signVerification := λ _, signed;
     openLoginModal := None |}.

(** The page of a first visit: nothing stored, the component as created. *)
Definition firstVisit : Ui :=
  {| ui_page := {| comp := initialComponent;
                   world := {| store := initialState; localStorage := ∅;
                               trace := [] |} |};
     ui_calls := [] |}.

(** The world of the first visit once the wallet was asked to sign the
    login challenge for [address]. *)
Definition signedIn (address : string) : World :=
  {| store := initialState; localStorage := ∅;
     trace := [WalletSign (loginChallenge address)] |}.

End Samples.

(** ** The invite code badge ([InviteCodeDisplay])

    Modelled from their use: the answers of [api.getUserProfile],
    [api.getUserReferrals] and [api.getUserInviteStatus] are declared in
    [services/api], which is not part of the sources. Each is the fields
    the component reads; an answer that is [null] or [undefined] is
    [None]. *)

Module InviteCodeDisplay.
Import JS.

Record Profile := {
  profile_referralCode : option string
}.

Record Referrals := {
  referrals_referralCode : option string;
  referrals_success : bool;
  referrals_referralCount : option Z;
  referrals_referralXP : option Z
}.

Record Quota := {
  canInvite : bool;
  currentQuota : Z;
  usedToday : Z;
  remainingInvites : Z
}.

Record QuotaResponse := {
  quota_success : bool;
  quota_data : option Quota
}.

Record Api := {
  getUserProfile : string → Error + option Profile;
  getUserReferrals : Z → Z → Error + option Referrals;
  getUserInviteStatus : string → Error + option QuotaResponse
}.

(** The component's [useState] cells. *)
Record Cells := {
  referralCode : option string;
  referralCount : option Z;
  referralXP : option Z;
  copied : bool;
  loading : bool;
  error : option string;
  inviteQuota : option Quota;
  quotaLoading : bool
}.

(** Their initial values. *)
Definition initialCells : Cells :=
  {| referralCode := None; referralCount := None; referralXP := None;
     copied := false; loading := true; error := None; inviteQuota := None;
     quotaLoading := false |}.

Inductive Request :=
| GetUserProfile (address : string)
| GetUserReferrals (page limit : Z)
| GetUserInviteStatus (address : string).

(** The badge: its cells and the requests it has made (oldest first). *)
Record Badge := {
  cells : Cells;
  requests : list Request
}.

Definition setCells (f : Cells → Cells) : M Badge unit :=
  modify (λ b, {| cells := f (cells b); requests := requests b |}).

Definition request (r : Request) : M Badge unit :=
  modify (λ b, {| cells := cells b; requests := requests b ++ [r] |}).

Definition setReferralCode (v : option string) : M Badge unit :=
  setCells (λ c,
    {| referralCode := v; referralCount := referralCount c;
       referralXP := referralXP c; copied := copied c; loading := loading c;
       error := error c; inviteQuota := inviteQuota c;
       quotaLoading := quotaLoading c |}).

Definition setReferralCount (v : option Z) : M Badge unit :=
  setCells (λ c,
    {| referralCode := referralCode c; referralCount := v;
       referralXP := referralXP c; copied := copied c; loading := loading c;
       error := error c; inviteQuota := inviteQuota c;
       quotaLoading := quotaLoading c |}).

Definition setReferralXP (v : option Z) : M Badge unit :=
  setCells (λ c,
    {| referralCode := referralCode c; referralCount := referralCount c;
       referralXP := v; copied := copied c; loading := loading c;
       error := error c; inviteQuota := inviteQuota c;
       quotaLoading := quotaLoading c |}).

Definition setLoading (v : bool) : M Badge unit :=
  setCells (λ c,
    {| referralCode := referralCode c; referralCount := referralCount c;
       referralXP := referralXP c; copied := copied c; loading := v;
       error := error c; inviteQuota := inviteQuota c;
       quotaLoading := quotaLoading c |}).

Definition setError (v : option string) : M Badge unit :=
  setCells (λ c,
    {| referralCode := referralCode c; referralCount := referralCount c;
       referralXP := referralXP c; copied := copied c; loading := loading c;
       error := v; inviteQuota := inviteQuota c;
       quotaLoading := quotaLoading c |}).

Definition setInviteQuota (v : option Quota) : M Badge unit :=
  setCells (λ c,
    {| referralCode := referralCode c; referralCount := referralCount c;
       referralXP := referralXP c; copied := copied c; loading := loading c;
       error := error c; inviteQuota := v;
       quotaLoading := quotaLoading c |}).

Definition setQuotaLoading (v : bool) : M Badge unit :=
  setCells (λ c,
    {| referralCode := referralCode c; referralCount := referralCount c;
       referralXP := referralXP c; copied := copied c; loading := loading c;
       error := error c; inviteQuota := inviteQuota c;
       quotaLoading := v |}).

(** Reading a property of [null] or [undefined]. *)
Definition typeError : Error :=
  newError "Cannot read properties of undefined".

(** [fetchInviteQuota], as created by a render that read [address]. *)
Definition fetchInviteQuota (api : Api) (address : option string) : M Badge unit :=
  match address with
  | Some (String _ _ as address) =>
      tryFinally
        (tryCatch
           (setQuotaLoading true;;
            request (GetUserInviteStatus address);;
            quotaResponse ← settle (getUserInviteStatus api address);
            match quotaResponse with
            | None => throw typeError
            | Some quotaResponse =>
                if quota_success quotaResponse then
                  match quota_data quotaResponse with
                  | None => throw typeError
                  | Some data =>
                      setInviteQuota
                        (Some {| canInvite := canInvite data;
                                 currentQuota := currentQuota data;
                                 usedToday := usedToday data;
                                 remainingInvites := remainingInvites data |})
                  end
                else mret ()
            end)
           (λ _, mret ()))
        (setQuotaLoading false)
  | _ => mret ()
  end.

(** [await Promise.all([a, b])] for two requests already started: both
    answers, or the rejection of one of them (which one the handler of
    this component does not look at). *)
Definition promiseAll {A B} (a : Error + A) (b : Error + B) : M Badge (A * B) :=
  match a, b with
  | inr x, inr y => mret (x, y)
  | inl e, _ => throw e
  | _, inl e => throw e
  end.

(** [x?.referralCode || y?.referralCode || null] *)
Definition firstCode (x y : option string) : option string :=
  if truthy_opt x then x else if truthy_opt y then y else None.

(** [fetchUserData] of the effect on [address]. *)
Definition fetchUserData (api : Api) (address : option string) : M Badge unit :=
  match address with
  | Some (String _ _ as addr) =>
      tryFinally
        (tryCatch
           (setLoading true;;
            setError None;;
            request (GetUserProfile addr);;
            request (GetUserReferrals 1 1);;
            answers ← promiseAll (getUserProfile api addr) (getUserReferrals api 1 1);
            let userProfile := answers.1 in
            let referralsResponse := answers.2 in
            let code := firstCode (userProfile ≫= profile_referralCode)
                          (referralsResponse ≫= referrals_referralCode) in
            setReferralCode code;;
            (match referralsResponse with
             | Some r =>
                 if referrals_success r then
                   setReferralCount (referrals_referralCount r);;
                   setReferralXP (referrals_referralXP r)
                 else mret ()
             | None => mret ()
             end);;
            fetchInviteQuota api address)
           (λ _, setError (Some "Failed to load user data.")))
        (setLoading false)
  | _ => mret ()
  end.

(** What the badge shows. *)
Inductive View :=
| Shimmer
| ErrorBadge
| CodeBadge (code : string)
| NoCode.

(** The code as displayed: the first three and the last two code units of
    a code longer than five. *)
Definition displayedCode (code : string) : string :=
  if (5 <? String.length code)%nat then
    String.substring 0 3 code +:+ "..."
    +:+ String.substring (String.length code - 2) 2 code
  else code.

Definition view (c : Cells) : View :=
  if loading c then Shimmer
  else if truthy_opt (error c) then ErrorBadge
  else match referralCode c with
       | Some (String _ _ as code) => CodeBadge (displayedCode code)
       | _ => NoCode
       end.

(** What [fetchInviteQuota] leaves for an answer. *)
Definition quotaAfter (answer : Error + option QuotaResponse) (before : option Quota)
    : option Quota :=
  match answer with
  | inr (Some r) =>
      if quota_success r then
        match quota_data r with
        | Some d => Some d
        | None => before
        end
      else before
  | _ => before
  end.

End InviteCodeDisplay.

(** ** Properties of the session store *)

Module StoreFacts.
Import JS Store.

Ltac unfold_eff :=
  cbv [mbind M_bind mret M_ret get gets modify set emit getItem removeItem
       tryCatch tryFinally throw settle];
  cbn [store localStorage trace].

Ltac simpl_state :=
  cbn [fst snd store localStorage trace step xp user isUserLoading
       onboardingProgress requiresBotVerification merge default from_option id
       p_step p_xp p_user p_isUserLoading p_onboardingProgress
       p_requiresBotVerification patchStep patchUser patchIsUserLoading
       patchOnboardingProgress patchRequiresBotVerification].

Lemma Since_refl ok w : Since ok w w.
Proof. exists []. by rewrite app_nil_r. Qed.

Lemma Since_trans ok w1 w2 w3 : Since ok w1 w2 → Since ok w2 w3 → Since ok w1 w3.
Proof.
  intros (e1 & t1 & f1) (e2 & t2 & f2).
  exists (e1 ++ e2). rewrite t2, t1, <- app_assoc. split; [done|].
  by rewrite forallb_app, f1, f2.
Qed.

Lemma Since_weaken (ok ok' : Event → bool) w w' :
  (∀ ev, ok ev = true → ok' ev = true) → Since ok w w' → Since ok' w w'.
Proof.
  intros Himp (evs & Ht & Hf). exists evs. split; [done|].
  rewrite forallb_forall in *. auto.
Qed.

Lemma Since_intro ok w w' evs :
  trace w' = trace w ++ evs → forallb ok evs = true → Since ok w w'.
Proof. intros. by exists evs. Qed.

Ltac since :=
  eapply Since_intro; [simpl_state; rewrite <- ?app_assoc; reflexivity | done].

Lemma fetchUser_run env w :
  ∃ w', fetchUser env w = (Returned (), w')
        ∧ localStorage w' = localStorage w
        ∧ step (store w') = step (store w)
        ∧ requiresBotVerification (store w') = requiresBotVerification (store w)
        ∧ Since quiet w w'.
Proof.
  unfold fetchUser, apiGetUserProfile. unfold_eff.
  destruct (user (store w)) as [u|]; [|eexists; split; [reflexivity|by auto using Since_refl]].
  destruct (truthy (wallet u)); [|eexists; split; [reflexivity|by auto using Since_refl]].
  simpl_state.
  destruct (getUserProfile env (wallet u)) as [e|u']; simpl_state.
  all: eexists; split; [reflexivity|]; simpl_state; repeat split; try done.
  all: since.
Qed.

Lemma initializeAttempt_run env tok w :
  ∃ w',
    initializeAttempt env tok w
    = (match attempt env tok with inl e => Threw e | inr _ => Returned () end, w')
    ∧ localStorage w' = localStorage w
    ∧ requiresBotVerification (store w') = requiresBotVerification (store w)
    ∧ match attempt env tok with
      | inl _ => step (store w') = step (store w) ∧ Since quiet w w'
      | inr v => step (store w') = v
                 ∧ Since (λ ev, negb (removesToken ev) && negb (setsBotFlag ev)) w w'
      end.
Proof.
  unfold initializeAttempt, attempt, apiGetOnboardingProgress.
  destruct (decodeWallet env (payloadSegment tok)) as [e|d].
  { exists w. unfold_eff. by auto using Since_refl. }
  (* the optimistic user and its profile *)
  assert (∃ w1, (match d with
                 | Some addr =>
                     if truthy addr then
                       set (patchUser (Some {| wallet := addr; referralCode := None |}));;
                       fetchUser env
                     else mret ()
                 | None => mret ()
                 end) w = (Returned (), w1)
                ∧ localStorage w1 = localStorage w
                ∧ step (store w1) = step (store w)
                ∧ requiresBotVerification (store w1) = requiresBotVerification (store w)
                ∧ Since quiet w w1) as (w1 & Hrun & Hl & Hs & Hf & Hq).
  { destruct d as [addr|]; [destruct (truthy addr)|].
    2,3: exists w; by auto using Since_refl.
    unfold_eff.
    edestruct (fetchUser_run env) as (w1 & -> & Hl & Hs & Hf & Hq).
    exists w1. split; [reflexivity|]. rewrite Hl, Hs, Hf. repeat split; try done.
    eapply Since_trans; [|exact Hq]. since. }
  revert Hrun. unfold_eff. intros ->. unfold stepFor.
  destruct (getOnboardingProgress env) as [e|progress].
  { eexists; split; [reflexivity|]. simpl_state. repeat split; try done.
    eapply Since_trans; [exact Hq|]. since. }
  destruct (completedSteps progress) as [steps|].
  2: { eexists; split; [reflexivity|]. simpl_state. repeat split; try done.
       eapply Since_trans; [exact Hq|]. since. }
  destruct (3 <=? length steps)%nat; [|destruct (0 <? length steps)%nat].
  all: eexists; split; [reflexivity|]; simpl_state; repeat split; try done.
  all: eapply Since_trans; [eapply Since_weaken; [|exact Hq]|since].
  all: unfold quiet; intros ev; destruct (removesToken ev), (setsBotFlag ev), (setsStep ev); done.
Qed.

Lemma notConfirmed_confirmationError : notConfirmed confirmationError = true.
Proof. reflexivity. Qed.

Lemma attempt_raises env tok e : attempt env tok = inl e ↔ Raises env tok e.
Proof.
  unfold attempt. split.
  - destruct (decodeWallet env (payloadSegment tok)) as [e'|d] eqn:Hd.
    { intros [= ->]. by apply raises_decode. }
    destruct (getOnboardingProgress env) as [e'|p] eqn:Hp.
    { intros [= ->]. by eapply raises_fetch. }
    destruct (completedSteps p) as [steps|] eqn:Hc; [done|].
    intros [= <-]. by eapply raises_shape.
  - intros [e' Hd|d e' Hd Hp|d p Hd Hp Hc]; rewrite Hd; [done|rewrite Hp..]; [done|].
    by rewrite Hc.
Qed.

Ltac enter_initialize Hwin Htok :=
  let Hl := fresh "Hl" in
  let Ht := fresh "Ht" in
  destruct Htok as [Hl Ht]; unfold token in Hl;
  unfold initialize; rewrite Hwin; unfold_eff;
  cbn [negb store localStorage trace];
  rewrite Hl;
  match goal with t : string |- _ =>
    match type of Ht with truthy t = true => destruct t; [discriminate Ht|] end
  end.

Lemma initialize_routed env w t v :
  hasWindow env = true → HasToken w t → attempt env t = inr v →
  ∃ w', initialize env w = (Returned (), w')
        ∧ step (store w') = v
        ∧ localStorage w' = localStorage w
        ∧ requiresBotVerification (store w') = requiresBotVerification (store w)
        ∧ Since (λ ev, negb (removesToken ev) && negb (setsBotFlag ev)) w w'.
Proof.
  intros Hwin Htok Hat. enter_initialize Hwin Htok.
  edestruct (initializeAttempt_run env) as (w' & -> & Hl' & Hf & Hrest).
  rewrite Hat in *. destruct Hrest as [Hs Hq].
  exists w'. repeat split; try done.
  eapply Since_trans; [|exact Hq]. since.
Qed.

Lemma initialize_unconfirmed env w t e :
  hasWindow env = true → HasToken w t → attempt env t = inl e →
  notConfirmed e = true →
  ∃ w', initialize env w = (Threw confirmationError, w')
        ∧ step (store w') = Num 0
        ∧ localStorage w' = delete "jwt_token" (localStorage w)
        ∧ requiresBotVerification (store w') = requiresBotVerification (store w)
        ∧ isUserLoading (store w') = false
        ∧ Since (λ ev, negb (setsBotFlag ev)) w w'.
Proof.
  intros Hwin Htok Hat Hnc. enter_initialize Hwin Htok.
  edestruct (initializeAttempt_run env) as (w' & -> & Hl' & Hf & Hrest).
  rewrite Hat in *. destruct Hrest as [Hs Hq].
  unfold onProgressError. rewrite Hnc. unfold_eff.
  unfold onInitializeError. rewrite notConfirmed_confirmationError. unfold_eff.
  eexists; split; [reflexivity|]. simpl_state. rewrite Hl', Hf.
  (* the store's loading flag was overwritten twice; the deletions commute *)
  repeat split; try done.
  - apply map_eq. intros k. destruct (decide (k = "jwt_token")) as [->|];
      by rewrite ?lookup_delete_eq, ?lookup_delete_ne.
  - eapply Since_trans; [eapply Since_trans; [|eapply Since_weaken; [|exact Hq]]|]; [since| |since].
    unfold quiet; intros ev; destruct (removesToken ev), (setsBotFlag ev), (setsStep ev); done.
Qed.

Lemma initialize_gated env w t e :
  hasWindow env = true → HasToken w t → attempt env t = inl e →
  notConfirmed e = false → payloadRequiresBotVerification e = true →
  ∃ w', initialize env w = (Returned (), w')
        ∧ step (store w') = step (store w)
        ∧ localStorage w' = localStorage w
        ∧ requiresBotVerification (store w') = true
        ∧ Since (λ ev, negb (removesToken ev) && negb (setsStep ev)) w w'.
Proof.
  intros Hwin Htok Hat Hnc Hbot. enter_initialize Hwin Htok.
  edestruct (initializeAttempt_run env) as (w' & -> & Hl' & Hf & Hrest).
  rewrite Hat in *. destruct Hrest as [Hs Hq].
  unfold onProgressError. rewrite Hnc, Hbot. unfold_eff.
  eexists; split; [reflexivity|]. simpl_state. rewrite Hl', Hs.
  repeat split; try done.
  eapply Since_trans; [eapply Since_trans; [|eapply Since_weaken; [|exact Hq]]|]; [since| |since].
  unfold quiet; intros ev; destruct (removesToken ev), (setsBotFlag ev), (setsStep ev); done.
Qed.

Lemma initialize_other env w t e :
  hasWindow env = true → HasToken w t → attempt env t = inl e →
  notConfirmed e = false → payloadRequiresBotVerification e = false →
  ∃ w', initialize env w = (Returned (), w')
        ∧ step (store w') = Num 0
        ∧ localStorage w' = delete "jwt_token" (localStorage w)
        ∧ requiresBotVerification (store w') = requiresBotVerification (store w)
        ∧ isUserLoading (store w') = false
        ∧ Since (λ ev, negb (setsBotFlag ev)) w w'.
Proof.
  intros Hwin Htok Hat Hnc Hbot. enter_initialize Hwin Htok.
  edestruct (initializeAttempt_run env) as (w' & -> & Hl' & Hf & Hrest).
  rewrite Hat in *. destruct Hrest as [Hs Hq].
  unfold onProgressError. rewrite Hnc, Hbot. unfold_eff.
  unfold onInitializeError. rewrite Hnc, Hbot. unfold_eff.
  eexists; split; [reflexivity|]. simpl_state. rewrite Hl', Hf.
  repeat split; try done.
  eapply Since_trans; [eapply Since_trans; [|eapply Since_weaken; [|exact Hq]]|]; [since| |since].
  unfold quiet; intros ev; destruct (removesToken ev), (setsBotFlag ev), (setsStep ev); done.
Qed.

Lemma initialize_no_token env w :
  hasWindow env = true → truthy_opt (token w) = false →
  initialize env w
  = (Returned (),
     {| store := merge (store w) (patchStep (Num 0));
        localStorage := localStorage w;
        trace := trace w ++ [StorageGet "jwt_token"; StoreSet (patchStep (Num 0))] |}).
Proof.
  intros Hwin Htok. unfold initialize, token in *. rewrite Hwin. unfold_eff.
  cbn [negb store localStorage trace].
  destruct (localStorage w !! "jwt_token") as [[|c t]|]; [|discriminate Htok|].
  all: simpl_state; by rewrite <- app_assoc.
Qed.

Lemma initialize_no_window env w :
  hasWindow env = false → initialize env w = (Returned (), w).
Proof. intros Hwin. unfold initialize. by rewrite Hwin. Qed.

Lemma attempt_routed env t d progress steps :
  decodeWallet env (payloadSegment t) = inr d →
  getOnboardingProgress env = inr progress →
  completedSteps progress = Some steps →
  attempt env t = inr (stepFor steps).
Proof. intros Hd Hp Hc. unfold attempt. by rewrite Hd, Hp, Hc. Qed.

Lemma stepMapping_own :
  stepMapping !! "add_helios_network" = Some 3
  ∧ stepMapping !! "claim_from_faucet" = Some 4
  ∧ stepMapping !! "mint_early_bird_nft" = Some 5.
Proof. by vm_compute. Qed.

Lemma stepMapping_other (k : string) :
  k ≠ "add_helios_network" → k ≠ "claim_from_faucet" → k ≠ "mint_early_bird_nft" →
  stepMapping !! k = None.
Proof.
  intros H1 H2 H3. unfold stepMapping.
  rewrite !lookup_insert_ne by done. by rewrite lookup_singleton_ne.
Qed.

Lemma stepFor_short steps k :
  (length steps < 3)%nat → last steps = Some k →
  stepFor steps = plus1 (getProp stepMapping k).
Proof.
  intros Hlen Hlast. unfold stepFor, lastKey. rewrite Hlast. cbn [default].
  destruct steps as [|a steps]; [done|].
  replace (3 <=? length (a :: steps))%nat with false
    by (symmetry; apply Nat.leb_gt; lia).
  done.
Qed.

(** C1. A progress record fetched by [initialize] (token present, decoded,
    request answered with an array [completedSteps]) decides the step:
    three or more completed steps give 7 whatever they are, none gives 2,
    and otherwise the last one gives 4 for [add_helios_network], 5 for
    [claim_from_faucet] and 6 for [mint_early_bird_nft]; [initialize]
    returns normally. *)
Theorem initialize_routes_by_progress env w t d progress steps :
  hasWindow env = true →
  HasToken w t →
  decodeWallet env (payloadSegment t) = inr d →
  getOnboardingProgress env = inr progress →
  completedSteps progress = Some steps →
  (initialize env w).1 = Returned ()
  ∧ (let now := step (store (initialize env w).2) in
     ((3 ≤ length steps)%nat → now = Num 7)
     ∧ (steps = [] → now = Num 2)
     ∧ ((length steps < 3)%nat →
        (last steps = Some "add_helios_network" → now = Num 4)
        ∧ (last steps = Some "claim_from_faucet" → now = Num 5)
        ∧ (last steps = Some "mint_early_bird_nft" → now = Num 6))).
Proof.
  intros Hwin Htok Hd Hp Hc.
  destruct (initialize_routed env w t (stepFor steps) Hwin Htok
              (attempt_routed _ _ _ _ _ Hd Hp Hc)) as (w' & -> & Hs & _).
  split; [done|]. simpl_state. rewrite Hs. split; [|split].
  - intros Hlen. unfold stepFor.
    by replace (3 <=? length steps)%nat with true
      by (symmetry; apply Nat.leb_le; lia).
  - by intros ->.
  - intros Hlen.
    repeat split; intros Hlast; by rewrite (stepFor_short _ _ Hlen Hlast).
Qed.

(** An instance: one completed step, [add_helios_network], on a freshly
    loaded page. *)
Lemma initialize_routes_by_progress_witness :
  step (store (initialize
                 (Examples.gateway (Examples.completed ["add_helios_network"]) (inr "0xsig"))
                 Examples.loaded).2) = Num 4.
Proof.
  destruct (initialize_routes_by_progress
              (Examples.gateway (Examples.completed ["add_helios_network"]) (inr "0xsig"))
              Examples.loaded "h.p.s" (Some "0xA")
              {| completedSteps := Some ["add_helios_network"] |}
              ["add_helios_network"]) as (_ & _ & _ & Hshort).
  - reflexivity.
  - split; reflexivity.
  - reflexivity.
  - reflexivity.
  - reflexivity.
  - destruct Hshort as (H & _ & _); [cbn; lia|]. apply H. reflexivity.
Defined.

(** C2, the scenario as specified, refuted: with the token decoding to
    [0xA] and the two completed steps [add_helios_network],
    [claim_from_faucet], the final step is 5, not 6. *)
Lemma scenario_two_steps_is_not_6 :
  let env := Examples.gateway
               (Examples.completed ["add_helios_network"; "claim_from_faucet"])
               (inr "0xsig") in
  HasToken Examples.loaded "h.p.s"
  ∧ decodeWallet env (payloadSegment "h.p.s") = inr (Some "0xA")
  ∧ step (store (initialize env Examples.loaded).2) = Num 5
  ∧ step (store (initialize env Examples.loaded).2) ≠ Num 6.
Proof. repeat split; try reflexivity. by vm_compute. Qed.

(** C2, amended. When the token decodes to wallet [0xA] and the progress
    request answers [add_helios_network], [claim_from_faucet],
    [initialize] returns normally with step 5, having requested the profile
    of [0xA]; the profile the gateway answers is the store's user. *)
Theorem scenario_two_steps env w t progress :
  hasWindow env = true →
  HasToken w t →
  decodeWallet env (payloadSegment t) = inr (Some "0xA") →
  getOnboardingProgress env = inr progress →
  completedSteps progress = Some ["add_helios_network"; "claim_from_faucet"] →
  ∃ w' evs,
    initialize env w = (Returned (), w')
    ∧ step (store w') = Num 5
    ∧ trace w' = trace w ++ evs
    ∧ ApiGetUserProfile "0xA" ∈ evs
    ∧ (∀ u, getUserProfile env "0xA" = inr u → user (store w') = Some u).
Proof.
  intros Hwin Htok Hd Hp Hc. enter_initialize Hwin Htok.
  unfold initializeAttempt, fetchUser, apiGetUserProfile, apiGetOnboardingProgress.
  rewrite Hd, Hp. unfold_eff. cbn. rewrite Hc.
  destruct (getUserProfile env "0xA") as [e|u]; cbn.
  all: eexists; eexists; split; [reflexivity|]; simpl_state.
  all: split; [reflexivity|].
  all: split; [rewrite <- !app_assoc; reflexivity|].
  all: split; [simpl_state; set_solver|].
  all: by intros u' [= ->].
Qed.

(** An instance: the scenario on a freshly loaded page. *)
Lemma scenario_two_steps_witness :
  ∃ w',
    initialize (Examples.gateway
                  (Examples.completed ["add_helios_network"; "claim_from_faucet"])
                  (inr "0xsig")) Examples.loaded = (Returned (), w')
    ∧ step (store w') = Num 5.
Proof.
  destruct (scenario_two_steps
              (Examples.gateway
                 (Examples.completed ["add_helios_network"; "claim_from_faucet"])
                 (inr "0xsig"))
              Examples.loaded "h.p.s"
              {| completedSteps := Some ["add_helios_network"; "claim_from_faucet"] |})
    as (w' & evs & Hrun & Hstep & _).
  - reflexivity.
  - split; reflexivity.
  - reflexivity.
  - reflexivity.
  - reflexivity.
  - exists w'. split; [exact Hrun | exact Hstep].
Defined.

Lemma classify_NotConfirmed e :
  classify e = NotConfirmed ↔ notConfirmed e = true.
Proof.
  unfold classify. destruct (notConfirmed e); [done|].
  by destruct (payloadRequiresBotVerification e).
Qed.

Lemma classify_RequiresBotVerification e :
  classify e = RequiresBotVerification
  ↔ notConfirmed e = false ∧ payloadRequiresBotVerification e = true.
Proof.
  unfold classify.
  destruct (notConfirmed e), (payloadRequiresBotVerification e);
    split; try done; intros [? ?]; done.
Qed.

Lemma classify_Other e :
  classify e = Other
  ↔ notConfirmed e = false ∧ payloadRequiresBotVerification e = false.
Proof.
  unfold classify.
  destruct (notConfirmed e), (payloadRequiresBotVerification e);
    split; try done; intros [? ?]; done.
Qed.

Lemma notConfirmed_cases e :
  notConfirmed e = true
  ↔ messageIncludes "not confirmed" e = true
    ∨ statusIs 403 e = true
    ∨ requiresInviteCode e = true.
Proof.
  unfold notConfirmed.
  destruct (messageIncludes _ e), (statusIs 403 e), (requiresInviteCode e);
    cbn; split; auto; intros [?|[?|?]]; done.
Qed.

(** C3. An error of the decode/fetch phase that [initialize] classifies as
    requiring bot verification makes it raise the store's flag and return
    normally: the token stays in storage and is never removed, and [step]
    is not written at all (so it is not set to 0). *)
Theorem bot_verification_is_a_gate env w t e :
  hasWindow env = true →
  HasToken w t →
  Raises env t e →
  classify e = RequiresBotVerification →
  ∃ w',
    initialize env w = (Returned (), w')
    ∧ requiresBotVerification (store w') = true
    ∧ token w' = Some t
    ∧ step (store w') = step (store w)
    ∧ Since (λ ev, negb (removesToken ev) && negb (setsStep ev)) w w'.
Proof.
  intros Hwin Htok Hraise Hclass.
  apply attempt_raises in Hraise.
  apply classify_RequiresBotVerification in Hclass as [Hnc Hbot].
  destruct (initialize_gated env w t e Hwin Htok Hraise Hnc Hbot)
    as (w' & Hrun & Hs & Hl & Hf & Hq).
  exists w'. repeat split; try done.
  unfold token. rewrite Hl. apply Htok.
Qed.

(** An instance: the progress request is refused with the bot flag while
    the session is at step 5. *)
Lemma bot_verification_is_a_gate_witness :
  ∃ w',
    initialize (Examples.gateway (inl Examples.botGate) (inr "0xsig")) Examples.midway
    = (Returned (), w')
    ∧ requiresBotVerification (store w') = true
    ∧ token w' = Some "h.p.s"
    ∧ step (store w') = Num 5.
Proof.
  destruct (bot_verification_is_a_gate
              (Examples.gateway (inl Examples.botGate) (inr "0xsig"))
              Examples.midway "h.p.s" Examples.botGate)
    as (w' & Hrun & Hflag & Htok & Hstep & _).
  - reflexivity.
  - split; reflexivity.
  - by apply raises_fetch with (d := Some "0xA").
  - reflexivity.
  - exists w'. repeat split; assumption.
Defined.

(** C4. An error of the decode/fetch phase that [initialize] classifies as
    account-not-confirmed (its message contains "not confirmed", or its
    HTTP status is 403, or it carries [requiresInviteCode]) makes it remove
    the token from storage, set step 0, and throw to its caller an error
    with [requiresInviteCode] set. *)
Theorem not_confirmed_clears_session env w t e :
  hasWindow env = true →
  HasToken w t →
  Raises env t e →
  messageIncludes "not confirmed" e = true
  ∨ statusIs 403 e = true
  ∨ requiresInviteCode e = true →
  ∃ w' thrown,
    initialize env w = (Threw thrown, w')
    ∧ requiresInviteCode thrown = true
    ∧ token w' = None
    ∧ StorageRemove "jwt_token" ∈ trace w'
    ∧ step (store w') = Num 0.
Proof.
  intros Hwin Htok Hraise Hnc.
  apply attempt_raises in Hraise. apply notConfirmed_cases in Hnc.
  pose proof Htok as [Hl0 Ht0].
  revert Hraise. enter_initialize Hwin Htok. intros Hraise.
  edestruct (initializeAttempt_run env) as (w' & -> & Hl' & Hf & _).
  rewrite Hraise.
  unfold onProgressError. rewrite Hnc. unfold_eff.
  unfold onInitializeError. rewrite notConfirmed_confirmationError. unfold_eff.
  eexists; eexists; split; [reflexivity|]. simpl_state.
  repeat split; try done.
  - unfold token. simpl_state. apply lookup_delete_eq.
  - set_solver.
Qed.

(** An instance: the progress request is refused with status 403. *)
Lemma not_confirmed_clears_session_witness :
  ∃ w' thrown,
    initialize (Examples.gateway (inl (Examples.forbidden false)) (inr "0xsig"))
      Examples.midway = (Threw thrown, w')
    ∧ requiresInviteCode thrown = true
    ∧ token w' = None
    ∧ step (store w') = Num 0.
Proof.
  destruct (not_confirmed_clears_session
              (Examples.gateway (inl (Examples.forbidden false)) (inr "0xsig"))
              Examples.midway "h.p.s" (Examples.forbidden false))
    as (w' & thrown & Hrun & Hflag & Htok & _ & Hstep).
  - reflexivity.
  - split; reflexivity.
  - by apply raises_fetch with (d := Some "0xA").
  - right; left; reflexivity.
  - exists w', thrown. repeat split; assumption.
Defined.

(** C5, as specified, refuted: a network failure of the progress request
    is classified neither as not-confirmed nor as bot verification, and
    [initialize] returns normally instead of throwing it. *)
Lemma other_error_is_not_rethrown :
  let env := Examples.gateway (inl Examples.networkError) (inr "0xsig") in
  HasToken Examples.loaded "h.p.s"
  ∧ Raises env "h.p.s" Examples.networkError
  ∧ classify Examples.networkError = Other
  ∧ (initialize env Examples.loaded).1 = Returned ().
Proof.
  repeat split; try reflexivity.
  by apply raises_fetch with (d := Some "0xA").
Qed.

(** C5, amended. For an error of the decode/fetch phase: classified as
    not-confirmed, [initialize] throws the confirmation error to its
    caller, with [isUserLoading] false by then; classified as bot
    verification, it returns normally; any other error is absorbed:
    [initialize] returns normally with [isUserLoading] false, the token
    removed and step 0. *)
Theorem errors_by_classification env w t e :
  hasWindow env = true →
  HasToken w t →
  Raises env t e →
  ∃ w',
    match classify e with
    | NotConfirmed =>
        initialize env w = (Threw confirmationError, w')
        ∧ isUserLoading (store w') = false
    | RequiresBotVerification =>
        initialize env w = (Returned (), w')
    | Other =>
        initialize env w = (Returned (), w')
        ∧ isUserLoading (store w') = false
        ∧ token w' = None
        ∧ step (store w') = Num 0
    end.
Proof.
  intros Hwin Htok Hraise. apply attempt_raises in Hraise.
  destruct (classify e) eqn:Hclass.
  - apply classify_NotConfirmed in Hclass.
    destruct (initialize_unconfirmed env w t e Hwin Htok Hraise Hclass)
      as (w' & Hrun & _ & _ & _ & Hload & _).
    by exists w'.
  - apply classify_RequiresBotVerification in Hclass as [Hnc Hbot].
    destruct (initialize_gated env w t e Hwin Htok Hraise Hnc Hbot)
      as (w' & Hrun & _).
    by exists w'.
  - apply classify_Other in Hclass as [Hnc Hbot].
    destruct (initialize_other env w t e Hwin Htok Hraise Hnc Hbot)
      as (w' & Hrun & Hs & Hl & _ & Hload & _).
    exists w'. repeat split; try done.
    unfold token. rewrite Hl. apply lookup_delete_eq.
Qed.

(** An instance: the progress request fails on the network. *)
Lemma errors_by_classification_witness :
  ∃ w',
    initialize (Examples.gateway (inl Examples.networkError) (inr "0xsig"))
      Examples.midway = (Returned (), w')
    ∧ isUserLoading (store w') = false
    ∧ token w' = None
    ∧ step (store w') = Num 0.
Proof.
  destruct (errors_by_classification
              (Examples.gateway (inl Examples.networkError) (inr "0xsig"))
              Examples.midway "h.p.s" Examples.networkError) as (w' & H).
  - reflexivity.
  - split; reflexivity.
  - by apply raises_fetch with (d := Some "0xA").
  - exists w'. exact H.
Defined.

(** C7. Calling [initialize] twice in a row, against the same gateway and
    with nothing else touching the store or the storage in between, leaves
    the same step after the second call as after the first. *)
Theorem initialize_twice_same_step env w :
  step (store (initialize env (initialize env w).2).2)
  = step (store (initialize env w).2).
Proof.
  destruct (hasWindow env) eqn:Hwin.
  2: { by rewrite !initialize_no_window. }
  destruct (truthy_opt (token w)) eqn:Htruthy.
  2: { rewrite (initialize_no_token env w Hwin Htruthy). cbn [snd].
       by rewrite initialize_no_token. }
  assert (∃ t, HasToken w t) as [t Htok].
  { unfold HasToken. destruct (token w) as [t|]; [|done]. by exists t. }
  assert (∀ w', localStorage w' = localStorage w → HasToken w' t) as Hkeep.
  { intros w' Hl. unfold HasToken, token. rewrite Hl. apply Htok. }
  assert (∀ w', localStorage w' = delete "jwt_token" (localStorage w) →
                truthy_opt (token w') = false) as Hgone.
  { intros w' Hl. unfold token. by rewrite Hl, lookup_delete_eq. }
  destruct (attempt env t) as [e|v] eqn:Hat.
  - destruct (notConfirmed e) eqn:Hnc; [|destruct (payloadRequiresBotVerification e) eqn:Hbot].
    + destruct (initialize_unconfirmed env w t e Hwin Htok Hat Hnc)
        as (w1 & -> & Hs & Hl & _). cbn [snd].
      rewrite (initialize_no_token env w1 Hwin (Hgone _ Hl)). by rewrite Hs.
    + destruct (initialize_gated env w t e Hwin Htok Hat Hnc Hbot)
        as (w1 & -> & Hs & Hl & _). cbn [snd].
      destruct (initialize_gated env w1 t e Hwin (Hkeep _ Hl) Hat Hnc Hbot)
        as (w2 & -> & Hs2 & _). done.
    + destruct (initialize_other env w t e Hwin Htok Hat Hnc Hbot)
        as (w1 & -> & Hs & Hl & _). cbn [snd].
      rewrite (initialize_no_token env w1 Hwin (Hgone _ Hl)). by rewrite Hs.
  - destruct (initialize_routed env w t v Hwin Htok Hat)
      as (w1 & -> & Hs & Hl & _). cbn [snd].
    destruct (initialize_routed env w1 t v Hwin (Hkeep _ Hl) Hat)
      as (w2 & -> & Hs2 & _). cbn [snd]. congruence.
Qed.

(** C9, as stated, refuted: with three completed steps none of which is a
    known identifier the step is 7, and with the single completed step
    [toString], a name every object literal inherits, it is a string. *)
Lemma unknown_last_step_is_not_always_NaN :
  let run steps :=
    initialize (Examples.gateway (Examples.completed steps) (inr "0xsig"))
      Examples.loaded in
  (run ["join_discord"; "follow_on_x"; "share_post"]).1 = Returned ()
  ∧ step (store (run ["join_discord"; "follow_on_x"; "share_post"]).2) = Num 7
  ∧ (run ["toString"]).1 = Returned ()
  ∧ step (store (run ["toString"]).2) = Concat1 "toString".
Proof. repeat split; by vm_compute. Qed.

(** C9, amended. When [completedSteps] has one or two elements and the last
    is neither one of the three known identifiers nor a name inherited
    from [Object.prototype], [initialize] returns normally and leaves [NaN]
    in [step], which is no number of the range 0 to 7. *)
Theorem unknown_last_step_gives_NaN env w t d progress steps k :
  hasWindow env = true →
  HasToken w t →
  decodeWallet env (payloadSegment t) = inr d →
  getOnboardingProgress env = inr progress →
  completedSteps progress = Some steps →
  (length steps < 3)%nat →
  last steps = Some k →
  k ∉ ["add_helios_network"; "claim_from_faucet"; "mint_early_bird_nft"] →
  k ∉ objectPrototypeKeys →
  ∃ w',
    initialize env w = (Returned (), w')
    ∧ step (store w') = NaN
    ∧ ∀ n, step (store w') ≠ Num n.
Proof.
  intros Hwin Htok Hd Hp Hc Hlen Hlast Hk Hproto.
  destruct (initialize_routed env w t (stepFor steps) Hwin Htok
              (attempt_routed _ _ _ _ _ Hd Hp Hc)) as (w' & Hrun & Hs & _).
  exists w'. split; [done|].
  assert (step (store w') = NaN) as ->; [|done].
  rewrite Hs, (stepFor_short _ _ Hlen Hlast). unfold getProp.
  rewrite stepMapping_other by set_solver.
  by rewrite bool_decide_eq_false_2.
Qed.

(** An instance: the single completed step [join_discord]. *)
Lemma unknown_last_step_gives_NaN_witness :
  ∃ w',
    initialize (Examples.gateway (Examples.completed ["join_discord"]) (inr "0xsig"))
      Examples.loaded = (Returned (), w')
    ∧ step (store w') = NaN.
Proof.
  destruct (unknown_last_step_gives_NaN
              (Examples.gateway (Examples.completed ["join_discord"]) (inr "0xsig"))
              Examples.loaded "h.p.s" (Some "0xA")
              {| completedSteps := Some ["join_discord"] |}
              ["join_discord"] "join_discord") as (w' & Hrun & Hnan & _).
  - reflexivity.
  - split; reflexivity.
  - reflexivity.
  - reflexivity.
  - reflexivity.
  - cbn; lia.
  - reflexivity.
  - apply (bool_decide_eq_true_1 _). reflexivity.
  - apply (bool_decide_eq_true_1 _). reflexivity.
  - exists w'. split; assumption.
Defined.

(** C10. The not-confirmed test comes first: an error of the decode/fetch
    phase that matches it and also carries the payload flag
    [requiresBotVerification] is classified as not-confirmed; the token is
    removed, step is 0, and the store's verification flag is not written
    at all. *)
Theorem not_confirmed_wins_over_bot_flag env w t e :
  hasWindow env = true →
  HasToken w t →
  Raises env t e →
  messageIncludes "not confirmed" e = true
  ∨ statusIs 403 e = true
  ∨ requiresInviteCode e = true →
  payloadRequiresBotVerification e = true →
  ∃ w',
    classify e = NotConfirmed
    ∧ (initialize env w).2 = w'
    ∧ token w' = None
    ∧ step (store w') = Num 0
    ∧ requiresBotVerification (store w') = requiresBotVerification (store w)
    ∧ Since (λ ev, negb (setsBotFlag ev)) w w'.
Proof.
  intros Hwin Htok Hraise Hnc _.
  apply attempt_raises in Hraise. apply notConfirmed_cases in Hnc.
  destruct (initialize_unconfirmed env w t e Hwin Htok Hraise Hnc)
    as (w' & Hrun & Hs & Hl & Hf & _ & Hq).
  exists w'. rewrite Hrun. repeat split; try done.
  - by apply classify_NotConfirmed.
  - unfold token. rewrite Hl. apply lookup_delete_eq.
Qed.

(** An instance: a 403 answer that also carries the bot flag. *)
Lemma not_confirmed_wins_over_bot_flag_witness :
  ∃ w',
    (initialize (Examples.gateway (inl (Examples.forbidden true)) (inr "0xsig"))
       Examples.midway).2 = w'
    ∧ token w' = None
    ∧ step (store w') = Num 0
    ∧ requiresBotVerification (store w') = false.
Proof.
  destruct (not_confirmed_wins_over_bot_flag
              (Examples.gateway (inl (Examples.forbidden true)) (inr "0xsig"))
              Examples.midway "h.p.s" (Examples.forbidden true))
    as (w' & _ & Hrun & Htok & Hstep & Hflag & _).
  - reflexivity.
  - split; reflexivity.
  - by apply raises_fetch with (d := Some "0xA").
  - right; left; reflexivity.
  - reflexivity.
  - exists w'. repeat split; assumption.
Defined.

End StoreFacts.

(** ** Properties of the wallet authentication controller *)

Module ControllerFacts.
Import JS Store ConnectWallet StoreFacts.

(** Runs the handlers on a page given by its parts, so that every
    projection disappears as soon as it is formed. *)
Ltac run_ui :=
  cbv [liftWorld setComp setIsLoading setError setNeedsInviteCode setInviteCode
       setInviteError setPendingSignature setPendingWallet
       setPreviousConnectionState setWasEverConnected when detached
       setStep setUser resetStore
       mbind M_bind mret M_ret get gets modify set emit getItem removeItem
       tryCatch tryFinally throw settle
       fst snd world comp store localStorage trace].

Ltac simpl_page :=
  cbn [world comp isLoading error needsInviteCode showDiscordLink inviteCode
       inviteError hcaptchaToken pendingSignature pendingWallet
       previousConnectionState wasEverConnected
       withIsLoading withError withNeedsInviteCode withInviteCode
       withInviteError withPendingSignature withPendingWallet
       withPreviousConnectionState withWasEverConnected];
  simpl_state.

(** [handleDisconnect], whenever it runs, leaves the disconnected default:
    no token, no user, no progress, no verification gate, step 0. *)
Lemma handleDisconnect_resets h p :
  ∃ p',
    handleDisconnect h p = (Returned (), p')
    ∧ token (world p') = None
    ∧ user (store (world p')) = None
    ∧ onboardingProgress (store (world p')) = None
    ∧ requiresBotVerification (store (world p')) = false
    ∧ step (store (world p')) = Num 0.
Proof.
  destruct p as [c [st ls tr]]. unfold handleDisconnect. run_ui.
  eexists; split; [reflexivity|]. simpl_page. repeat split.
  apply lookup_delete_eq.
Qed.

Lemma referralEffect_run h p :
  ∃ p', referralEffect h p = (Returned (), p')
        ∧ SameSession p p' ∧ SameMemory p p'.
Proof.
  destruct p as [c0 [st ls tr]].
  unfold referralEffect. destruct (referralCodeFromUrl h) as [[|c s]|].
  all: run_ui; eexists; split; [reflexivity|]; by split.
Qed.

Lemma discordEffect_run h p :
  ∃ p', discordEffect h p = (Returned (), p')
        ∧ SameSession p p' ∧ SameMemory p p'.
Proof.
  destruct p as [c0 [st ls tr]]. unfold discordEffect.
  destruct (isTrue (requireInvite h) || isTrue (discordLinked h));
    [destruct (isConnected h && truthy_opt (address h))|].
  all: run_ui; eexists; split; [reflexivity|]; by split.
Qed.

Lemma everConnectedEffect_run h p :
  ∃ p', everConnectedEffect h p = (Returned (), p')
        ∧ SameSession p p'
        ∧ wasEverConnected (comp p') = isConnected h || wasEverConnected (comp p)
        ∧ previousConnectionState (comp p') = previousConnectionState (comp p).
Proof.
  destruct p as [c0 [st ls tr]].
  unfold everConnectedEffect. destruct (isConnected h).
  all: run_ui; eexists; split; [reflexivity|]; by split.
Qed.

Lemma connectionEffect_run h c p :
  disconnectDetected h c = false →
  ∃ p', connectionEffect h c p = (Returned (), p')
        ∧ SameSession p p'
        ∧ wasEverConnected (comp p') = wasEverConnected (comp p)
        ∧ previousConnectionState (comp p') = Some (isReallyConnected h c).
Proof.
  intros Hno. destruct p as [c0 [st ls tr]].
  unfold connectionEffect. rewrite Hno.
  run_ui; eexists; split; [reflexivity|]; by split.
Qed.

Lemma mountEffect_run h c p t :
  HasToken (world p) t →
  ∃ p', mountEffect h c p = (Returned (), p')
        ∧ SameSession p p' ∧ SameMemory p p'.
Proof.
  destruct p as [c0 [st ls tr]]. intros [Hl Ht].
  unfold mountEffect, token in *. cbn [world localStorage] in Hl.
  destruct (isReallyConnected h c && _).
  2: { run_ui; eexists; split; [reflexivity|]; by split. }
  run_ui. rewrite Hl. cbn [truthy_opt]. rewrite Ht.
  eexists; split; [reflexivity|]; by split.
Qed.

Lemma SameSession_refl p : SameSession p p.
Proof. by split. Qed.

Lemma SameSession_trans p1 p2 p3 :
  SameSession p1 p2 → SameSession p2 p3 → SameSession p1 p3.
Proof. intros [a b] [c d]. split; congruence. Qed.

Lemma HasToken_same p p' t :
  SameSession p p' → HasToken (world p) t → HasToken (world p') t.
Proof. intros [_ Hl] Htok. unfold HasToken, token in *. by rewrite Hl. Qed.

(** One commit in which no disconnection is detected and the token is in
    storage: the session is untouched, and the two memory cells move as the
    connection effects dictate. *)
Lemma commitEffects_run prev h c p t :
  disconnectDetected h c = false →
  HasToken (world p) t →
  ∃ p',
    commitEffects prev h c p = (Returned (), p')
    ∧ SameSession p p'
    ∧ wasEverConnected (comp p')
      = (changed prev (λ d, isConnected (dep_hooks d)) (isConnected h)
         && isConnected h) || wasEverConnected (comp p)
    ∧ previousConnectionState (comp p')
      = if changed prev dep_isReallyConnected (isReallyConnected h c)
        then Some (isReallyConnected h c)
        else previousConnectionState (comp p).
Proof.
  intros Hno Htok. unfold commitEffects.
  set (b1 := changed prev _ (referralCodeFromUrl h)).
  set (b2 := changed prev _ (requireInvite h, _, _, _)).
  set (b3 := changed prev _ (isConnected h)).
  set (b4 := changed prev _ (isReallyConnected h c)).
  set (b5 := bool_decide (prev = None)).
  assert (∃ p1, when b1 (referralEffect h) p = (Returned (), p1)
                ∧ SameSession p p1 ∧ SameMemory p p1) as (p1 & R1 & S1 & M1).
  { destruct b1; [apply referralEffect_run|].
    exists p. by repeat split. }
  assert (∃ p2, when b2 (discordEffect h) p1 = (Returned (), p2)
                ∧ SameSession p1 p2 ∧ SameMemory p1 p2) as (p2 & R2 & S2 & M2).
  { destruct b2; [apply discordEffect_run|].
    exists p1. by repeat split. }
  assert (∃ p3, when b3 (everConnectedEffect h) p2 = (Returned (), p3)
                ∧ SameSession p2 p3
                ∧ wasEverConnected (comp p3)
                  = (b3 && isConnected h) || wasEverConnected (comp p2)
                ∧ previousConnectionState (comp p3)
                  = previousConnectionState (comp p2)) as (p3 & R3 & S3 & E3 & P3).
  { destruct b3; [apply everConnectedEffect_run|].
    exists p2. by repeat split. }
  assert (∃ p4, when b4 (connectionEffect h c) p3 = (Returned (), p4)
                ∧ SameSession p3 p4
                ∧ wasEverConnected (comp p4) = wasEverConnected (comp p3)
                ∧ previousConnectionState (comp p4)
                  = if b4 then Some (isReallyConnected h c)
                    else previousConnectionState (comp p3))
    as (p4 & R4 & S4 & E4 & P4).
  { destruct b4; [by apply connectionEffect_run|].
    exists p3. by repeat split. }
  assert (HasToken (world p4) t) as Htok4.
  { eauto using HasToken_same. }
  assert (∃ p5, when b5 (mountEffect h c) p4 = (Returned (), p5)
                ∧ SameSession p4 p5 ∧ SameMemory p4 p5) as (p5 & R5 & S5 & M5).
  { destruct b5; [by eapply mountEffect_run|].
    exists p4. by repeat split. }
  exists p5. unfold mbind, M_bind. rewrite R1, R2, R3, R4, R5.
  split; [done|]. split; [eauto using SameSession_trans|].
  destruct M1 as [Me1 Mp1], M2 as [Me2 Mp2], M5 as [Me5 Mp5]. split.
  - by rewrite Me5, E4, E3, Me2, Me1.
  - by rewrite Mp5, P4, P3, Mp2, Mp1.
Qed.

Lemma Latched_no_disconnect h m :
  Latched m → disconnectDetected h (comp (page m)) = false.
Proof.
  intros [Hprev _]. unfold disconnectDetected, isReallyConnected.
  case_bool_decide as Hp; [|done].
  rewrite (Hprev Hp). by rewrite orb_true_r.
Qed.

Lemma Latched_mount w :
  Latched {| page := {| comp := initialComponent; world := w |}; deps := None |}.
Proof. by split. Qed.

(** A connected provider sets the memory in the very commit that sees it:
    either the memory was set before, or the effect of [isConnected] runs. *)
Lemma ever_connected_after_commit m h :
  Latched m →
  isConnected h = true →
  (changed (deps m) (λ d, isConnected (dep_hooks d)) (isConnected h)
   && isConnected h) || wasEverConnected (comp (page m)) = true.
Proof.
  intros [_ Hdeps] Hc. rewrite Hc.
  destruct (wasEverConnected (comp (page m))) eqn:Hever; [by rewrite orb_true_r|].
  unfold changed. destruct (deps m) as [d|] eqn:Hd; [|done].
  case_bool_decide as Heq; [|done].
  specialize (Hdeps d eq_refl Heq). congruence.
Qed.

Lemma renderLoop_keeps fuel h m t :
  Latched m →
  HasToken (world (page m)) t →
  Latched (renderLoop fuel h m)
  ∧ SameSession (page m) (page (renderLoop fuel h m)).
Proof.
  revert m. induction fuel as [|fuel IH]; intros m Hlatched Htok.
  { split; [done|apply SameSession_refl]. }
  cbn [renderLoop].
  destruct (commitEffects_run (deps m) h (comp (page m)) (page m) t
              (Latched_no_disconnect h m Hlatched) Htok)
    as (p' & -> & Hsame & Hever & Hprev).
  cbn [snd].
  set (m' := {| page := p'; deps := _ |}).
  assert (Latched m') as Hlatched'.
  { split; cbn [page deps m'].
    - rewrite Hprev, Hever. intros Hp.
      destruct (changed (deps m) dep_isReallyConnected _).
      + injection Hp as Hreally. unfold isReallyConnected in Hreally.
        apply orb_true_iff in Hreally as [Hc|Hever0].
        * by apply ever_connected_after_commit.
        * rewrite Hever0. by rewrite orb_true_r.
      + rewrite (latched_previous _ Hlatched Hp). by rewrite orb_true_r.
    - intros d [= <-]. cbn [dep_hooks]. intros Hc. rewrite Hever.
      by apply ever_connected_after_commit. }
  case_bool_decide; [done|].
  destruct (IH m' Hlatched') as [Hl Hs].
  { cbn [page m']. by eapply HasToken_same. }
  split; [done|]. eapply SameSession_trans; [exact Hsame|exact Hs].
Qed.

Lemma rerenders_keeps fuel hs m t :
  Latched m →
  HasToken (world (page m)) t →
  Latched (rerenders fuel hs m)
  ∧ SameSession (page m) (page (rerenders fuel hs m)).
Proof.
  revert m. induction hs as [|h hs IH]; intros m Hlatched Htok.
  { split; [done|apply SameSession_refl]. }
  cbn [rerenders foldl].
  destruct (renderLoop_keeps fuel h m t Hlatched Htok) as [Hl Hs].
  destruct (IH (renderLoop fuel h m) Hl) as [Hl' Hs'].
  { by eapply HasToken_same. }
  split; [done|]. eapply SameSession_trans; [exact Hs|exact Hs'].
Qed.

(** Whatever the wallet provider reports after the component mounted on a
    page that holds a token, its effects leave the store and the storage as
    they were: the connection effect never detects a disconnection. *)
Lemma effects_keep_session fuel h0 hs w t :
  HasToken w t →
  SameSession {| comp := initialComponent; world := w |}
    (page (rerenders fuel hs (mount fuel h0 w))).
Proof.
  intros Htok. unfold mount.
  destruct (renderLoop_keeps fuel h0 _ t (Latched_mount w) Htok) as [Hl Hs].
  destruct (rerenders_keeps fuel hs _ t Hl) as [_ Hs'].
  { by eapply HasToken_same. }
  eapply SameSession_trans; [exact Hs|exact Hs'].
Qed.

(** C6, at the failing input. The component mounts with the wallet
    connected on a page in the middle of onboarding, then the provider
    reports the wallet disconnected. The component renders with
    [isConnected] false, [isReallyConnected] stays true, [handleDisconnect]
    is not called: the token, the user, the progress and the step are all
    still there. *)
Theorem provider_disconnect_keeps_session fuel :
  let m := rerenders (S fuel) [Examples.hooks false None]
             (mount (S fuel) (Examples.hooks true None) Examples.midway) in
  (isConnected <$> (dep_hooks <$> deps m)) = Some false
  ∧ (dep_isReallyConnected <$> deps m) = Some true
  ∧ token (world (page m)) = Some "h.p.s"
  ∧ user (store (world (page m))) = Some (Examples.profileOf "0xA")
  ∧ onboardingProgress (store (world (page m)))
    = Some {| completedSteps := Some ["add_helios_network"; "claim_from_faucet"] |}
  ∧ step (store (world (page m))) = Num 5.
Proof.
  intros m.
  destruct (effects_keep_session (S fuel) (Examples.hooks true None)
              [Examples.hooks false None] Examples.midway "h.p.s")
    as [Hstore Hstorage]; [by split|].
  fold m in Hstore, Hstorage. cbn [world] in Hstore, Hstorage.
  unfold token. rewrite Hstore, Hstorage.
  split; [|split]; [| |by repeat split].
  all: subst m; destruct fuel as [|[|fuel]]; reflexivity.
Qed.

Lemma initialize_extends env w :
  ∃ evs, trace (initialize env w).2 = trace w ++ evs.
Proof.
  assert (∀ ok w', Since ok w w' → ∃ evs, trace w' = trace w ++ evs) as Hsince.
  { intros ok w' (evs & Ht & _). by exists evs. }
  destruct (hasWindow env) eqn:Hwin.
  2: { rewrite initialize_no_window by done. exists []. by rewrite app_nil_r. }
  destruct (truthy_opt (token w)) eqn:Htruthy.
  2: { rewrite (initialize_no_token env w Hwin Htruthy). by eexists. }
  assert (∃ t, HasToken w t) as [t Htok].
  { unfold HasToken. destruct (token w) as [t|]; [|done]. by exists t. }
  destruct (attempt env t) as [e|v] eqn:Hat.
  - destruct (notConfirmed e) eqn:Hnc;
      [|destruct (payloadRequiresBotVerification e) eqn:Hbot].
    + destruct (initialize_unconfirmed env w t e Hwin Htok Hat Hnc)
        as (w1 & -> & _ & _ & _ & _ & Hq). eauto.
    + destruct (initialize_gated env w t e Hwin Htok Hat Hnc Hbot)
        as (w1 & -> & _ & _ & _ & Hq). eauto.
    + destruct (initialize_other env w t e Hwin Htok Hat Hnc Hbot)
        as (w1 & -> & _ & _ & _ & _ & Hq). eauto.
  - destruct (initialize_routed env w t v Hwin Htok Hat)
      as (w1 & -> & _ & _ & _ & Hq). eauto.
Qed.


(** With no usable invite code, entered or from the URL, the handler only
    reports the missing code. *)
Lemma register_without_code env h c p :
  truthy_opt (orElse (trim (inviteCode c)) (referralCodeFromUrl h)) = false →
  ∃ p',
    handleRegisterWithInvite env h c p = (Returned (), p')
    ∧ world p' = world p
    ∧ inviteError (comp p') = Some "Invite code is required".
Proof.
  intros Hcode. destruct p as [c0 [st ls tr]]. unfold handleRegisterWithInvite.
  destruct (orElse _ _) as [[|a s]|]; [|discriminate Hcode|].
  all: run_ui; eexists; split; [reflexivity|]; by split.
Qed.

(** With an empty entry the code that reaches [confirmAccount] is the one
    from the URL, whether the signature was pending or is obtained now. *)
Lemma register_sends_url_code env h c p pw sig code tok :
  trim (inviteCode c) = "" →
  referralCodeFromUrl h = Some code → truthy code = true →
  pendingWallet c = Some pw → truthy pw = true →
  hcaptchaToken c = Some tok → truthy tok = true →
  pendingSignature c = Some sig ∧ truthy sig = true
  ∨ truthy_opt (pendingSignature c) = false
    ∧ signerAvailable env = true
    ∧ signerSignMessage env (loginChallenge pw) = inr sig →
  ∃ evs,
    trace (world (handleRegisterWithInvite env h c p).2) = trace (world p) ++ evs
    ∧ ApiConfirmAccount pw sig code tok ∈ evs.
Proof.
  intros Hentered Hurl Hcode Hpw Hpwt Htok Htokt Hsig.
  destruct p as [c0 [st ls tr]].
  unfold handleRegisterWithInvite. rewrite Hentered, Hurl, Hpw, Htok.
  cbn [orElse truthy truthy_opt].
  destruct code as [|c1 code]; [discriminate Hcode|].
  destruct pw as [|c2 pw]; [discriminate Hpwt|].
  destruct tok as [|c3 tok]; [discriminate Htokt|].
  assert (∀ w0 : World, ∃ evs, trace (initialize env w0).2 = trace w0 ++ evs)
    as Hinit by apply initialize_extends.
  destruct Hsig as [[Hsig Hsigt]|(Hsig & Hsigner & Hsign)].
  - rewrite Hsig. cbn [truthy_opt]. rewrite Hsigt.
    cbn [negb default from_option id]. unfold apiConfirmAccount. run_ui.
    destruct (confirmAccount env (String c2 pw) sig (String c1 code) (String c3 tok))
      as [e|[u|]].
    1,3: eexists; split; [reflexivity|]; set_solver.
    match goal with
    | |- context [initialize env ?w0] =>
        destruct (Hinit w0) as [evs Hevs];
        destruct (initialize env w0) as [r [st1 ls1 tr1]]
    end.
    cbn [snd trace] in Hevs. rewrite Hevs, <- !app_assoc.
    eexists; split; [reflexivity|]. set_solver.
  - rewrite Hsig. cbn [negb]. unfold signMessage, apiConfirmAccount.
    rewrite Hsigner. run_ui. rewrite Hsign.
    destruct (confirmAccount env (String c2 pw) sig (String c1 code) (String c3 tok))
      as [e|[u|]].
    2: { match goal with
         | |- context [initialize env ?w0] =>
             destruct (Hinit w0) as [evs Hevs];
             destruct (initialize env w0) as [r [st1 ls1 tr1]]
         end.
         cbn [snd trace] in Hevs. rewrite Hevs, <- !app_assoc.
         eexists; split; [reflexivity|]. set_solver. }
    + destruct (signatureDeclined e).
      all: rewrite <- !app_assoc; eexists; split; [reflexivity|]; set_solver.
    + rewrite <- !app_assoc; eexists; split; [reflexivity|]; set_solver.
Qed.

Lemma signer_failure_not_declined :
  signatureDeclined (newError "Failed to sign message") = false.
Proof. reflexivity. Qed.

Lemma captcha_failure_not_declined :
  signatureDeclined
    (newError "Please complete the captcha verification to proceed.") = false.
Proof. reflexivity. Qed.

Ltac local_failure :=
  do 2 eexists; split; [reflexivity|]; simpl_page;
  repeat split; try done; try apply Since_refl; try since.

(** Without a CAPTCHA token the handler calls no API and leaves the store
    and the storage alone; what it reports is one of its validation
    messages, unless it had to ask for a signature and did not get one. *)
Lemma register_without_captcha env h c p :
  truthy_opt (hcaptchaToken c) = false →
  ∃ p' m,
    handleRegisterWithInvite env h c p = (Returned (), p')
    ∧ store (world p') = store (world p)
    ∧ localStorage (world p') = localStorage (world p)
    ∧ Since (λ ev, negb (callsApi ev)) (world p) (world p')
    ∧ inviteError (comp p') = Some m
    ∧ (isValidationMessage m = true
       ∨ truthy_opt (pendingSignature c) = false
         ∧ ∃ pw e w1,
             pendingWallet c = Some pw
             ∧ signMessage env pw (world p) = (Threw e, w1)
             ∧ m = signFailureMessage e).
Proof.
  intros Hcaptcha. destruct p as [c0 [st ls tr]]. unfold handleRegisterWithInvite.
  destruct (orElse _ _) as [[|a inv]|].
  1,3: run_ui; local_failure; by left.
  destruct (pendingWallet c) as [[|b pw]|] eqn:Hpw.
  1,3: run_ui; local_failure; by left.
  destruct (truthy_opt (pendingSignature c)) eqn:Hsig; cbn [negb].
  - (* a signature is pending: the CAPTCHA is checked at once *)
    destruct (hcaptchaToken c) as [[|d tok]|]; [|discriminate Hcaptcha|].
    all: run_ui; local_failure; by left.
  - (* the signature is asked for first *)
    unfold signMessage.
    destruct (signerAvailable env) eqn:Hsigner.
    2: { run_ui. rewrite signer_failure_not_declined.
         local_failure.
         right. split; [done|]. do 3 eexists. split; [done|]. by split. }
    destruct (signerSignMessage env (loginChallenge (String b pw))) as [e|sig] eqn:Hsign.
    + run_ui.
      destruct (signatureDeclined e) eqn:Hdecl.
      all: local_failure.
      all: right; split; [done|]; do 3 eexists; split; [done|].
      all: run_ui; rewrite Hsign.
      all: split; [reflexivity|]; unfold signFailureMessage; by rewrite Hdecl.
    + run_ui.
      destruct (hcaptchaToken c) as [[|d tok]|]; [|discriminate Hcaptcha|].
      all: rewrite ?captcha_failure_not_declined.
      all: local_failure; by left.
Qed.


(** C8, as stated, refuted: with an invite code and a pending wallet but no
    CAPTCHA token and no signature yet, the handler first asks the wallet
    for a signature; when the user declines, what it reports is the
    declined signature, which is none of its validation errors. *)
Lemma declined_signature_is_not_a_validation_error :
  let env := Examples.gateway (Examples.completed []) (inl Examples.userRejected) in
  let c := Examples.inviteForm "HELIOS1" None None in
  let result := handleRegisterWithInvite env (Examples.hooks true None) c
                  {| comp := c; world := Examples.midway |} in
  hcaptchaToken c = None
  ∧ result.1 = Returned ()
  ∧ inviteError (comp result.2)
    = Some "You declined the signature request. Please try again."
  ∧ isValidationMessage "You declined the signature request. Please try again."
    = false.
Proof. repeat split; by vm_compute. Qed.

(** C8, amended. [handleRegisterWithInvite] sends the code from the entry
    URL when the entered code is empty; when both are empty it reports the
    validation error "Invite code is required" and does nothing else; when
    no CAPTCHA token is present it calls no API ([confirmAccount] or any
    other), keeps store and storage as they are, and reports an error: one
    of its validation errors, or, when no signature was pending and the
    wallet did not give one, that signing failure. *)
Theorem register_validates_locally env h c p :
  (∀ pw sig code tok,
     trim (inviteCode c) = "" →
     referralCodeFromUrl h = Some code → truthy code = true →
     pendingWallet c = Some pw → truthy pw = true →
     hcaptchaToken c = Some tok → truthy tok = true →
     pendingSignature c = Some sig ∧ truthy sig = true
     ∨ truthy_opt (pendingSignature c) = false
       ∧ signerAvailable env = true
       ∧ signerSignMessage env (loginChallenge pw) = inr sig →
     ∃ evs,
       trace (world (handleRegisterWithInvite env h c p).2) = trace (world p) ++ evs
       ∧ ApiConfirmAccount pw sig code tok ∈ evs)
  ∧ (truthy_opt (orElse (trim (inviteCode c)) (referralCodeFromUrl h)) = false →
     ∃ p',
       handleRegisterWithInvite env h c p = (Returned (), p')
       ∧ world p' = world p
       ∧ inviteError (comp p') = Some "Invite code is required")
  ∧ (truthy_opt (hcaptchaToken c) = false →
     ∃ p' m,
       handleRegisterWithInvite env h c p = (Returned (), p')
       ∧ store (world p') = store (world p)
       ∧ localStorage (world p') = localStorage (world p)
       ∧ Since (λ ev, negb (callsApi ev)) (world p) (world p')
       ∧ inviteError (comp p') = Some m
       ∧ (isValidationMessage m = true
          ∨ truthy_opt (pendingSignature c) = false
            ∧ ∃ pw e w1,
                pendingWallet c = Some pw
                ∧ signMessage env pw (world p) = (Threw e, w1)
                ∧ m = signFailureMessage e)).
Proof.
  split; [|split].
  - intros pw sig code tok. apply register_sends_url_code.
  - apply register_without_code.
  - apply register_without_captcha.
Qed.

(** An instance: a blank entry, a code in the URL, a pending signature and
    no CAPTCHA token. *)
Lemma register_validates_locally_witness :
  ∃ p' m,
    handleRegisterWithInvite
      (Examples.gateway (Examples.completed []) (inr "0xsig"))
      (Examples.hooks true (Some "HELIOS1"))
      (Examples.inviteForm "  " None (Some "0xsig"))
      {| comp := Examples.inviteForm "  " None (Some "0xsig");
         world := Examples.midway |} = (Returned (), p')
    ∧ inviteError (comp p') = Some m
    ∧ world p' = Examples.midway.
Proof.
  destruct (register_validates_locally
              (Examples.gateway (Examples.completed []) (inr "0xsig"))
              (Examples.hooks true (Some "HELIOS1"))
              (Examples.inviteForm "  " None (Some "0xsig"))
              {| comp := Examples.inviteForm "  " None (Some "0xsig");
                 world := Examples.midway |}) as (_ & _ & Hcaptcha).
  destruct Hcaptcha as (p' & m & Hrun & _ & _ & _ & Herr & _).
  - reflexivity.
  - exists p', m. split; [exact Hrun|]. split; [exact Herr|].
    revert Hrun. vm_compute. by intros [= <-].
Defined.

End ControllerFacts.

Module StoreExtras.
Import JS Store StoreFacts.

Ltac simpl_state_in H :=
  cbn [fst snd store localStorage trace step xp user isUserLoading
       onboardingProgress requiresBotVerification merge default from_option id
       p_step p_xp p_user p_isUserLoading p_onboardingProgress
       p_requiresBotVerification patchStep patchUser patchIsUserLoading
       patchOnboardingProgress patchRequiresBotVerification] in H.

Lemma fetchUser_frame env w :
  ∃ w', fetchUser env w = (Returned (), w')
        ∧ xp (store w') = xp (store w)
        ∧ localStorage w' = localStorage w.
Proof.
  unfold fetchUser, apiGetUserProfile. unfold_eff.
  destruct (user (store w)) as [u|]; [|by eexists].
  destruct (truthy (wallet u)); [|by eexists].
  destruct (getUserProfile env (wallet u)) as [e|u'].
  all: eexists; split; [reflexivity|]; by simpl_state.
Qed.

Lemma initializeAttempt_frame env tok w :
  xp (store (initializeAttempt env tok w).2) = xp (store w)
  ∧ localStorage (initializeAttempt env tok w).2 = localStorage w.
Proof.
  unfold initializeAttempt, apiGetOnboardingProgress.
  destruct (decodeWallet env (payloadSegment tok)) as [e|d]; [done|].
  assert (∃ w1, (match d with
                 | Some addr =>
                     if truthy addr then
                       set (patchUser (Some {| wallet := addr; referralCode := None |}));;
                       fetchUser env
                     else mret ()
                 | None => mret ()
                 end) w = (Returned (), w1)
                ∧ xp (store w1) = xp (store w)
                ∧ localStorage w1 = localStorage w) as (w1 & Hrun & Hx & Hl).
  { destruct d as [addr|]; [destruct (truthy addr)|].
    2,3: by exists w.
    unfold_eff.
    edestruct (fetchUser_frame env) as (w1 & -> & Hx & Hl).
    exists w1. by rewrite Hx, Hl. }
  revert Hrun. unfold_eff. intros ->.
  destruct (getOnboardingProgress env) as [e|progress]; [done|].
  destruct (completedSteps progress) as [steps|]; [|done].
  destruct (3 <=? length steps)%nat; [|destruct (0 <? length steps)%nat]; done.
Qed.

Lemma delete_token_spares (l : gmap string string) k :
  k ≠ "jwt_token" → delete "jwt_token" l !! k = l !! k.
Proof. intros Hk. by rewrite lookup_delete_ne. Qed.

(** X1. [initialize] never changes the experience points nor any storage
    key other than the token's, and the token is either left as it was or
    removed: it is never rewritten. *)
Theorem initialize_spares env w : Spared w (initialize env w).2.
Proof.
  unfold initialize. destruct (hasWindow env); [|by split; auto].
  unfold_eff. cbn [negb].
  destruct (localStorage w !! "jwt_token") as [[|a t]|] eqn:Htok.
  1,3: split; simpl_state; auto.
  match goal with
  | |- context [initializeAttempt env ?tok ?w0] =>
      destruct (initializeAttempt_frame env tok w0) as [Hx Hl];
      destruct (initializeAttempt env tok w0) as [[[]|e] w1]
  end; simpl_state_in Hx; simpl_state_in Hl.
  { split; simpl_state; unfold token; rewrite ?Hl; auto. }
  unfold onProgressError.
  destruct (notConfirmed e) eqn:Hnc; unfold_eff.
  { unfold onInitializeError. rewrite notConfirmed_confirmationError. unfold_eff.
    split; simpl_state; unfold token; simpl_state; rewrite ?Hl.
    - done.
    - intros k Hk. by rewrite !lookup_delete_ne.
    - right. apply lookup_delete_eq. }
  destruct (payloadRequiresBotVerification e) eqn:Hbot; unfold_eff.
  { split; simpl_state; unfold token; simpl_state; rewrite ?Hl; auto. }
  unfold onInitializeError. rewrite Hnc, Hbot. unfold_eff.
  split; simpl_state; unfold token; simpl_state; rewrite ?Hl.
  - done.
  - intros k Hk. by rewrite lookup_delete_ne.
  - right. apply lookup_delete_eq.
Qed.

Lemma apiCalls_app evs1 evs2 : apiCalls (evs1 ++ evs2) = apiCalls evs1 ++ apiCalls evs2.
Proof. apply List.filter_app. Qed.

(** What [fetchUser] does when the store's user has a wallet. *)
Lemma fetchUser_with_wallet env w u :
  user (store w) = Some u → truthy (wallet u) = true →
  ∃ w' evs,
    fetchUser env w = (Returned (), w')
    ∧ trace w' = trace w ++ evs
    ∧ apiCalls evs = [ApiGetUserProfile (wallet u)]
    ∧ isUserLoading (store w') = false
    ∧ user (store w') = match getUserProfile env (wallet u) with
                        | inr fetched => Some fetched
                        | inl _ => Some u
                        end
    ∧ step (store w') = step (store w)
    ∧ xp (store w') = xp (store w)
    ∧ onboardingProgress (store w') = onboardingProgress (store w)
    ∧ requiresBotVerification (store w') = requiresBotVerification (store w)
    ∧ localStorage w' = localStorage w.
Proof.
  intros Hu Hw. unfold fetchUser, apiGetUserProfile. unfold_eff.
  rewrite Hu, Hw.
  destruct (getUserProfile env (wallet u)) as [e|u'].
  all: do 2 eexists; split; [reflexivity|]; simpl_state.
  all: split; [rewrite <- !app_assoc; reflexivity|].
  all: by repeat split.
Qed.

(** X2. With a wallet in the store, [fetchUser] issues exactly one profile
    request and returns normally; the answer replaces the user, a failure
    keeps the user as it was, and either way [isUserLoading] ends false
    while step, points, progress, verification flag and storage are
    untouched. *)
Theorem fetchUser_settles env w u :
  user (store w) = Some u → truthy (wallet u) = true →
  ∃ w' evs,
    fetchUser env w = (Returned (), w')
    ∧ trace w' = trace w ++ evs
    ∧ apiCalls evs = [ApiGetUserProfile (wallet u)]
    ∧ isUserLoading (store w') = false
    ∧ user (store w') = match getUserProfile env (wallet u) with
                        | inr fetched => Some fetched
                        | inl _ => Some u
                        end
    ∧ step (store w') = step (store w)
    ∧ xp (store w') = xp (store w)
    ∧ onboardingProgress (store w') = onboardingProgress (store w)
    ∧ requiresBotVerification (store w') = requiresBotVerification (store w)
    ∧ localStorage w' = localStorage w.
Proof. apply fetchUser_with_wallet. Qed.

(** An instance: the profile request fails and the stub user stays. *)
Lemma fetchUser_settles_witness :
  let env := {| hasWindow := true;
                decodeWallet := λ _, inr None;
                getUserProfile := λ _, inl Examples.networkError;
                getOnboardingProgress := inl Examples.networkError;
                signerAvailable := false;
                signerSignMessage := λ _, inl Examples.networkError;
                confirmAccount := λ _ _ _ _, inl Examples.networkError |} in
  ∃ w', fetchUser env Examples.midway = (Returned (), w')
        ∧ user (store w') = Some (Examples.profileOf "0xA")
        ∧ isUserLoading (store w') = false.
Proof.
  intros env.
  destruct (fetchUser_settles env Examples.midway (Examples.profileOf "0xA"))
    as (w' & evs & Hrun & _ & _ & Hload & Huser & _).
  - reflexivity.
  - reflexivity.
  - exists w'. repeat split; assumption.
Defined.

(** X3. [fetchOnboardingProgress] never throws: an answer replaces the
    stored progress, a failure leaves it as it was. It issues one progress
    request and does not derive a step: [step], user, points, flags and
    storage stay as they are. *)
Theorem fetchOnboardingProgress_absorbs env w :
  ∃ w' evs,
    fetchOnboardingProgress env w = (Returned (), w')
    ∧ trace w' = trace w ++ evs
    ∧ apiCalls evs = [ApiGetOnboardingProgress]
    ∧ onboardingProgress (store w')
      = match getOnboardingProgress env with
        | inr progress => Some progress
        | inl _ => onboardingProgress (store w)
        end
    ∧ step (store w') = step (store w)
    ∧ user (store w') = user (store w)
    ∧ xp (store w') = xp (store w)
    ∧ isUserLoading (store w') = isUserLoading (store w)
    ∧ requiresBotVerification (store w') = requiresBotVerification (store w)
    ∧ localStorage w' = localStorage w.
Proof.
  unfold fetchOnboardingProgress, apiGetOnboardingProgress. unfold_eff.
  destruct (getOnboardingProgress env) as [e|progress].
  all: do 2 eexists; split; [reflexivity|]; simpl_state.
  all: split; [rewrite <- ?app_assoc; reflexivity|].
  all: by repeat split.
Qed.

(** X4. Without a token in storage, or with an empty one, [initialize]
    sets step 0 and returns normally without a single API request; nothing
    else in the store and nothing in storage changes. *)
Theorem initialize_without_token env w :
  hasWindow env = true → truthy_opt (token w) = false →
  ∃ w' evs,
    initialize env w = (Returned (), w')
    ∧ trace w' = trace w ++ evs
    ∧ apiCalls evs = []
    ∧ step (store w') = Num 0
    ∧ user (store w') = user (store w)
    ∧ xp (store w') = xp (store w)
    ∧ isUserLoading (store w') = isUserLoading (store w)
    ∧ onboardingProgress (store w') = onboardingProgress (store w)
    ∧ requiresBotVerification (store w') = requiresBotVerification (store w)
    ∧ localStorage w' = localStorage w.
Proof.
  intros Hwin Htok. rewrite (initialize_no_token env w Hwin Htok).
  do 2 eexists; split; [reflexivity|]. simpl_state. by repeat split.
Qed.

(** An instance: the storage holds the empty string under the token's key. *)
Lemma initialize_without_token_witness :
  let w := {| store := store Examples.midway;
              localStorage := {[ "jwt_token" := "" ]};
              trace := [] |} in
  ∃ w', initialize (Examples.gateway (Examples.completed []) (inr "0xsig")) w
        = (Returned (), w')
        ∧ step (store w') = Num 0
        ∧ user (store w') = Some (Examples.profileOf "0xA").
Proof.
  intros w.
  destruct (initialize_without_token
              (Examples.gateway (Examples.completed []) (inr "0xsig")) w)
    as (w' & evs & Hrun & _ & _ & Hstep & Huser & _).
  - reflexivity.
  - reflexivity.
  - exists w'. repeat split; assumption.
Defined.

(** X5. After [logout], [initialize] issues no API request and leaves the
    connect-wallet state: step 0, no user, no progress, no verification
    gate, no token; the experience points survive both. *)
Theorem logout_then_initialize env w :
  hasWindow env = true →
  ∃ w' evs,
    initialize env (logout w).2 = (Returned (), w')
    ∧ trace w' = trace (logout w).2 ++ evs
    ∧ apiCalls evs = []
    ∧ step (store w') = Num 0
    ∧ user (store w') = None
    ∧ onboardingProgress (store w') = None
    ∧ requiresBotVerification (store w') = false
    ∧ token w' = None
    ∧ xp (store w') = xp (store w).
Proof.
  intros Hwin.
  assert (truthy_opt (token (logout w).2) = false) as Htok.
  { unfold logout, token. unfold_eff. simpl_state. by rewrite lookup_delete_eq. }
  rewrite (initialize_no_token env _ Hwin Htok).
  do 2 eexists; split; [reflexivity|]. simpl_state.
  split; [reflexivity|]. split; [done|].
  unfold logout, token. unfold_eff. simpl_state.
  repeat split. apply lookup_delete_eq.
Qed.

(** An instance: logging out in the middle of onboarding. *)
Lemma logout_then_initialize_witness :
  ∃ w',
    initialize (Examples.gateway (Examples.completed []) (inr "0xsig"))
      (logout Examples.midway).2 = (Returned (), w')
    ∧ step (store w') = Num 0
    ∧ xp (store w') = 40.
Proof.
  destruct (logout_then_initialize
              (Examples.gateway (Examples.completed []) (inr "0xsig"))
              Examples.midway)
    as (w' & evs & Hrun & _ & _ & Hstep & _ & _ & _ & _ & Hxp).
  - reflexivity.
  - exists w'. repeat split; assumption.
Defined.

Lemma initializeAttempt_requests env tok w :
  ∃ evs,
    trace (initializeAttempt env tok w).2 = trace w ++ evs
    ∧ apiCalls evs = requests env tok
    ∧ isUserLoading (store (initializeAttempt env tok w).2)
      = match carriedWallet env tok with
        | Some _ => false
        | None => isUserLoading (store w)
        end.
Proof.
  unfold initializeAttempt, apiGetOnboardingProgress, requests, carriedWallet.
  destruct (decodeWallet env (payloadSegment tok)) as [e|d].
  { exists []. by rewrite app_nil_r. }
  assert (∃ w1 evs1,
            (match d with
             | Some addr =>
                 if truthy addr then
                   set (patchUser (Some {| wallet := addr; referralCode := None |}));;
                   fetchUser env
                 else mret ()
             | None => mret ()
             end) w = (Returned (), w1)
            ∧ trace w1 = trace w ++ evs1
            ∧ apiCalls evs1 = match d with
                              | Some (String _ _ as addr) => [ApiGetUserProfile addr]
                              | _ => []
                              end
            ∧ isUserLoading (store w1)
              = match d with
                | Some (String _ _) => false
                | _ => isUserLoading (store w)
                end) as (w1 & evs1 & Hrun & Ht & Hc & Hload).
  { destruct d as [[|a addr]|].
    1,3: exists w, []; by rewrite app_nil_r.
    cbn [truthy]. unfold_eff.
    edestruct (fetchUser_with_wallet env) as (w1 & evs & -> & Ht & Hc & Hload & _);
      [simpl_state; reflexivity|reflexivity|].
    simpl_state_in Ht. simpl_state_in Hload. exists w1. eexists. split; [reflexivity|].
    rewrite Ht, <- app_assoc. split; [reflexivity|]. by rewrite apiCalls_app, Hc. }
  revert Hrun. unfold_eff. intros ->.
  assert (∀ tail, apiCalls tail = [] →
            apiCalls (evs1 ++ [ApiGetOnboardingProgress] ++ tail)
            = match d with
              | Some (String _ _ as addr) => [ApiGetUserProfile addr]
              | _ => []
              end ++ [ApiGetOnboardingProgress]) as Hcalls.
  { intros tail Htail. rewrite !apiCalls_app, Hc, Htail. by rewrite app_nil_r. }
  assert (match match d with
                | Some (String _ _ as addr) => Some addr
                | _ => None
                end with
          | Some addr => [ApiGetUserProfile addr]
          | None => []
          end
          = match d with
            | Some (String _ _ as addr) => [ApiGetUserProfile addr]
            | _ => []
            end) as -> by (by destruct d as [[|]|]).
  assert (match match d with
                | Some (String _ _ as addr) => Some addr
                | _ => None
                end with
          | Some _ => false
          | None => isUserLoading (store w)
          end = isUserLoading (store w1)) as -> by (by destruct d as [[|]|]).
  destruct (getOnboardingProgress env) as [e|progress].
  { eexists. simpl_state. rewrite Ht, <- !app_assoc.
    split; [reflexivity|]. split; [|done]. rewrite <- (Hcalls []); [|done].
    by rewrite app_nil_r. }
  destruct (completedSteps progress) as [steps|].
  2: { eexists. simpl_state. rewrite Ht, <- !app_assoc.
       split; [reflexivity|]. split; [|done]. by apply Hcalls. }
  destruct (3 <=? length steps)%nat; [|destruct (0 <? length steps)%nat].
  all: eexists; simpl_state; rewrite Ht, <- !app_assoc.
  all: split; [reflexivity|]; split; [|done]; by apply Hcalls.
Qed.

Lemma apiCalls_handlers e w :
  (∃ evs, trace (onProgressError e w).2 = trace w ++ evs ∧ apiCalls evs = [])
  ∧ (∃ evs, trace (onInitializeError e w).2 = trace w ++ evs ∧ apiCalls evs = []).
Proof.
  unfold onProgressError, onInitializeError.
  destruct (notConfirmed e); [|destruct (payloadRequiresBotVerification e)].
  all: unfold_eff; simpl_state; rewrite <- ?app_assoc; split; by eexists.
Qed.

(** With a token: the requests of [initialize] and the loading flag it
    leaves. *)
Lemma initialize_with_token env w t :
  hasWindow env = true → HasToken w t →
  ∃ evs,
    trace (initialize env w).2 = trace w ++ evs
    ∧ apiCalls evs = requests env t
    ∧ isUserLoading (store (initialize env w).2)
      = if reachesOuterCatch env t then false
        else match carriedWallet env t with
             | Some _ => false
             | None => true
             end.
Proof.
  intros Hwin Htok. enter_initialize Hwin Htok.
  match goal with
  | |- context [initializeAttempt env ?tok ?w0] =>
      destruct (initializeAttempt_run env tok w0) as (w1 & Hrun & _);
      destruct (initializeAttempt_requests env tok w0) as (evs1 & Htr & Hc & Hload);
      rewrite Hrun in Htr, Hload |- *
  end.
  cbn [snd] in Htr, Hload. simpl_state_in Htr. simpl_state_in Hload.
  unfold reachesOuterCatch.
  destruct (attempt env (String a t)) as [e|v] eqn:Hat.
  2: { eexists. cbn [snd]. rewrite Htr, Hload, <- !app_assoc.
       split; [reflexivity|]. by split. }
  unfold classify, onProgressError.
  destruct (notConfirmed e) eqn:Hnc; [|destruct (payloadRequiresBotVerification e) eqn:Hbot].
  - unfold_eff. unfold onInitializeError. rewrite notConfirmed_confirmationError.
    unfold_eff. simpl_state. eexists. rewrite Htr, <- !app_assoc.
    split; [reflexivity|]. split; [|done].
    rewrite !apiCalls_app, Hc. cbn [apiCalls List.filter callsApi app].
    by rewrite ?app_nil_r.
  - unfold_eff. simpl_state. eexists. rewrite Htr, Hload, <- !app_assoc.
    split; [reflexivity|]. split; [|done].
    rewrite !apiCalls_app, Hc. cbn [apiCalls List.filter callsApi app].
    by rewrite ?app_nil_r.
  - unfold_eff. unfold onInitializeError. rewrite Hnc, Hbot.
    unfold_eff. simpl_state. eexists. rewrite Htr, <- !app_assoc.
    split; [reflexivity|]. split; [|done].
    rewrite !apiCalls_app, Hc. cbn [apiCalls List.filter callsApi app].
    by rewrite ?app_nil_r.
Qed.

(** X6. With a token, [initialize] issues its API requests in a fixed
    order: none when the token cannot be decoded; otherwise the profile
    request for the wallet the token carries (none if it carries none),
    then one progress request, and nothing after it, whatever the answers
    are. *)
Theorem initialize_request_order env w t :
  hasWindow env = true → HasToken w t →
  ∃ evs,
    trace (initialize env w).2 = trace w ++ evs
    ∧ apiCalls evs = requests env t.
Proof.
  intros Hwin Htok.
  destruct (initialize_with_token env w t Hwin Htok) as (evs & Ht & Hc & _).
  by exists evs.
Qed.

(** An instance: both requests, although the progress request is refused. *)
Lemma initialize_request_order_witness :
  ∃ evs,
    trace (initialize (Examples.gateway (inl (Examples.forbidden false)) (inr "0xsig"))
             Examples.loaded).2 = evs
    ∧ apiCalls evs = [ApiGetUserProfile "0xA"; ApiGetOnboardingProgress].
Proof.
  destruct (initialize_request_order
              (Examples.gateway (inl (Examples.forbidden false)) (inr "0xsig"))
              Examples.loaded "h.p.s") as (evs & Ht & Hc).
  - reflexivity.
  - split; reflexivity.
  - exists evs. split; [exact Ht|exact Hc].
Defined.

(** X7. With a token, [isUserLoading] is false after [initialize] in two
    cases only: the outer [catch] ran, or the token carried a wallet (then
    [fetchUser] cleared it). On the success path and at the bot
    verification gate with a token that carries no wallet, the flag set at
    the start is still true when [initialize] returns. *)
Theorem initialize_loading_flag env w t :
  hasWindow env = true → HasToken w t →
  isUserLoading (store (initialize env w).2)
  = if reachesOuterCatch env t then false
    else match carriedWallet env t with
         | Some _ => false
         | None => true
         end.
Proof.
  intros Hwin Htok.
  by destruct (initialize_with_token env w t Hwin Htok) as (evs & _ & _ & Hload).
Qed.

(** An instance: a token without a wallet, on a page that was not loading;
    [initialize] succeeds and leaves the page loading. *)
Lemma initialize_loading_flag_witness :
  let env := {| hasWindow := true;
                decodeWallet := λ _, inr None;
                getUserProfile := λ a, inr (Examples.profileOf a);
                getOnboardingProgress := Examples.completed [];
                signerAvailable := true;
                signerSignMessage := λ _, inr "0xsig";
                confirmAccount := λ _ _ _ _, inr None |} in
  isUserLoading (store Examples.midway) = false
  ∧ (initialize env Examples.midway).1 = Returned ()
  ∧ step (store (initialize env Examples.midway).2) = Num 2
  ∧ isUserLoading (store (initialize env Examples.midway).2) = true.
Proof.
  intros env. split; [reflexivity|]. split; [reflexivity|]. split; [reflexivity|].
  rewrite (initialize_loading_flag env Examples.midway "h.p.s").
  - reflexivity.
  - reflexivity.
  - split; reflexivity.
Defined.

Lemma stepMapping_values k n :
  stepMapping !! k = Some n → n ∈ [3; 4; 5].
Proof.
  unfold stepMapping. intros H.
  apply lookup_insert_Some in H as [[_ <-]|[_ H]]; [set_solver|].
  apply lookup_insert_Some in H as [[_ <-]|[_ H]]; [set_solver|].
  apply lookup_singleton_Some in H as [_ <-]. set_solver.
Qed.

Lemma stepFor_Routed steps : Routed (stepFor steps).
Proof.
  unfold stepFor.
  destruct (3 <=? length steps)%nat; [apply routed_dashboard|].
  destruct (0 <? length steps)%nat; [|apply routed_start].
  unfold getProp. destruct (stepMapping !! lastKey steps) as [n|] eqn:Hn.
  - apply stepMapping_values in Hn. cbn [plus1]. apply routed_task.
    revert Hn. set_unfold. lia.
  - case_bool_decide; cbn [plus1]; [by apply routed_text|apply routed_nan].
Qed.

(** X8. When the inner block of [initialize] succeeds, the step it leaves
    is 2, 4, 5, 6 or 7, or [NaN], or a string built from a name inherited
    from [Object.prototype]: never 0, 1 or 3. *)
Theorem initialize_routes_in_range env w t v :
  hasWindow env = true → HasToken w t → attempt env t = inr v →
  step (store (initialize env w).2) = v
  ∧ Routed v
  ∧ v ≠ Num 0 ∧ v ≠ Num 1 ∧ v ≠ Num 3.
Proof.
  intros Hwin Htok Hat.
  destruct (initialize_routed env w t v Hwin Htok Hat) as (w' & -> & Hs & _).
  split; [done|].
  assert (Routed v) as Hv.
  { revert Hat. unfold attempt.
    destruct (decodeWallet env (payloadSegment t)); [done|].
    destruct (getOnboardingProgress env) as [|progress]; [done|].
    destruct (completedSteps progress); [|done].
    intros [= <-]. apply stepFor_Routed. }
  split; [done|].
  repeat split; intros ->; inversion Hv as [|n Hn| | |]; subst;
    revert Hn; set_unfold; lia.
Qed.

(** An instance: one completed step on a freshly loaded page. *)
Lemma initialize_routes_in_range_witness :
  step (store (initialize
                 (Examples.gateway (Examples.completed ["claim_from_faucet"]) (inr "0xsig"))
                 Examples.loaded).2) = Num 5.
Proof.
  destruct (initialize_routes_in_range
              (Examples.gateway (Examples.completed ["claim_from_faucet"]) (inr "0xsig"))
              Examples.loaded "h.p.s" (Num 5)) as (Hs & _).
  - reflexivity.
  - split; reflexivity.
  - reflexivity.
  - exact Hs.
Defined.

Lemma split_without_separator sep s :
  occurs sep s = false → split sep s = [s].
Proof.
  induction s as [|c s IH]; [done|]. cbn [occurs split].
  destruct (Ascii.eqb c sep); [done|]. cbn [orb]. intros H. by rewrite (IH H).
Qed.

Lemma split_at_separator sep a b :
  occurs sep a = false → split sep (a +:+ String sep b) = a :: split sep b.
Proof.
  induction a as [|c a IH]; simpl.
  - intros _. by rewrite Ascii.eqb_refl.
  - destruct (Ascii.eqb c sep); [done|]. simpl. intros H. by rewrite (IH H).
Qed.

(** X9. The payload that [initialize] decodes is the text between the
    first and the second dot of the token, whatever follows; a token
    without a dot has no payload segment. *)
Theorem payloadSegment_is_second_part :
  (∀ t, occurs "."%char t = false → payloadSegment t = None)
  ∧ (∀ h p, occurs "."%char h = false → occurs "."%char p = false →
       payloadSegment (h +:+ "." +:+ p) = Some p)
  ∧ (∀ h p rest, occurs "."%char h = false → occurs "."%char p = false →
       payloadSegment (h +:+ "." +:+ p +:+ "." +:+ rest) = Some p).
Proof.
  unfold payloadSegment. split; [|split].
  - intros t Ht. by rewrite split_without_separator.
  - intros h p Hh Hp.
    change (h +:+ "." +:+ p) with (h +:+ String "."%char p).
    by rewrite split_at_separator, split_without_separator.
  - intros h p rest Hh Hp.
    change (h +:+ "." +:+ p +:+ "." +:+ rest)
      with (h +:+ String "."%char (p +:+ String "."%char rest)).
    by rewrite !split_at_separator.
Qed.

(** An instance: a token of three parts whose signature contains dots. *)
Lemma payloadSegment_is_second_part_witness :
  payloadSegment "eyJh.eyJ3.c2ln.bmF0dXJl" = Some "eyJ3".
Proof.
  destruct payloadSegment_is_second_part as (_ & _ & H).
  apply (H "eyJh" "eyJ3" "c2ln.bmF0dXJl"); reflexivity.
Defined.
Lemma fetchUser_events env w : Since byStore w (fetchUser env w).2.
Proof.
  unfold fetchUser, apiGetUserProfile. unfold_eff.
  destruct (user (store w)) as [u|]; [|apply Since_refl].
  destruct (truthy (wallet u)); [|apply Since_refl].
  destruct (getUserProfile env (wallet u)) as [e|u']; since.
Qed.

Lemma initializeAttempt_events env tok w :
  Since byStore w (initializeAttempt env tok w).2.
Proof.
  unfold initializeAttempt, apiGetOnboardingProgress.
  destruct (decodeWallet env (payloadSegment tok)) as [e|d]; [apply Since_refl|].
  assert (∃ w1, (match d with
                 | Some addr =>
                     if truthy addr then
                       set (patchUser (Some {| wallet := addr; referralCode := None |}));;
                       fetchUser env
                     else mret ()
                 | None => mret ()
                 end) w = (Returned (), w1)
                ∧ Since byStore w w1) as (w1 & Hrun & Hq).
  { destruct d as [addr|]; [destruct (truthy addr)|].
    2,3: exists w; split; [done|apply Since_refl].
    unfold_eff.
    match goal with
    | |- context [fetchUser env ?w0] =>
        pose proof (fetchUser_events env w0) as Hq;
        destruct (fetchUser_frame env w0) as (w1 & Hrun & _);
        rewrite Hrun in Hq |- *
    end.
    exists w1. split; [reflexivity|].
    eapply Since_trans; [|exact Hq]. since. }
  revert Hrun. unfold_eff. intros ->.
  destruct (getOnboardingProgress env) as [e|progress].
  { eapply Since_trans; [exact Hq|]. since. }
  destruct (completedSteps progress) as [steps|].
  2: { eapply Since_trans; [exact Hq|]. since. }
  destruct (3 <=? length steps)%nat; [|destruct (0 <? length steps)%nat].
  all: eapply Since_trans; [exact Hq|]; since.
Qed.

(** [initialize] neither asks the wallet for a signature nor confirms an
    account. *)
Lemma initialize_events env w : Since byStore w (initialize env w).2.
Proof.
  unfold initialize. destruct (hasWindow env); [|apply Since_refl].
  unfold_eff. cbn [negb].
  destruct (localStorage w !! "jwt_token") as [[|a t]|] eqn:Htok.
  1,3: since.
  match goal with
  | |- context [initializeAttempt env ?tok ?w0] =>
      pose proof (initializeAttempt_events env tok w0) as Hq;
      destruct (initializeAttempt env tok w0) as [[[]|e] w1]
  end; cbn [snd] in Hq.
  { eapply Since_trans; [|exact Hq]. since. }
  unfold onProgressError.
  destruct (notConfirmed e) eqn:Hnc; unfold_eff.
  { unfold onInitializeError. rewrite notConfirmed_confirmationError. unfold_eff.
    eapply Since_trans; [eapply Since_trans; [|exact Hq]|]; since. }
  destruct (payloadRequiresBotVerification e) eqn:Hbot; unfold_eff.
  { eapply Since_trans; [eapply Since_trans; [|exact Hq]|]; since. }
  unfold onInitializeError. rewrite Hnc, Hbot. unfold_eff.
  eapply Since_trans; [eapply Since_trans; [|exact Hq]|]; since.
Qed.
End StoreExtras.


(** ** Further properties of the controller *)

Module ControllerExtras.
Import JS Store ConnectWallet StoreFacts ControllerFacts.

(** [handleDisconnect] on a page given by its parts. *)
Lemma handleDisconnect_run h c st ls tr :
  handleDisconnect h {| comp := c; world := {| store := st; localStorage := ls; trace := tr |} |}
  = (Returned (),
     {| comp :=
          withInviteError None
            (withInviteCode
               (if truthy_opt (referralCodeFromUrl h)
                then default "" (referralCodeFromUrl h) else "")
               (withPendingWallet None
                  (withPendingSignature None
                     (withNeedsInviteCode false (withError None c)))));
        world :=
          {| store := {| step := Num 0; xp := 0; user := None;
                         isUserLoading := false; onboardingProgress := None;
                         requiresBotVerification := false |};
             localStorage := delete "jwt_token" ls;
             trace := tr ++ [StorageRemove "jwt_token";
                             StoreSet {| p_step := Some (Num 0); p_xp := Some 0;
                                         p_user := Some None;
                                         p_isUserLoading := Some false;
                                         p_onboardingProgress := Some None;
                                         p_requiresBotVerification := Some false |};
                             StoreSet (patchUser None);
                             StoreSet (patchStep (Num 0))] |} |}).
Proof.
  unfold handleDisconnect. run_ui. simpl_state.
  by rewrite <- !app_assoc.
Qed.

(** X10. From every state, [handleDisconnect] leaves the disconnected
    default: the token is removed (other storage keys are kept) and the
    store is reset, points included; in the component the errors, the
    invite flag, the pending wallet and the pending signature are cleared,
    and the invite field holds the code from the entry URL again, empty if
    there is none. What it does not touch: the loading flag, the CAPTCHA
    token and the connection memory. *)
Theorem handleDisconnect_leaves_default h p :
  ∃ p',
    handleDisconnect h p = (Returned (), p')
    ∧ token (world p') = None
    ∧ (∀ k, k ≠ "jwt_token" →
         localStorage (world p') !! k = localStorage (world p) !! k)
    ∧ store (world p')
      = {| step := Num 0; xp := 0; user := None; isUserLoading := false;
           onboardingProgress := None; requiresBotVerification := false |}
    ∧ error (comp p') = None
    ∧ inviteError (comp p') = None
    ∧ needsInviteCode (comp p') = false
    ∧ pendingWallet (comp p') = None
    ∧ pendingSignature (comp p') = None
    ∧ inviteCode (comp p')
      = match referralCodeFromUrl h with
        | Some (String _ _ as code) => code
        | _ => ""
        end
    ∧ isLoading (comp p') = isLoading (comp p)
    ∧ hcaptchaToken (comp p') = hcaptchaToken (comp p)
    ∧ wasEverConnected (comp p') = wasEverConnected (comp p)
    ∧ previousConnectionState (comp p') = previousConnectionState (comp p).
Proof.
  destruct p as [c [st ls tr]]. rewrite handleDisconnect_run.
  eexists; split; [reflexivity|]. simpl_page.
  split; [apply lookup_delete_eq|].
  split; [intros k Hk; by rewrite lookup_delete_ne|].
  repeat split.
  by destruct (referralCodeFromUrl h) as [[|a code]|].
Qed.

(** X11. Once the component has mounted on a page that holds a token,
    nothing the wallet provider or the URL reports later makes its effects
    write to the store or to storage: the connection effect never calls
    [handleDisconnect], because the connection memory, once set, is never
    cleared. *)
Theorem effects_never_end_a_session fuel h0 hs w t :
  HasToken w t →
  store (world (page (rerenders fuel hs (mount fuel h0 w)))) = store w
  ∧ localStorage (world (page (rerenders fuel hs (mount fuel h0 w))))
    = localStorage w.
Proof.
  intros Htok.
  by destruct (effects_keep_session fuel h0 hs w t Htok) as [Hs Hl].
Qed.

(** An instance: connect, disconnect, reconnect under another address,
    disconnect. *)
Lemma effects_never_end_a_session_witness :
  let hs := [Examples.hooks false None;
             {| address := Some "0xB"; isConnected := true; requireInvite := None;
                discordLinked := None; referralCodeFromUrl := None |};
             Examples.hooks false None] in
  token (world (page (rerenders 5 hs (mount 5 (Examples.hooks true None) Examples.midway))))
  = Some "h.p.s".
Proof.
  intros hs. unfold token.
  destruct (effects_never_end_a_session 5 (Examples.hooks true None) hs
              Examples.midway "h.p.s") as [_ Hl].
  - split; reflexivity.
  - rewrite Hl. reflexivity.
Defined.

(** The first commit of a fresh component. *)
Lemma first_commit h w :
  ∃ p1,
    commitEffects None h initialComponent {| comp := initialComponent; world := w |}
    = (Returned (), p1)
    ∧ wasEverConnected (comp p1) = isConnected h
    ∧ previousConnectionState (comp p1) = Some (isConnected h)
    ∧ inviteCode (comp p1)
      = match referralCodeFromUrl h with
        | Some (String _ _ as code) => code
        | _ => ""
        end
    ∧ (if isConnected h && negb (truthy_opt (token w)) then
         token (world p1) = None
         ∧ store (world p1)
           = {| step := Num 0; xp := 0; user := None; isUserLoading := false;
                onboardingProgress := None; requiresBotVerification := false |}
       else
         store (world p1) = store w ∧ localStorage (world p1) = localStorage w).
Proof.
  destruct w as [st ls tr]. unfold token. cbn [localStorage].
  unfold commitEffects, changed, when, connectionEffect, mountEffect,
    disconnectDetected, isReallyConnected.
  cbn [previousConnectionState wasEverConnected pendingSignature initialComponent].
  rewrite (bool_decide_eq_false_2 (None = Some true)) by done.
  rewrite (bool_decide_eq_false_2 (None = Some "pending")) by done.
  rewrite (bool_decide_eq_true_2 (None = None)) by done.
  unfold referralEffect, discordEffect, everConnectedEffect, handleDisconnect.
  destruct (referralCodeFromUrl h) as [[|a code]|];
    destruct (isTrue (requireInvite h) || isTrue (discordLinked h));
    destruct (isConnected h);
    destruct (truthy_opt (address h));
    cbn [andb orb negb truthy_opt truthy default from_option id];
    run_ui; cbn [andb orb negb].
  all: try (destruct (ls !! "jwt_token") as [[|b tok]|];
            cbn [truthy_opt truthy andb negb]; run_ui).
  all: eexists; split; [reflexivity|]; simpl_page.
  all: repeat split; try done; apply lookup_delete_eq.
Qed.

(** A commit whose dependencies are those of the previous one runs no
    effect. *)
Lemma settled_commit h c p :
  commitEffects
    (Some {| dep_hooks := h; dep_isReallyConnected := isReallyConnected h c |})
    h c p = (Returned (), p).
Proof.
  unfold commitEffects, changed. cbn [dep_hooks dep_isReallyConnected].
  repeat match goal with
         | |- context [bool_decide (?x = ?x)] =>
             rewrite (bool_decide_eq_true_2 (x = x)) by reflexivity
         end.
  rewrite bool_decide_eq_false_2 by done.
  destruct p as [c0 [st ls tr]]. reflexivity.
Qed.

(** Mounting comes to the first commit: the render it causes changes
    nothing more. *)
Lemma mount_page fuel h w :
  page (mount (S fuel) h w)
  = (commitEffects None h initialComponent
       {| comp := initialComponent; world := w |}).2.
Proof.
  unfold mount. cbn [renderLoop page deps comp].
  destruct (first_commit h w) as (p1 & Hrun & Hever & _).
  rewrite Hrun. cbn [snd].
  case_bool_decide; [reflexivity|].
  destruct fuel as [|fuel]; [reflexivity|].
  cbn [renderLoop page deps].
  replace (isReallyConnected h initialComponent)
    with (isReallyConnected h (comp p1)).
  2: { unfold isReallyConnected. rewrite Hever. cbn [wasEverConnected initialComponent].
       by destruct (isConnected h). }
  rewrite settled_commit. cbn [snd].
  by rewrite bool_decide_eq_true_2.
Qed.

(** X12. However the component mounts, the invite field holds the code of
    the entry URL afterwards, or is empty when the URL has none: also when
    the mount finds the wallet connected without a token and resets the
    page. *)
Theorem mount_prefills_invite_code fuel h w :
  inviteCode (comp (page (mount (S fuel) h w)))
  = match referralCodeFromUrl h with
    | Some (String _ _ as code) => code
    | _ => ""
    end.
Proof.
  rewrite mount_page.
  destruct (first_commit h w) as (p1 & -> & _ & _ & Hcode & _). exact Hcode.
Qed.

(** X13. A mount with the wallet connected and no token in storage (or an
    empty one) resets the store to its disconnected default and leaves no
    token; any other mount leaves the store and the storage exactly as it
    found them. *)
Theorem mount_resets_without_token fuel h w :
  let w' := world (page (mount (S fuel) h w)) in
  if isConnected h && negb (truthy_opt (token w)) then
    token w' = None
    ∧ store w'
      = {| step := Num 0; xp := 0; user := None; isUserLoading := false;
           onboardingProgress := None; requiresBotVerification := false |}
  else
    store w' = store w ∧ localStorage w' = localStorage w.
Proof.
  cbn zeta. rewrite mount_page.
  destruct (first_commit h w) as (p1 & -> & _ & _ & _ & Hworld). exact Hworld.
Qed.

Lemma trimStart_first s ch :
  firstChar (trimStart s) = Some ch → is_space ch = false.
Proof.
  induction s as [|c s IH]; [done|]. cbn [trimStart].
  destruct (is_space c) eqn:Hc; [exact IH|].
  cbn [firstChar]. by intros [= <-].
Qed.

Lemma trimEnd_first s :
  trimEnd s ≠ "" → firstChar (trimEnd s) = firstChar s.
Proof.
  destruct s as [|c s]; [done|]. cbn [trimEnd].
  destruct (trimEnd s); [|done].
  by destruct (is_space c).
Qed.

Lemma trimEnd_last s ch :
  lastChar (trimEnd s) = Some ch → is_space ch = false.
Proof.
  induction s as [|c s IH]; [done|]. cbn [trimEnd].
  destruct (trimEnd s) as [|k kept] eqn:Hk.
  - destruct (is_space c) eqn:Hc; [done|]. cbn [lastChar]. by intros [= <-].
  - exact IH.
Qed.

Lemma trim_outer s ch :
  firstChar (trim s) = Some ch ∨ lastChar (trim s) = Some ch → is_space ch = false.
Proof.
  unfold trim. intros [Hf|Hl].
  - rewrite trimEnd_first in Hf; [by eapply trimStart_first|].
    intros Hempty. by rewrite Hempty in Hf.
  - by eapply trimEnd_last.
Qed.


Lemma forallb_elem_of {A} (f : A → bool) (l : list A) x :
  forallb f l = true → x ∈ l → f x = true.
Proof.
  intros Hall Hin. rewrite forallb_forall in Hall.
  by apply Hall, list_elem_of_In.
Qed.

(** Splits a membership in a concrete list of events into its cases. *)
Ltac members H :=
  repeat first
    [ apply elem_of_app in H as [H|H]
    | apply elem_of_cons in H as [H|H]; [try discriminate H|]
    | apply not_elem_of_nil in H; destruct H ].

Ltac with_initialize :=
  match goal with
  | |- context [initialize ?env ?w0] =>
      let Hq := fresh "Hq" in
      let evs := fresh "evs" in
      let Hevs := fresh "Hevs" in
      let Hall := fresh "Hall" in
      destruct (StoreExtras.initialize_events env w0) as (evs & Hevs & Hall);
      destruct (initialize env w0) as [? [? ? ?]];
      cbn [snd trace] in Hevs; rewrite Hevs
  end.

Ltac silent :=
  run_ui; eexists; exists []; split; [reflexivity|]; simpl_page;
  rewrite app_nil_r; split; [reflexivity|]; split; [done|]; split; [eauto|];
  split;
  [ intros ? ? ? ? Hin; by apply not_elem_of_nil in Hin
  | intros _ ? Hin; by apply not_elem_of_nil in Hin ].

(** What [handleRegisterWithInvite] comes to, whatever its inputs. *)
Lemma register_run env h c p :
  let codeToUse := orElse (trim (inviteCode c)) (referralCodeFromUrl h) in
  ∃ p' evs,
    handleRegisterWithInvite env h c p = (Returned (), p')
    ∧ trace (world p') = trace (world p) ++ evs
    ∧ isLoading (comp p')
      = (if truthy_opt codeToUse && truthy_opt (pendingWallet c)
         then false else isLoading (comp p))
    ∧ (is_Some (inviteError (comp p')) ∨ needsInviteCode (comp p') = false)
    ∧ (∀ pw sig code tok,
         ApiConfirmAccount pw sig code tok ∈ evs →
         pendingWallet c = Some pw ∧ hcaptchaToken c = Some tok
         ∧ codeToUse = Some code
         ∧ truthy pw && truthy tok && truthy code = true
         ∧ (truthy_opt (pendingSignature c) = true → pendingSignature c = Some sig))
    ∧ (truthy_opt (pendingSignature c) = true → ∀ m, WalletSign m ∉ evs).
Proof.
  intros codeToUse. subst codeToUse.
  destruct p as [c0 [st ls tr]]. unfold handleRegisterWithInvite.
  destruct (orElse _ _) as [[|a inv]|].
  1,3: silent.
  destruct (pendingWallet c) as [[|b pw]|] eqn:Hpw.
  1,3: silent.
  cbn [truthy_opt truthy andb].
  destruct (pendingSignature c) as [[|d sig]|] eqn:Hsig;
    cbn [truthy_opt truthy negb default from_option id].
  2: { (* the pending signature is used *)
       destruct (hcaptchaToken c) as [[|e tok]|] eqn:Htok.
       1,3: silent.
       unfold apiConfirmAccount. run_ui.
       destruct (confirmAccount env _ _ _ _) as [err|[u|]].
       2: with_initialize.
       all: do 2 eexists; split; [reflexivity|]; simpl_page.
       all: split; [rewrite <- ?app_assoc; reflexivity|].
       all: split; [done|].
       all: split; [eauto|].
       all: split.
       all: try (intros pw' sig' code' tok' Hin; members Hin;
                 try (apply (forallb_elem_of _ _ _ Hall) in Hin; discriminate Hin);
                 injection Hin as -> -> -> ->; by repeat split).
       all: try (intros _ m Hin; members Hin;
                 try (apply (forallb_elem_of _ _ _ Hall) in Hin; discriminate Hin)). }
  (* the wallet is asked first *)
  all: unfold signMessage, apiConfirmAccount.
  all: destruct (signerAvailable env);
    [destruct (signerSignMessage env _) as [err|sig'];
     [|destruct (hcaptchaToken c) as [[|e tok]|] eqn:Htok]|].
  all: run_ui.
  all: try match goal with
           | |- context [signatureDeclined ?e] => destruct (signatureDeclined e)
           end.
  all: try match goal with
           | |- context [confirmAccount ?env ?a ?b ?c ?d] =>
               destruct (confirmAccount env a b c d) as [?|[u|]]
           end.
  all: try match goal with
           | |- context [signatureDeclined ?e] => destruct (signatureDeclined e)
           end.
  all: try with_initialize.
  all: do 2 eexists; split; [reflexivity|]; simpl_page.
  all: split; [rewrite <- ?app_assoc; try reflexivity; by rewrite app_nil_r|].
  all: split; [done|].
  all: split; [eauto|].
  all: split; [|done].
  all: intros pw' sig'' code' tok' Hin; members Hin.
  all: try (apply (forallb_elem_of _ _ _ Hall) in Hin; discriminate Hin).
  all: injection Hin as -> -> -> ->; by repeat split.
Qed.

(** X14. Whenever [handleRegisterWithInvite] calls [confirmAccount], the
    arguments are non-empty and taken from the form: the pending wallet,
    the CAPTCHA token, and as invite code the entered text trimmed, or the
    code of the entry URL when the entry is blank. An entered code is sent
    without white space on either side. *)
Theorem register_confirms_with_form_values env h c p evs pw sig code tok :
  trace (world (handleRegisterWithInvite env h c p).2) = trace (world p) ++ evs →
  ApiConfirmAccount pw sig code tok ∈ evs →
  pendingWallet c = Some pw
  ∧ hcaptchaToken c = Some tok
  ∧ truthy pw && truthy tok && truthy code = true
  ∧ code = (if truthy (trim (inviteCode c)) then trim (inviteCode c)
            else default "" (referralCodeFromUrl h))
  ∧ (truthy (trim (inviteCode c)) = true →
     ∀ ch, firstChar code = Some ch ∨ lastChar code = Some ch → is_space ch = false).
Proof.
  intros Htrace Hin.
  destruct (register_run env h c p) as (p' & evs' & Hrun & Ht & _ & _ & Hconfirm & _).
  rewrite Hrun in Htrace. cbn [snd] in Htrace. rewrite Ht in Htrace.
  apply app_inv_head in Htrace as ->.
  destruct (Hconfirm pw sig code tok Hin) as (Hpw & Htok & Hcode & Hne & _).
  split; [done|]. split; [done|]. split; [done|].
  unfold orElse in Hcode.
  destruct (truthy (trim (inviteCode c))) eqn:Hentered.
  - injection Hcode as <-. split; [done|]. intros _ ch. apply trim_outer.
  - rewrite Hcode. split; [done|]. intros Habs. discriminate Habs.
Qed.

(** An instance: a code entered with blanks around it. *)
Lemma register_confirms_with_form_values_witness :
  let c := Examples.inviteForm "  HELIOS1 " (Some "captcha") (Some "0xsig") in
  let run := handleRegisterWithInvite
               (Examples.gateway (Examples.completed []) (inr "0xsig"))
               (Examples.hooks true (Some "URLCODE")) c
               {| comp := c; world := Examples.midway |} in
  ApiConfirmAccount "0xA" "0xsig" "HELIOS1" "captcha" ∈ trace (world run.2)
  ∧ hcaptchaToken c = Some "captcha".
Proof.
  intros c run.
  assert (ApiConfirmAccount "0xA" "0xsig" "HELIOS1" "captcha" ∈ trace (world run.2))
    as Hin by (vm_compute; repeat constructor).
  split; [exact Hin|].
  destruct (register_confirms_with_form_values
              (Examples.gateway (Examples.completed []) (inr "0xsig"))
              (Examples.hooks true (Some "URLCODE")) c
              {| comp := c; world := Examples.midway |}
              (trace (world run.2)) "0xA" "0xsig" "HELIOS1" "captcha")
    as (_ & Htok & _).
  - reflexivity.
  - exact Hin.
  - exact Htok.
Defined.

(** X15. [handleRegisterWithInvite] never throws. Once an invite code and
    a pending wallet are there it ends with [isLoading] false, otherwise it
    leaves the flag alone; and it ends either with an invite error shown
    or with the invite form closed. *)
Theorem register_never_throws env h c p :
  ∃ p',
    handleRegisterWithInvite env h c p = (Returned (), p')
    ∧ isLoading (comp p')
      = (if truthy_opt (orElse (trim (inviteCode c)) (referralCodeFromUrl h))
            && truthy_opt (pendingWallet c)
         then false else isLoading (comp p))
    ∧ (is_Some (inviteError (comp p')) ∨ needsInviteCode (comp p') = false).
Proof.
  destruct (register_run env h c p) as (p' & evs & Hrun & _ & Hload & Hend & _).
  by exists p'.
Qed.

(** X16. With a pending signature, [handleRegisterWithInvite] does not ask
    the wallet again: no signature request is issued, and the signature it
    sends to [confirmAccount] is the pending one. *)
Theorem register_reuses_pending_signature env h c p evs :
  truthy_opt (pendingSignature c) = true →
  trace (world (handleRegisterWithInvite env h c p).2) = trace (world p) ++ evs →
  (∀ m, WalletSign m ∉ evs)
  ∧ (∀ pw sig code tok,
       ApiConfirmAccount pw sig code tok ∈ evs → pendingSignature c = Some sig).
Proof.
  intros Hsig Htrace.
  destruct (register_run env h c p) as (p' & evs' & Hrun & Ht & _ & _ & Hconfirm & Hquiet).
  rewrite Hrun in Htrace. cbn [snd] in Htrace. rewrite Ht in Htrace.
  apply app_inv_head in Htrace as ->.
  split; [by apply Hquiet|].
  intros pw sig code tok Hin.
  destruct (Hconfirm pw sig code tok Hin) as (_ & _ & _ & _ & Hsame). by apply Hsame.
Qed.

(** An instance: the form with a pending signature, on a gateway whose
    signer would answer something else. *)
Lemma register_reuses_pending_signature_witness :
  let c := Examples.inviteForm "HELIOS1" (Some "captcha") (Some "0xpending") in
  let run := handleRegisterWithInvite
               (Examples.gateway (Examples.completed []) (inr "0xother"))
               (Examples.hooks true None) c
               {| comp := c; world := Examples.midway |} in
  ApiConfirmAccount "0xA" "0xpending" "HELIOS1" "captcha" ∈ trace (world run.2)
  ∧ ∀ m, WalletSign m ∉ trace (world run.2).
Proof.
  intros c run.
  split; [vm_compute; repeat constructor|].
  destruct (register_reuses_pending_signature
              (Examples.gateway (Examples.completed []) (inr "0xother"))
              (Examples.hooks true None) c
              {| comp := c; world := Examples.midway |}
              (trace (world run.2))) as (Hquiet & _).
  - reflexivity.
  - reflexivity.
  - exact Hquiet.
Defined.
(** With everything the form needs and a pending signature, the handler
    goes straight to [confirmAccount]. *)
Lemma register_with_pending env h c p pw sig code tok :
  orElse (trim (inviteCode c)) (referralCodeFromUrl h) = Some code →
  truthy code = true →
  pendingWallet c = Some pw → truthy pw = true →
  pendingSignature c = Some sig → truthy sig = true →
  hcaptchaToken c = Some tok → truthy tok = true →
  ∃ p' rest,
    handleRegisterWithInvite env h c p = (Returned (), p')
    ∧ trace (world p')
      = trace (world p) ++ ApiConfirmAccount pw sig code tok :: rest
    ∧ forallb byStore rest = true.
Proof.
  intros Hcode Hcodet Hpw Hpwt Hsig Hsigt Htok Htokt.
  destruct p as [c0 [st ls tr]]. unfold handleRegisterWithInvite.
  rewrite Hcode, Hpw, Hsig, Htok.
  destruct code as [|c1 code]; [discriminate Hcodet|].
  destruct pw as [|c2 pw]; [discriminate Hpwt|].
  destruct tok as [|c3 tok]; [discriminate Htokt|].
  cbn [truthy_opt]. rewrite Hsigt. cbn [negb default from_option id].
  unfold apiConfirmAccount. run_ui.
  destruct (confirmAccount env _ _ _ _) as [err|[u|]].
  2: with_initialize.
  all: do 2 eexists; split; [reflexivity|]; simpl_page.
  all: rewrite <- ?app_assoc; split; [reflexivity|].
  all: cbn [forallb byStore andb]; done.
Qed.
(** X17. A visit from the Discord link ([requireInvite] or
    [discord-linked] is "true") with the wallet already connected at
    mount: the Discord effect opens the invite form for the connected
    address, but when storage holds no token the mount effect, which runs
    later in the same commit, calls [handleDisconnect] and closes it
    again. The form is open after the mount only if a token is stored. *)
Theorem discord_invite_needs_token_at_mount fuel h w :
  isTrue (requireInvite h) || isTrue (discordLinked h) = true →
  isConnected h = true → truthy_opt (address h) = true →
  let c := comp (page (mount (S fuel) h w)) in
  if truthy_opt (token w) then
    needsInviteCode c = true ∧ pendingWallet c = address h
    ∧ error c = Some discordNotice
  else
    needsInviteCode c = false ∧ pendingWallet c = None ∧ error c = None.
Proof.
  intros Hdiscord Hconn Haddr. cbn zeta. rewrite mount_page.
  destruct w as [st ls tr]. unfold token. cbn [localStorage].
  unfold commitEffects, changed, when, connectionEffect, mountEffect,
    disconnectDetected, isReallyConnected.
  cbn [previousConnectionState wasEverConnected pendingSignature initialComponent].
  rewrite (bool_decide_eq_false_2 (None = Some true)) by done.
  rewrite (bool_decide_eq_false_2 (None = Some "pending")) by done.
  rewrite (bool_decide_eq_true_2 (None = None)) by done.
  unfold referralEffect, discordEffect, everConnectedEffect, handleDisconnect.
  rewrite Hdiscord, Hconn, Haddr.
  destruct (referralCodeFromUrl h) as [[|a code]|];
    cbn [andb orb negb truthy_opt truthy default from_option id];
    run_ui; cbn [andb orb negb].
  all: destruct (ls !! "jwt_token") as [[|b tok]|];
       cbn [truthy_opt truthy andb negb]; run_ui.
  all: simpl_page; by repeat split.
Qed.

(** An instance: no token in storage. *)
Lemma discord_invite_needs_token_at_mount_witness :
  let h := {| address := Some "0xA"; isConnected := true;
              requireInvite := Some "true"; discordLinked := None;
              referralCodeFromUrl := None |} in
  let w := {| store := initialState; localStorage := ∅; trace := [] |} in
  needsInviteCode (comp (page (mount 3 h w))) = false
  ∧ pendingWallet (comp (page (mount 3 h w))) = None.
Proof.
  intros h w.
  destruct (discord_invite_needs_token_at_mount 2 h w) as (Hform & Hpw & _).
  - reflexivity.
  - reflexivity.
  - reflexivity.
  - split; [exact Hform|exact Hpw].
Defined.
End ControllerExtras.


(** ** Signing in, bot verification and the main button *)

Module AuthFacts.
Import JS Store ConnectWallet Controller StoreFacts ControllerFacts.

Ltac run_t :=
  cbv [onPage onWorld record external apiLogin apiVerifyBot raise catching finally
       T_bind T_ret setShowDiscordLink
       liftWorld setComp setIsLoading setError setNeedsInviteCode setInviteCode
       setInviteError setPendingSignature setPendingWallet
       setPreviousConnectionState setWasEverConnected when detached
       setStep setUser setRequiresBotVerification resetStore
       mbind M_bind mret M_ret get gets modify set emit getItem removeItem
       tryCatch tryFinally throw settle
       fst snd ui_page ui_calls world comp store localStorage trace].

Ltac simpl_ui :=
  cbn [ui_page ui_calls withShowDiscordLink showDiscordLink]; simpl_page.

(** A rejected login, by the class of the rejection. *)
Lemma login_rejected gw h u a sig w1 t w2 :
  address h = Some a → truthy a = true →
  signMessage (base gw) a (world (ui_page u)) = (Returned sig, w1) →
  login gw a sig None w1 = (inl t, w2) →
  ∃ u',
    handleSignAndAuthenticate gw h u = (Done (), u')
    ∧ world (ui_page u') = w2
    ∧ ui_calls u' = ui_calls u ++ [CallLogin a sig None]
    ∧ isLoading (comp (ui_page u')) = false
    ∧ match classifyLogin t with
      | ServersUnreachable =>
          error (comp (ui_page u'))
          = Some "Failed to connect to Helios servers. Please try again later."
          ∧ InviteUntouched (comp (ui_page u)) (comp (ui_page u'))
      | NotRegistered =>
          error (comp (ui_page u'))
          = Some "Please enter an invite code to register your account."
          ∧ InviteOpened a sig (comp (ui_page u'))
      | AccountNotConfirmed =>
          error (comp (ui_page u'))
          = Some "Your account is not confirmed. Please enter a valid invite code to proceed."
          ∧ InviteOpened a sig (comp (ui_page u'))
      | OtherLoginFailure =>
          error (comp (ui_page u'))
          = Some (messageOr (thrown t)
                    "An unknown error occurred during authentication.")
          ∧ InviteUntouched (comp (ui_page u)) (comp (ui_page u'))
      end.
Proof.
  intros Haddr Ha Hsign Hlogin.
  destruct u as [[c0 [st ls tr]] calls]. cbn [ui_page world] in Hsign.
  unfold handleSignAndAuthenticate. rewrite Haddr.
  destruct a as [|a0 a]; [discriminate Ha|].
  run_t. rewrite Hsign. run_t. rewrite Hlogin. unfold classifyLogin.
  destruct (isNetworkError t) eqn:Hnet.
  { run_t. rewrite Hnet. eexists; split; [reflexivity|]. simpl_ui.
    by repeat split. }
  destruct (says "not registered" t || says "User not found" t).
  { run_t. eexists; split; [reflexivity|]. simpl_ui. by repeat split. }
  destruct (says "not confirmed" t).
  { run_t. eexists; split; [reflexivity|]. simpl_ui. by repeat split. }
  run_t. rewrite Hnet. eexists; split; [reflexivity|]. simpl_ui. by repeat split.
Qed.

(** [initialize] throws nothing but its confirmation error. *)
Lemma initialize_throws env w e w' :
  initialize env w = (Threw e, w') → e = confirmationError.
Proof.
  destruct (hasWindow env) eqn:Hwin.
  2: { by rewrite initialize_no_window. }
  destruct (truthy_opt (token w)) eqn:Htruthy.
  2: { by rewrite (initialize_no_token env w Hwin Htruthy). }
  assert (∃ t, HasToken w t) as [t Htok].
  { unfold HasToken. destruct (token w) as [t|]; [|done]. by exists t. }
  destruct (attempt env t) as [e0|v] eqn:Hat.
  - destruct (notConfirmed e0) eqn:Hnc;
      [|destruct (payloadRequiresBotVerification e0) eqn:Hbot].
    + destruct (initialize_unconfirmed env w t e0 Hwin Htok Hat Hnc) as (w1 & -> & _).
      by intros [= <- _].
    + by destruct (initialize_gated env w t e0 Hwin Htok Hat Hnc Hbot) as (w1 & -> & _).
    + by destruct (initialize_other env w t e0 Hwin Htok Hat Hnc Hbot) as (w1 & -> & _).
  - by destruct (initialize_routed env w t v Hwin Htok Hat) as (w1 & -> & _).
Qed.

(** A signature that is not obtained. *)
Lemma sign_in_unsigned gw h u a e w1 :
  address h = Some a → truthy a = true →
  signMessage (base gw) a (world (ui_page u)) = (Threw e, w1) →
  ∃ u',
    handleSignAndAuthenticate gw h u = (Done (), u')
    ∧ ui_calls u' = ui_calls u
    ∧ store (world (ui_page u')) = store (world (ui_page u))
    ∧ localStorage (world (ui_page u')) = localStorage (world (ui_page u))
    ∧ isLoading (comp (ui_page u')) = false
    ∧ InviteUntouched (comp (ui_page u)) (comp (ui_page u'))
    ∧ error (comp (ui_page u'))
      = Some (if signatureDeclined e then "You declined the signature request."
              else messageOr e "An unknown error occurred during authentication.").
Proof.
  intros Haddr Ha Hsign.
  destruct u as [[c0 [st ls tr]] calls]. cbn [ui_page world] in Hsign.
  assert (store w1 = st ∧ localStorage w1 = ls) as [Hst Hls].
  { revert Hsign. unfold signMessage. destruct (signerAvailable (base gw)).
    - run_ui. destruct (signerSignMessage _ _); [|done]. by intros [= _ <-].
    - run_ui. by intros [= _ <-]. }
  unfold handleSignAndAuthenticate. rewrite Haddr.
  destruct a as [|a0 a]; [discriminate Ha|].
  run_t. rewrite Hsign. unfold declined, plain. cbn [thrown].
  destruct (signatureDeclined e); run_t.
  all: eexists; split; [reflexivity|]; simpl_ui; by repeat split.
Qed.

(** A login that is answered. *)
Lemma login_answered gw h u a sig w1 resp w2 :
  address h = Some a → truthy a = true →
  signMessage (base gw) a (world (ui_page u)) = (Returned sig, w1) →
  login gw a sig None w1 = (inr resp, w2) →
  ∃ u',
    handleSignAndAuthenticate gw h u = (Done (), u')
    ∧ ui_calls u' = ui_calls u ++ [CallLogin a sig None]
    ∧ isLoading (comp (ui_page u')) = false
    ∧ if login_requiresBotVerification resp then
        world (ui_page u') = w2
        ∧ error (comp (ui_page u'))
          = Some "Please verify you are not a bot to continue."
        ∧ InviteUntouched (comp (ui_page u)) (comp (ui_page u'))
      else
        let started := (setUser (login_user resp) w2).2 in
        world (ui_page u') = (initialize (base gw) started).2
        ∧ match (initialize (base gw) started).1 with
          | Returned _ =>
              error (comp (ui_page u')) = None
              ∧ InviteUntouched (comp (ui_page u)) (comp (ui_page u'))
          | Threw _ =>
              error (comp (ui_page u'))
              = Some "Your account is not confirmed. Please enter a valid invite code to proceed."
              ∧ InviteOpened a sig (comp (ui_page u'))
          end.
Proof.
  intros Haddr Ha Hsign Hlogin.
  destruct u as [[c0 [st ls tr]] calls]. cbn [ui_page world] in Hsign.
  unfold handleSignAndAuthenticate. rewrite Haddr.
  destruct a as [|a0 a]; [discriminate Ha|].
  run_t. rewrite Hsign. run_t. rewrite Hlogin.
  destruct (login_requiresBotVerification resp).
  { run_t. eexists; split; [reflexivity|]. simpl_ui. by repeat split. }
  destruct w2 as [st2 ls2 tr2]. run_t.
  match goal with
  | |- context [initialize ?env ?w0] =>
      pose proof (initialize_throws env w0) as Hthrows;
      destruct (initialize env w0) as [[[]|e] w3]
  end.
  { eexists; split; [reflexivity|]. simpl_ui. by repeat split. }
  rewrite (Hthrows e w3 eq_refl).
  unfold plain, says. cbn [isNetworkError thrown].
  change (messageIncludes "not registered" confirmationError) with false.
  change (messageIncludes "User not found" confirmationError) with false.
  change (messageIncludes "not confirmed" confirmationError) with true.
  cbn [orb]. run_t.
  eexists; split; [reflexivity|]. simpl_ui. by repeat split.
Qed.

(** X18. When the wallet gives no signature, [handleSignAndAuthenticate]
    does not call [login]: store, storage and invite form stay as they
    were, and the error shown is "You declined the signature request."
    for a declined request, otherwise the message of the failure. *)
Theorem sign_in_needs_signature gw h u a e w1 :
  address h = Some a → truthy a = true →
  signMessage (base gw) a (world (ui_page u)) = (Threw e, w1) →
  ∃ u',
    handleSignAndAuthenticate gw h u = (Done (), u')
    ∧ ui_calls u' = ui_calls u
    ∧ store (world (ui_page u')) = store (world (ui_page u))
    ∧ localStorage (world (ui_page u')) = localStorage (world (ui_page u))
    ∧ isLoading (comp (ui_page u')) = false
    ∧ InviteUntouched (comp (ui_page u)) (comp (ui_page u'))
    ∧ error (comp (ui_page u'))
      = Some (if signatureDeclined e then "You declined the signature request."
              else messageOr e "An unknown error occurred during authentication.").
Proof. apply sign_in_unsigned. Qed.

(** An instance: the user rejects the request in the wallet. *)
Lemma sign_in_needs_signature_witness :
  ∃ u',
    handleSignAndAuthenticate
      (Samples.service (Examples.gateway (Examples.completed []) (inl Examples.userRejected))
         (inl (Samples.rejection "User not found")) (inl (Samples.rejection "no"))
         (inl (Samples.rejection "no")))
      (Examples.hooks true None) Samples.firstVisit = (Done (), u')
    ∧ ui_calls u' = []
    ∧ error (comp (ui_page u')) = Some "You declined the signature request.".
Proof.
  edestruct (sign_in_needs_signature
               (Samples.service
                  (Examples.gateway (Examples.completed []) (inl Examples.userRejected))
                  (inl (Samples.rejection "User not found")) (inl (Samples.rejection "no"))
                  (inl (Samples.rejection "no")))
               (Examples.hooks true None) Samples.firstVisit "0xA" Examples.userRejected
               (Samples.signedIn "0xA"))
    as (u' & Hrun & Hcalls & _ & _ & _ & _ & Herr).
  - reflexivity.
  - reflexivity.
  - reflexivity.
  - exists u'. split; [exact Hrun|]. split; [exact Hcalls|exact Herr].
Defined.

(** X19. A rejected login is read in a fixed order. A [NetworkError]
    comes first, whatever its message says, and shows "Failed to connect
    to Helios servers. Please try again later."; then "not registered" or
    "User not found", then "not confirmed", each of which opens the
    invite form with the wallet and the signature just obtained kept for
    the registration; any other rejection shows its own message. Only the
    two invite cases touch the invite form; the page's world is what
    [login] left. *)
Theorem login_rejection_by_class gw h u a sig w1 t w2 :
  address h = Some a → truthy a = true →
  signMessage (base gw) a (world (ui_page u)) = (Returned sig, w1) →
  login gw a sig None w1 = (inl t, w2) →
  ∃ u',
    handleSignAndAuthenticate gw h u = (Done (), u')
    ∧ world (ui_page u') = w2
    ∧ ui_calls u' = ui_calls u ++ [CallLogin a sig None]
    ∧ isLoading (comp (ui_page u')) = false
    ∧ match classifyLogin t with
      | ServersUnreachable =>
          error (comp (ui_page u'))
          = Some "Failed to connect to Helios servers. Please try again later."
          ∧ InviteUntouched (comp (ui_page u)) (comp (ui_page u'))
      | NotRegistered =>
          error (comp (ui_page u'))
          = Some "Please enter an invite code to register your account."
          ∧ InviteOpened a sig (comp (ui_page u'))
      | AccountNotConfirmed =>
          error (comp (ui_page u'))
          = Some "Your account is not confirmed. Please enter a valid invite code to proceed."
          ∧ InviteOpened a sig (comp (ui_page u'))
      | OtherLoginFailure =>
          error (comp (ui_page u'))
          = Some (messageOr (thrown t)
                    "An unknown error occurred during authentication.")
          ∧ InviteUntouched (comp (ui_page u)) (comp (ui_page u'))
      end.
Proof. apply login_rejected. Qed.

(** An instance: a [NetworkError] whose message says "User not found". *)
Lemma login_rejection_by_class_witness :
  ∃ u',
    handleSignAndAuthenticate
      (Samples.service (Examples.gateway (Examples.completed []) (inr "0xsig"))
         (inl (Samples.unreachable "User not found")) (inl (Samples.rejection "no"))
         (inl (Samples.rejection "no")))
      (Examples.hooks true None) Samples.firstVisit = (Done (), u')
    ∧ needsInviteCode (comp (ui_page u')) = false
    ∧ error (comp (ui_page u'))
      = Some "Failed to connect to Helios servers. Please try again later.".
Proof.
  edestruct (login_rejection_by_class
               (Samples.service (Examples.gateway (Examples.completed []) (inr "0xsig"))
                  (inl (Samples.unreachable "User not found"))
                  (inl (Samples.rejection "no")) (inl (Samples.rejection "no")))
               (Examples.hooks true None) Samples.firstVisit "0xA" "0xsig"
               (Samples.signedIn "0xA") (Samples.unreachable "User not found")
               (Samples.signedIn "0xA"))
    as (u' & Hrun & _ & _ & _ & Hclass).
  - reflexivity.
  - reflexivity.
  - reflexivity.
  - reflexivity.
  - exists u'. split; [exact Hrun|].
    change (classifyLogin (Samples.unreachable "User not found"))
      with ServersUnreachable in Hclass.
    destruct Hclass as [Herr [Hform _ _ _]].
    split; [exact Hform|exact Herr].
Defined.

(** X20. When [login] answers, a response that requires bot verification
    stops the handler there: the user is not stored and [initialize] is
    not run. Otherwise the user of the response is stored and
    [initialize] runs; if it throws (it only throws for an unconfirmed
    account), the handler opens the invite form, keeping wallet and
    signature, instead of reporting a failure. *)
Theorem login_answer_routes gw h u a sig w1 resp w2 :
  address h = Some a → truthy a = true →
  signMessage (base gw) a (world (ui_page u)) = (Returned sig, w1) →
  login gw a sig None w1 = (inr resp, w2) →
  ∃ u',
    handleSignAndAuthenticate gw h u = (Done (), u')
    ∧ ui_calls u' = ui_calls u ++ [CallLogin a sig None]
    ∧ isLoading (comp (ui_page u')) = false
    ∧ if login_requiresBotVerification resp then
        world (ui_page u') = w2
        ∧ error (comp (ui_page u'))
          = Some "Please verify you are not a bot to continue."
        ∧ InviteUntouched (comp (ui_page u)) (comp (ui_page u'))
      else
        let started := (setUser (login_user resp) w2).2 in
        world (ui_page u') = (initialize (base gw) started).2
        ∧ match (initialize (base gw) started).1 with
          | Returned _ =>
              error (comp (ui_page u')) = None
              ∧ InviteUntouched (comp (ui_page u)) (comp (ui_page u'))
          | Threw _ =>
              error (comp (ui_page u'))
              = Some "Your account is not confirmed. Please enter a valid invite code to proceed."
              ∧ InviteOpened a sig (comp (ui_page u'))
          end.
Proof. apply login_answered. Qed.

(** An instance: the login is accepted, and the progress request that
    [initialize] makes is refused with status 403. *)
Lemma login_answer_routes_witness :
  ∃ u',
    handleSignAndAuthenticate
      (Samples.service
         (Examples.gateway (inl (Examples.forbidden false)) (inr "0xsig"))
         (inr {| login_requiresBotVerification := false;
                 login_user := Some (Examples.profileOf "0xA") |})
         (inl (Samples.rejection "no")) (inl (Samples.rejection "no")))
      (Examples.hooks true None) Samples.firstVisit = (Done (), u')
    ∧ needsInviteCode (comp (ui_page u')) = true
    ∧ pendingSignature (comp (ui_page u')) = Some "0xsig"
    ∧ token (world (ui_page u')) = None.
Proof.
  edestruct (login_answer_routes
               (Samples.service
                  (Examples.gateway (inl (Examples.forbidden false)) (inr "0xsig"))
                  (inr {| login_requiresBotVerification := false;
                          login_user := Some (Examples.profileOf "0xA") |})
                  (inl (Samples.rejection "no")) (inl (Samples.rejection "no")))
               (Examples.hooks true None) Samples.firstVisit "0xA" "0xsig"
               (Samples.signedIn "0xA")
               {| login_requiresBotVerification := false;
                  login_user := Some (Examples.profileOf "0xA") |}
               {| store := initialState;
                  localStorage := <[ "jwt_token" := "h.p.s" ]> ∅;
                  trace := [WalletSign (loginChallenge "0xA")] |})
    as (u' & Hrun & _ & _ & Hroute).
  - reflexivity.
  - reflexivity.
  - reflexivity.
  - reflexivity.
  - exists u'. split; [exact Hrun|].
    cbn [login_requiresBotVerification] in Hroute.
    destruct Hroute as [Hworld Hend].
    assert (token (world (ui_page u')) = None) as Htoken
      by (rewrite Hworld; by vm_compute).
    revert Hend. vm_compute (initialize _ _).1.
    intros [_ [Hform _ Hsig]]. by repeat split.
Defined.

(** X21. [handleSignAndAuthenticate] never throws. Without an address it
    only reports "Wallet not connected": no call, no write, the loading
    flag untouched. With one, it ends with [isLoading] false. *)
Theorem sign_in_never_throws gw h u :
  ∃ u',
    handleSignAndAuthenticate gw h u = (Done (), u')
    ∧ if truthy_opt (address h) then isLoading (comp (ui_page u')) = false
      else
        error (comp (ui_page u')) = Some "Wallet not connected"
        ∧ isLoading (comp (ui_page u')) = isLoading (comp (ui_page u))
        ∧ world (ui_page u') = world (ui_page u)
        ∧ ui_calls u' = ui_calls u.
Proof.
  destruct (address h) as [a|] eqn:Haddr; [destruct (truthy a) eqn:Ha|].
  2,3: unfold handleSignAndAuthenticate; rewrite Haddr;
       destruct u as [[c0 [st ls tr]] calls];
       try (destruct a; [|discriminate Ha]);
       run_t; eexists; split; [reflexivity|]; by cbn.
  cbn [truthy_opt]. rewrite Ha.
  destruct (signMessage (base gw) a (world (ui_page u))) as [[sig|e] w1] eqn:Hsign.
  2: { destruct (sign_in_unsigned gw h u a e w1 Haddr Ha Hsign) as (u' & Hrun & _ & _ & _ & Hload & _).
       by exists u'. }
  destruct (login gw a sig None w1) as [[t|resp] w2] eqn:Hlogin.
  - destruct (login_rejected gw h u a sig w1 t w2 Haddr Ha Hsign Hlogin)
      as (u' & Hrun & _ & _ & Hload & _).
    by exists u'.
  - destruct (login_answered gw h u a sig w1 resp w2 Haddr Ha Hsign Hlogin)
      as (u' & Hrun & _ & Hload & _).
    by exists u'.
Qed.

(** Bot verification up to the CAPTCHA check. *)
Lemma bot_verification_unverified gw h c u a :
  address h = Some a → truthy a = true →
  truthy_opt (hcaptchaToken c) = false
  ∨ (∃ t, signVerification gw (verificationChallenge a) = inl t) →
  ∃ u',
    handleBotVerification gw h c u = (Done (), u')
    ∧ ui_calls u' = ui_calls u ++ [CallSignVerification (verificationChallenge a)]
    ∧ world (ui_page u') = world (ui_page u)
    ∧ isLoading (comp (ui_page u')) = false
    ∧ error (comp (ui_page u'))
      = Some match signVerification gw (verificationChallenge a) with
             | inl t => verificationSignFailure t
             | inr _ => "Please complete the captcha to continue."
             end.
Proof.
  intros Haddr Ha Hstop.
  destruct u as [[c0 [st ls tr]] calls].
  unfold handleBotVerification. rewrite Haddr.
  destruct a as [|a0 a]; [discriminate Ha|].
  run_t. unfold verificationSignFailure.
  destruct (signVerification gw _) as [t|sig] eqn:Hsign.
  { destruct (cancelled t); run_t.
    all: eexists; split; [reflexivity|]; simpl_ui; by repeat split. }
  destruct Hstop as [Hcaptcha|[t Ht]]; [|discriminate Ht].
  destruct (hcaptchaToken c) as [[|k tok]|]; [|discriminate Hcaptcha|].
  all: run_t; eexists; split; [reflexivity|]; simpl_ui; by repeat split.
Qed.

(** Bot verification once [verifyBot] is called. *)
Lemma bot_verification_called gw h c u a sig tok :
  address h = Some a → truthy a = true →
  signVerification gw (verificationChallenge a) = inr sig →
  hcaptchaToken c = Some tok → truthy tok = true →
  ∃ u',
    handleBotVerification gw h c u = (Done (), u')
    ∧ isLoading (comp (ui_page u')) = false
    ∧ match verifyBot gw a sig tok (world (ui_page u)) with
      | (inl t, w2) =>
          ui_calls u'
          = ui_calls u ++ [CallSignVerification (verificationChallenge a);
                           CallVerifyBot a sig tok]
          ∧ world (ui_page u') = w2
          ∧ error (comp (ui_page u'))
            = Some (messageOr (thrown t)
                      "An unexpected error occurred during verification.")
      | (inr result, w2) =>
          error (comp (ui_page u')) = None
          ∧ if verify_success result then
              ui_calls u'
              = ui_calls u ++ [CallSignVerification (verificationChallenge a);
                               CallVerifyBot a sig tok;
                               ToastSuccess "Verification successful! You can now proceed."]
              ∧ world (ui_page u')
                = (initialize (base gw) (setRequiresBotVerification false w2).2).2
            else
              ui_calls u'
              = ui_calls u ++ [CallSignVerification (verificationChallenge a);
                               CallVerifyBot a sig tok;
                               ToastError (textOr (verify_message result)
                                             botVerificationFallback)]
              ∧ world (ui_page u') = w2
      end.
Proof.
  intros Haddr Ha Hsign Htok Htokt.
  destruct u as [[c0 [st ls tr]] calls].
  unfold handleBotVerification. rewrite Haddr, Htok.
  destruct a as [|a0 a]; [discriminate Ha|].
  destruct tok as [|k tok]; [discriminate Htokt|].
  run_t. rewrite Hsign. run_t.
  destruct (verifyBot gw _ _ _ _) as [[t|result] [st2 ls2 tr2]].
  { run_t. eexists; split; [reflexivity|]; simpl_ui.
    rewrite <- ?app_assoc. by repeat split. }
  destruct (verify_success result); run_t.
  2: { eexists; split; [reflexivity|]; simpl_ui.
       rewrite <- ?app_assoc. by repeat split. }
  match goal with
  | |- context [initialize ?env ?w0] => destruct (initialize env w0) as [r [st3 ls3 tr3]]
  end.
  eexists; split; [reflexivity|]; simpl_ui.
  rewrite <- ?app_assoc. by repeat split.
Qed.

(** X22. [handleBotVerification] asks the wallet for a signature before it
    looks at the CAPTCHA: without a CAPTCHA token the signature request is
    still issued, [verifyBot] is not called, the page's world is
    untouched, and the error is the signing failure if there was one,
    otherwise "Please complete the captcha to continue.". *)
Theorem bot_verification_signs_before_captcha gw h c u a :
  address h = Some a → truthy a = true →
  truthy_opt (hcaptchaToken c) = false →
  ∃ u',
    handleBotVerification gw h c u = (Done (), u')
    ∧ ui_calls u' = ui_calls u ++ [CallSignVerification (verificationChallenge a)]
    ∧ world (ui_page u') = world (ui_page u)
    ∧ isLoading (comp (ui_page u')) = false
    ∧ error (comp (ui_page u'))
      = Some match signVerification gw (verificationChallenge a) with
             | inl t => verificationSignFailure t
             | inr _ => "Please complete the captcha to continue."
             end.
Proof.
  intros Haddr Ha Hcaptcha. apply bot_verification_unverified; auto.
Qed.

(** An instance: the wallet signs, no CAPTCHA was solved. *)
Lemma bot_verification_signs_before_captcha_witness :
  ∃ u',
    handleBotVerification
      (Samples.service (Examples.gateway (Examples.completed []) (inr "0xsig"))
         (inl (Samples.rejection "no"))
         (inr {| verify_success := true; verify_message := None |}) (inr "0xsig"))
      (Examples.hooks true None) initialComponent Samples.firstVisit = (Done (), u')
    ∧ ui_calls u'
      = [CallSignVerification "I am verifying my account for Helios Testnet: 0xA"]
    ∧ error (comp (ui_page u')) = Some "Please complete the captcha to continue.".
Proof.
  edestruct (bot_verification_signs_before_captcha
               (Samples.service (Examples.gateway (Examples.completed []) (inr "0xsig"))
                  (inl (Samples.rejection "no"))
                  (inr {| verify_success := true; verify_message := None |})
                  (inr "0xsig"))
               (Examples.hooks true None) initialComponent Samples.firstVisit "0xA")
    as (u' & Hrun & Hcalls & _ & _ & Herr).
  - reflexivity.
  - reflexivity.
  - reflexivity.
  - exists u'. split; [exact Hrun|]. split; [exact Hcalls|exact Herr].
Defined.

(** X23. Once [handleBotVerification] has a signature and a CAPTCHA token
    it calls [verifyBot] once. A thrown failure becomes the error shown. A
    negative result is only a toast (the result's message, or a fallback
    when it has none or an empty one): no error is set and nothing is
    written, so the gate stays as [verifyBot] left it. A positive result
    shows the success toast, clears the store's verification flag and
    starts [initialize], whose outcome the handler does not wait for. *)
Theorem bot_verification_verdict gw h c u a sig tok :
  address h = Some a → truthy a = true →
  signVerification gw (verificationChallenge a) = inr sig →
  hcaptchaToken c = Some tok → truthy tok = true →
  ∃ u',
    handleBotVerification gw h c u = (Done (), u')
    ∧ isLoading (comp (ui_page u')) = false
    ∧ match verifyBot gw a sig tok (world (ui_page u)) with
      | (inl t, w2) =>
          ui_calls u'
          = ui_calls u ++ [CallSignVerification (verificationChallenge a);
                           CallVerifyBot a sig tok]
          ∧ world (ui_page u') = w2
          ∧ error (comp (ui_page u'))
            = Some (messageOr (thrown t)
                      "An unexpected error occurred during verification.")
      | (inr result, w2) =>
          error (comp (ui_page u')) = None
          ∧ if verify_success result then
              ui_calls u'
              = ui_calls u ++ [CallSignVerification (verificationChallenge a);
                               CallVerifyBot a sig tok;
                               ToastSuccess "Verification successful! You can now proceed."]
              ∧ world (ui_page u')
                = (initialize (base gw) (setRequiresBotVerification false w2).2).2
            else
              ui_calls u'
              = ui_calls u ++ [CallSignVerification (verificationChallenge a);
                               CallVerifyBot a sig tok;
                               ToastError (textOr (verify_message result)
                                             botVerificationFallback)]
              ∧ world (ui_page u') = w2
      end.
Proof. apply bot_verification_called. Qed.

(** An instance: the service answers a failure with an empty message. *)
Lemma bot_verification_verdict_witness :
  ∃ u',
    handleBotVerification
      (Samples.service (Examples.gateway (Examples.completed []) (inr "0xsig"))
         (inl (Samples.rejection "no"))
         (inr {| verify_success := false; verify_message := Some "" |}) (inr "0xsig"))
      (Examples.hooks true None)
      (Examples.inviteForm "" (Some "captcha") None) Samples.firstVisit = (Done (), u')
    ∧ error (comp (ui_page u')) = None
    ∧ ui_calls u'
      = [CallSignVerification "I am verifying my account for Helios Testnet: 0xA";
         CallVerifyBot "0xA" "0xsig" "captcha";
         ToastError "Bot verification failed. Please try again or contact support."].
Proof.
  edestruct (bot_verification_verdict
               (Samples.service (Examples.gateway (Examples.completed []) (inr "0xsig"))
                  (inl (Samples.rejection "no"))
                  (inr {| verify_success := false; verify_message := Some "" |})
                  (inr "0xsig"))
               (Examples.hooks true None)
               (Examples.inviteForm "" (Some "captcha") None) Samples.firstVisit
               "0xA" "0xsig" "captcha")
    as (u' & Hrun & _ & Herr & Hcalls & _).
  - reflexivity.
  - reflexivity.
  - reflexivity.
  - reflexivity.
  - reflexivity.
  - exists u'. split; [exact Hrun|]. split; [exact Herr|exact Hcalls].
Defined.

(** X24. [handleBotVerification] never throws, not even when the
    [initialize] it starts fails. Without an address it only reports
    "Wallet not connected"; with one it ends with [isLoading] false. *)
Theorem bot_verification_never_throws gw h c u :
  ∃ u',
    handleBotVerification gw h c u = (Done (), u')
    ∧ if truthy_opt (address h) then isLoading (comp (ui_page u')) = false
      else
        error (comp (ui_page u')) = Some "Wallet not connected"
        ∧ isLoading (comp (ui_page u')) = isLoading (comp (ui_page u))
        ∧ world (ui_page u') = world (ui_page u)
        ∧ ui_calls u' = ui_calls u.
Proof.
  destruct (address h) as [a|] eqn:Haddr; [destruct (truthy a) eqn:Ha|].
  2,3: unfold handleBotVerification; rewrite Haddr;
       destruct u as [[c0 [st ls tr]] calls];
       try (destruct a; [|discriminate Ha]);
       run_t; eexists; split; [reflexivity|]; by cbn.
  cbn [truthy_opt]. rewrite Ha.
  destruct (signVerification gw (verificationChallenge a)) as [t|sig] eqn:Hsign.
  { destruct (bot_verification_unverified gw h c u a Haddr Ha)
      as (u' & Hrun & _ & _ & Hload & _); [eauto|].
    by exists u'. }
  destruct (truthy_opt (hcaptchaToken c)) eqn:Hcaptcha.
  2: { destruct (bot_verification_unverified gw h c u a Haddr Ha)
         as (u' & Hrun & _ & _ & Hload & _); [eauto|].
       by exists u'. }
  destruct (hcaptchaToken c) as [tok|] eqn:Htok; [|discriminate Hcaptcha].
  destruct (bot_verification_called gw h c u a sig tok Haddr Ha Hsign Htok Hcaptcha)
    as (u' & Hrun & Hload & _).
  by exists u'.
Qed.

(** X25. [handleConnect] never throws and always ends with [isLoading]
    false, whichever branch it takes and whatever the handler it runs
    does. *)
Theorem connect_never_throws gw h c gate u :
  ∃ u',
    handleConnect gw h c gate u = (Done (), u')
    ∧ isLoading (comp (ui_page u')) = false.
Proof.
  unfold handleConnect.
  match goal with
  | |- context [catching ?b _] => set (body := b)
  end.
  unfold finally, catching.
  destruct (body u) as [[[]|t] [[c1 [st1 ls1 tr1]] calls1]]; run_t.
  all: eexists; split; reflexivity.
Qed.

(** X26. While the wallet is not connected ([isConnected] false and never
    seen connected), [handleConnect] only opens the login modal: no
    signature is asked for, no API is called, world and invite form stay
    as they are, also when bot verification or an invite code is pending.
    A rejected modal shows its message. *)
Theorem connect_only_opens_modal gw h c gate u :
  isReallyConnected h c = false →
  ∃ u',
    handleConnect gw h c gate u = (Done (), u')
    ∧ ui_calls u' = ui_calls u ++ [CallOpenLoginModal]
    ∧ world (ui_page u') = world (ui_page u)
    ∧ InviteUntouched (comp (ui_page u)) (comp (ui_page u'))
    ∧ isLoading (comp (ui_page u')) = false
    ∧ error (comp (ui_page u'))
      = match openLoginModal gw with
        | Some t => Some (messageOr (thrown t) "Failed to connect wallet")
        | None => None
        end.
Proof.
  intros Hno. destruct u as [[c0 [st ls tr]] calls].
  unfold handleConnect. rewrite Hno. cbn [negb].
  destruct (openLoginModal gw) as [t|]; run_t.
  all: eexists; split; [reflexivity|]; simpl_ui; by repeat split.
Qed.

(** An instance: a first visit, with an invite code pending. *)
Lemma connect_only_opens_modal_witness :
  ∃ u',
    handleConnect
      (Samples.service (Examples.gateway (Examples.completed []) (inr "0xsig"))
         (inl (Samples.rejection "no")) (inl (Samples.rejection "no"))
         (inr "0xsig"))
      (Examples.hooks false None)
      (withNeedsInviteCode true initialComponent) true Samples.firstVisit
    = (Done (), u')
    ∧ ui_calls u' = [CallOpenLoginModal]
    ∧ error (comp (ui_page u')) = None.
Proof.
  edestruct (connect_only_opens_modal
               (Samples.service (Examples.gateway (Examples.completed []) (inr "0xsig"))
                  (inl (Samples.rejection "no")) (inl (Samples.rejection "no"))
                  (inr "0xsig"))
               (Examples.hooks false None)
               (withNeedsInviteCode true initialComponent) true Samples.firstVisit)
    as (u' & Hrun & Hcalls & _ & _ & _ & Herr).
  - reflexivity.
  - exists u'. split; [exact Hrun|]. split; [exact Hcalls|exact Herr].
Defined.

(** With the wallet connected and the invite form open, a click is a
    registration. *)
Lemma connect_registers gw h c gate u :
  isReallyConnected h c = true → needsInviteCode c = true →
  ∃ u' p',
    handleConnect gw h c gate u = (Done (), u')
    ∧ handleRegisterWithInvite (base gw) h c
        {| comp := withIsLoading true (withError None (comp (ui_page u)));
           world := world (ui_page u) |} = (Returned (), p')
    ∧ world (ui_page u') = world p'
    ∧ ui_calls u' = ui_calls u.
Proof.
  intros Hconn Hneeds. destruct u as [[c0 [st ls tr]] calls].
  unfold handleConnect. rewrite Hconn, Hneeds. cbn [negb].
  run_t.
  match goal with
  | |- context [handleRegisterWithInvite ?env ?h ?c ?p] =>
      destruct (ControllerExtras.register_run env h c p) as (p' & evs & Hrun & _)
  end.
  rewrite Hrun. destruct p' as [c1 [st1 ls1 tr1]]. run_t.
  do 2 eexists. split; [reflexivity|]. simpl_ui. by repeat split.
Qed.

(** X27. Sign once. When the login is rejected because the account is not
    registered or not confirmed, and the user then types an invite code,
    solves the CAPTCHA and clicks the main button, the registration sends
    [confirmAccount] the wallet address, the signature obtained at sign-in,
    the trimmed code and the CAPTCHA token; the wallet is not asked to
    sign a second time and [login] is not called again. *)
Theorem invite_flow_signs_once gw h u a sig w1 t w2 code tok :
  address h = Some a → truthy a = true → isConnected h = true →
  signMessage (base gw) a (world (ui_page u)) = (Returned sig, w1) →
  truthy sig = true →
  login gw a sig None w1 = (inl t, w2) →
  classifyLogin t = NotRegistered ∨ classifyLogin t = AccountNotConfirmed →
  requiresBotVerification (store w2) = false →
  truthy (trim code) = true → truthy tok = true →
  let u1 := (handleSignAndAuthenticate gw h u).2 in
  let p2 := ((inviteCodeChanged code;; captchaVerified tok) (ui_page u1)).2 in
  let u3 := (mainButtonOnClick gw h (comp p2)
               (requiresBotVerification (store (world p2)))
               {| ui_page := p2; ui_calls := ui_calls u1 |}).2 in
  ∃ rest,
    trace (world (ui_page u3))
    = trace w2 ++ ApiConfirmAccount a sig (trim code) tok :: rest
    ∧ (∀ m, WalletSign m ∉ rest)
    ∧ ui_calls u3 = ui_calls u ++ [CallLogin a sig None].
Proof.
  intros Haddr Ha Hconn Hsign Hsigt Hlogin Hclass Hgate Hcode Htokt u1 p2 u3.
  destruct (login_rejected gw h u a sig w1 t w2 Haddr Ha Hsign Hlogin)
    as (u' & Hrun & Hworld & Hcalls & _ & Hopened).
  assert (InviteOpened a sig (comp (ui_page u'))) as [Hform Hpw Hsig].
  { by destruct Hclass as [Hc|Hc]; rewrite Hc in Hopened; destruct Hopened. }
  subst u1 p2 u3. rewrite Hrun. cbn [snd].
  destruct u' as [[c1 w] calls']. cbn [ui_page ui_calls comp world] in *. subst w.
  set (c2 := withHcaptchaToken (Some tok) (withInviteCode code c1)).
  assert ((inviteCodeChanged code;; captchaVerified tok) {| comp := c1; world := w2 |}
          = (Returned (), {| comp := c2; world := w2 |})) as -> by reflexivity.
  cbn [snd comp world]. rewrite Hgate. unfold mainButtonOnClick.
  destruct (connect_registers gw h c2 false
              {| ui_page := {| comp := c2; world := w2 |}; ui_calls := calls' |})
    as (u3 & p' & Hclick & Hreg & Hw3 & Hc3).
  { unfold isReallyConnected. by rewrite Hconn. }
  { exact Hform. }
  rewrite Hclick. cbn [snd]. rewrite Hw3, Hc3. cbn [ui_calls].
  edestruct (ControllerExtras.register_with_pending (base gw) h c2) as (p'' & rest & Hreg' & Ht & Hall).
  - unfold orElse. cbn [c2 inviteCode withHcaptchaToken withInviteCode].
    rewrite Hcode. reflexivity.
  - exact Hcode.
  - exact Hpw.
  - exact Ha.
  - exact Hsig.
  - exact Hsigt.
  - reflexivity.
  - exact Htokt.
  - rewrite Hreg in Hreg'. injection Hreg' as <-.
    exists rest. split; [exact Ht|]. split; [|exact Hcalls].
    intros m Hin. apply (ControllerExtras.forallb_elem_of _ _ _ Hall) in Hin.
    discriminate Hin.
Qed.

(** An instance: the login answers "User not found"; the code is typed
    with blanks around it. *)
Lemma invite_flow_signs_once_witness :
  let gw := Samples.service (Examples.gateway (Examples.completed []) (inr "0xsig"))
              (inl (Samples.rejection "User not found"))
              (inl (Samples.rejection "no")) (inr "0xsig") in
  let h := Examples.hooks true None in
  let u1 := (handleSignAndAuthenticate gw h Samples.firstVisit).2 in
  let p2 := ((inviteCodeChanged " HELIOS1 ";; captchaVerified "captcha") (ui_page u1)).2 in
  let u3 := (mainButtonOnClick gw h (comp p2)
               (requiresBotVerification (store (world p2)))
               {| ui_page := p2; ui_calls := ui_calls u1 |}).2 in
  ∃ rest,
    trace (world (ui_page u3))
    = WalletSign (loginChallenge "0xA")
      :: ApiConfirmAccount "0xA" "0xsig" "HELIOS1" "captcha" :: rest
    ∧ (∀ m, WalletSign m ∉ rest)
    ∧ ui_calls u3 = [CallLogin "0xA" "0xsig" None].
Proof.
  intros gw h u1 p2 u3.
  destruct (invite_flow_signs_once gw h Samples.firstVisit "0xA" "0xsig"
              (Samples.signedIn "0xA") (Samples.rejection "User not found")
              (Samples.signedIn "0xA") " HELIOS1 " "captcha")
    as (rest & Ht & Hq & Hcalls).
  - reflexivity.
  - reflexivity.
  - reflexivity.
  - reflexivity.
  - reflexivity.
  - reflexivity.
  - left. reflexivity.
  - reflexivity.
  - reflexivity.
  - reflexivity.
  - exists rest. split; [exact Ht|]. split; [exact Hq|exact Hcalls].
Defined.

(** X28. Whenever the main button shows a text, it is the one
    [renderButtonText] computes for the same render, although two of the
    JSX branches write their text out instead of calling it; while
    loading the button shows no text, so the three loading texts of
    [renderButtonText] never appear on it. *)
Theorem main_button_label h c gate :
  mainButtonText h c gate
  = if isLoading c then None else Some (renderButtonText h c gate).
Proof.
  unfold mainButtonText, renderButtonText.
  destruct (isLoading c); [done|].
  destruct (isReallyConnected h c); cbn [negb]; [|done].
  destruct gate; [done|].
  by destruct (needsInviteCode c).
Qed.

(** What the "Back" link does. *)
Lemma clearInviteState_run p :
  ∃ p',
    clearInviteState p = (Returned (), p')
    ∧ needsInviteCode (comp p') = false
    ∧ requiresBotVerification (store (world p')) = false
    ∧ showDiscordLink (comp p') = false
    ∧ pendingSignature (comp p') = None
    ∧ pendingWallet (comp p') = None
    ∧ inviteCode (comp p') = ""
    ∧ inviteError (comp p') = None
    ∧ error (comp p') = None
    ∧ localStorage (world p') = localStorage (world p)
    ∧ user (store (world p')) = user (store (world p))
    ∧ step (store (world p')) = step (store (world p))
    ∧ hcaptchaToken (comp p') = hcaptchaToken (comp p)
    ∧ isLoading (comp p') = isLoading (comp p)
    ∧ wasEverConnected (comp p') = wasEverConnected (comp p).
Proof.
  destruct p as [c [st ls tr]]. unfold clearInviteState.
  cbv [setShowDiscordLink setRequiresBotVerification]. run_ui.
  eexists; split; [reflexivity|]. simpl_ui. by repeat split.
Qed.

(** X29. The "Back" link closes both forms without ending the session:
    after [clearInviteState] the invite form and the store's verification
    flag are off, so the link itself is no longer rendered and the main
    button reads "Continue" or "Connect Wallet"; the invite code typed so
    far and the code from the URL are gone from the field; the token, the
    user, the step and the CAPTCHA token are kept. *)
Theorem back_closes_forms h p :
  ∃ p',
    clearInviteState p = (Returned (), p')
    ∧ backLinkShown h (comp p') (requiresBotVerification (store (world p'))) = false
    ∧ mainButtonText h (comp p') (requiresBotVerification (store (world p')))
      = (if isLoading (comp p) then None
         else Some (if isReallyConnected h (comp p) then "Continue"
                    else "Connect Wallet"))
    ∧ inviteCode (comp p') = ""
    ∧ localStorage (world p') = localStorage (world p)
    ∧ user (store (world p')) = user (store (world p))
    ∧ step (store (world p')) = step (store (world p))
    ∧ hcaptchaToken (comp p') = hcaptchaToken (comp p).
Proof.
  destruct (clearInviteState_run p)
    as (p' & Hrun & Hneeds & Hgate & _ & _ & _ & Hcode & _ & _ & Hls & Hu & Hs
        & Hcap & Hload & Hever).
  exists p'. split; [exact Hrun|].
  unfold backLinkShown, mainButtonText, isReallyConnected.
  rewrite Hneeds, Hgate, Hload, Hever.
  split; [by rewrite andb_false_r|].
  split; [|done].
  destruct (isLoading (comp p)); [done|].
  by destruct (isConnected h || wasEverConnected (comp p)).
Qed.
End AuthFacts.


(** ** Properties of the invite code badge *)

Module BadgeFacts.
Import JS InviteCodeDisplay.

Ltac run_badge :=
  cbv [setCells request setReferralCode setReferralCount setReferralXP setLoading
       setError setInviteQuota setQuotaLoading promiseAll
       mbind M_bind mret M_ret gets modify tryCatch tryFinally throw settle
       fst snd cells requests].

Ltac simpl_badge :=
  cbn [cells requests referralCode referralCount referralXP copied loading error
       inviteQuota quotaLoading].

Lemma fetchInviteQuota_run api addr b :
  truthy addr = true →
  ∃ b',
    fetchInviteQuota api (Some addr) b = (Returned (), b')
    ∧ requests b' = requests b ++ [GetUserInviteStatus addr]
    ∧ quotaLoading (cells b') = false
    ∧ inviteQuota (cells b') = quotaAfter (getUserInviteStatus api addr) (inviteQuota (cells b))
    ∧ referralCode (cells b') = referralCode (cells b)
    ∧ referralCount (cells b') = referralCount (cells b)
    ∧ referralXP (cells b') = referralXP (cells b)
    ∧ loading (cells b') = loading (cells b)
    ∧ error (cells b') = error (cells b)
    ∧ copied (cells b') = copied (cells b).
Proof.
  intros Ha. destruct addr as [|a0 addr]; [discriminate Ha|].
  destruct b as [c rs]. unfold fetchInviteQuota, quotaAfter. run_badge.
  destruct (getUserInviteStatus api _) as [e|[r|]]; run_badge.
  2: destruct (quota_success r); [destruct (quota_data r) as [d|]|]; run_badge.
  2: destruct d.
  all: eexists; split; [reflexivity|]; simpl_badge; by repeat split.
Qed.

(** X30. With an address, [fetchUserData] never throws and ends with
    [loading] false. It starts the profile and the referrals request
    together, so both are issued even if the first fails. If either
    fails, the error "Failed to load user data." is set, no quota is
    requested and the code, the counters and the quota shown stay as they
    were. If both answer, the code is the profile's, else the referral
    answer's, else none (an empty code counts as none); the quota is then
    requested, and a failure of that request or a malformed answer is
    absorbed: no error is set and the previous quota stays. *)
Theorem fetchUserData_settles api addr b :
  truthy addr = true →
  ∃ b',
    fetchUserData api (Some addr) b = (Returned (), b')
    ∧ loading (cells b') = false
    ∧ copied (cells b') = copied (cells b)
    ∧ match getUserProfile api addr, getUserReferrals api 1 1 with
      | inr profile, inr referrals =>
          requests b'
          = requests b ++ [GetUserProfile addr; GetUserReferrals 1 1;
                           GetUserInviteStatus addr]
          ∧ error (cells b') = None
          ∧ referralCode (cells b')
            = firstCode (profile ≫= profile_referralCode)
                (referrals ≫= referrals_referralCode)
          ∧ quotaLoading (cells b') = false
          ∧ inviteQuota (cells b')
            = quotaAfter (getUserInviteStatus api addr) (inviteQuota (cells b))
      | _, _ =>
          requests b' = requests b ++ [GetUserProfile addr; GetUserReferrals 1 1]
          ∧ error (cells b') = Some "Failed to load user data."
          ∧ referralCode (cells b') = referralCode (cells b)
          ∧ referralCount (cells b') = referralCount (cells b)
          ∧ referralXP (cells b') = referralXP (cells b)
          ∧ inviteQuota (cells b') = inviteQuota (cells b)
          ∧ quotaLoading (cells b') = quotaLoading (cells b)
      end.
Proof.
  intros Ha. destruct b as [c rs]. unfold fetchUserData.
  destruct addr as [|a0 addr]; [discriminate Ha|].
  destruct (getUserProfile api _) as [e1|profile];
    destruct (getUserReferrals api 1 1) as [e2|referrals].
  1-3: run_badge; eexists; split; [reflexivity|]; simpl_badge;
       rewrite <- ?app_assoc; by repeat split.
  run_badge.
  assert (∀ b0 : Badge, ∃ b',
            fetchInviteQuota api (Some (String a0 addr)) b0 = (Returned (), b')
            ∧ requests b' = requests b0 ++ [GetUserInviteStatus (String a0 addr)]
            ∧ quotaLoading (cells b') = false
            ∧ inviteQuota (cells b')
              = quotaAfter (getUserInviteStatus api (String a0 addr))
                  (inviteQuota (cells b0))
            ∧ referralCode (cells b') = referralCode (cells b0)
            ∧ loading (cells b') = loading (cells b0)
            ∧ error (cells b') = error (cells b0)
            ∧ copied (cells b') = copied (cells b0)) as Hquota.
  { intros b0. destruct (fetchInviteQuota_run api (String a0 addr) b0 Ha)
      as (b' & Hrun & Hr & Hql & Hq & Hcode & _ & _ & Hl & He & Hc).
    by exists b'. }
  destruct referrals as [r|]; [destruct (referrals_success r)|]; run_badge.
  all: match goal with
       | |- context [fetchInviteQuota _ _ ?b0] =>
           destruct (Hquota b0) as (b' & -> & Hr & Hql & Hq & Hcode & Hl & He & Hc)
       end.
  all: destruct b' as [c' rs']; run_badge;
    cbn [cells requests referralCode referralCount referralXP copied loading error
         inviteQuota quotaLoading] in *.
  all: eexists; split; [reflexivity|]; simpl_badge.
  all: rewrite Hr, <- ?app_assoc; by repeat split.
Qed.

(** An instance: the profile has an empty code, the referrals answer has
    one, and the quota request fails. *)
Lemma fetchUserData_settles_witness :
  let api := {| getUserProfile := λ _, inr (Some {| profile_referralCode := Some "" |});
                getUserReferrals := λ _ _,
                  inr (Some {| referrals_referralCode := Some "HELIOS1";
                               referrals_success := false;
                               referrals_referralCount := None;
                               referrals_referralXP := None |});
                getUserInviteStatus := λ _, inl (newError "Network Error") |} in
  ∃ b',
    fetchUserData api (Some "0xA") {| cells := initialCells; requests := [] |}
    = (Returned (), b')
    ∧ view (cells b') = CodeBadge "HEL...S1".
Proof.
  intros api.
  destruct (fetchUserData_settles api "0xA" {| cells := initialCells; requests := [] |})
    as (b' & Hrun & Hload & _ & _ & Herr & Hcode & _).
  - reflexivity.
  - exists b'. split; [exact Hrun|].
    unfold view. rewrite Hload, Herr, Hcode. reflexivity.
Defined.
End BadgeFacts.
